(** * Fouling-cost prediction engine: FoulingPhysics and AdaptiveFoulingModel

    A shallow embedding of the two model classes of the vessel-fouling
    application (server/models/foulingPhysics.js and
    server/models/adaptiveModel.js) together with the properties of the
    natural-language specification that concern them.

    JavaScript numbers are IEEE-754 doubles.  They are modelled here as the
    extended reals with a NaN element: a finite double is the real number it
    denotes (rounding is idealised away, zero carries no sign and behaves as
    +0), and the three special values keep the behaviour ECMAScript gives
    them in arithmetic, in comparisons and in Math.max / Math.min.  Where a
    property depends on the rounding itself, as the calibration of the cost
    law does, the operations are given their rounding errors explicitly
    ([JS.fl]). *)

From Stdlib Require Import Reals Lra Lia ZArith List String Bool.
Import ListNotations.

Local Open Scope R_scope.

(* ================================================================== *)
(** ** JavaScript numbers *)
(* ================================================================== *)

Module JS.

Inductive number : Type :=
| NaN
| NegInf
| Fin (r : R)
| PosInf.

(** Sign of a real, as the special cases of [*] and [/] need it. *)
Inductive sign : Type := Neg | Zero | Pos.

Definition sgn (r : R) : sign :=
  match total_order_T r 0 with
  | inleft (left _) => Neg
  | inleft (right _) => Zero
  | inright _ => Pos
  end.

Definition neg (a : number) : number :=
  match a with
  | NaN => NaN
  | NegInf => PosInf
  | Fin x => Fin (- x)
  | PosInf => NegInf
  end.

(** [a + b] *)
Definition add (a b : number) : number :=
  match a, b with
  | NaN, _ | _, NaN => NaN
  | PosInf, NegInf | NegInf, PosInf => NaN
  | PosInf, _ | _, PosInf => PosInf
  | NegInf, _ | _, NegInf => NegInf
  | Fin x, Fin y => Fin (x + y)
  end.

(** [a - b] *)
Definition sub (a b : number) : number := add a (neg b).

Definition signed_inf (s : sign) : number :=
  match s with
  | Neg => NegInf
  | Zero => NaN
  | Pos => PosInf
  end.

(** [a * b]: infinity times zero is NaN. *)
Definition mul (a b : number) : number :=
  match a, b with
  | NaN, _ | _, NaN => NaN
  | PosInf, PosInf | NegInf, NegInf => PosInf
  | PosInf, NegInf | NegInf, PosInf => NegInf
  | PosInf, Fin y | Fin y, PosInf => signed_inf (sgn y)
  | NegInf, Fin y | Fin y, NegInf => neg (signed_inf (sgn y))
  | Fin x, Fin y => Fin (x * y)
  end.

(** [a / b]: a non-zero finite number over zero is an infinity, zero over
    zero and infinity over infinity are NaN. *)
Definition div (a b : number) : number :=
  match a, b with
  | NaN, _ | _, NaN => NaN
  | (PosInf | NegInf), (PosInf | NegInf) => NaN
  | PosInf, Fin y => match sgn y with Neg => NegInf | _ => PosInf end
  | NegInf, Fin y => match sgn y with Neg => PosInf | _ => NegInf end
  | Fin _, (PosInf | NegInf) => Fin 0
  | Fin x, Fin y =>
      match sgn y with
      | Zero => signed_inf (sgn x)
      | _ => Fin (x / y)
      end
  end.

(** [a < b]; every comparison with NaN is false. *)
Definition lt (a b : number) : bool :=
  match a, b with
  | NaN, _ | _, NaN => false
  | _, NegInf => false
  | NegInf, _ => true
  | PosInf, _ => false
  | Fin _, PosInf => true
  | Fin x, Fin y => if Rlt_dec x y then true else false
  end.

(** [a <= b] *)
Definition le (a b : number) : bool :=
  match a, b with
  | NaN, _ | _, NaN => false
  | NegInf, _ => true
  | _, PosInf => true
  | _, NegInf => false
  | PosInf, _ => false
  | Fin x, Fin y => if Rle_dec x y then true else false
  end.

(** [a > b] and [a >= b] *)
Definition gt (a b : number) : bool := lt b a.
Definition ge (a b : number) : bool := le b a.

(** [a === b] on numbers: NaN differs from itself. *)
Definition strict_eq (a b : number) : bool :=
  match a, b with
  | NegInf, NegInf | PosInf, PosInf => true
  | Fin x, Fin y => if Req_dec_T x y then true else false
  | _, _ => false
  end.

(** ToBoolean: a number is falsy exactly when it is zero or NaN. *)
Definition truthy (a : number) : bool :=
  match a with
  | NaN => false
  | Fin x => if Req_dec_T x 0 then false else true
  | _ => true
  end.

(** [a || b] on numbers. *)
Definition or_else (a b : number) : number := if truthy a then a else b.

(** Math.max and Math.min of two arguments: NaN if either argument is. *)
Definition Math_max (a b : number) : number :=
  match a, b with
  | NaN, _ | _, NaN => NaN
  | _, _ => if lt a b then b else a
  end.

Definition Math_min (a b : number) : number :=
  match a, b with
  | NaN, _ | _, NaN => NaN
  | _, _ => if lt b a then b else a
  end.

Definition Math_abs (a : number) : number :=
  match a with
  | NaN => NaN
  | NegInf | PosInf => PosInf
  | Fin x => Fin (Rabs x)
  end.

(** Math.floor: the largest integer not above the argument. *)
Definition Math_floor (a : number) : number :=
  match a with
  | Fin x => Fin (IZR (Int_part x))
  | _ => a
  end.

(** Math.round: the nearest integer, halves going up. *)
Definition Math_round (a : number) : number :=
  match a with
  | Fin x => Fin (IZR (Int_part (x + 0.5)))
  | _ => a
  end.

Definition Math_sqrt (a : number) : number :=
  match a with
  | NaN | NegInf => NaN
  | PosInf => PosInf
  | Fin x => match sgn x with Neg => NaN | _ => Fin (sqrt x) end
  end.

(** Integer-valued reals, and their parity, for powers of negative bases. *)
Definition is_integer (y : R) : bool :=
  if Req_dec_T (IZR (Int_part y)) y then true else false.

Definition is_odd_integer (y : R) : bool :=
  is_integer y && Z.odd (Int_part y).

(** Math.pow(base, exponent), following Number::exponentiate. *)
Definition Math_pow (b e : number) : number :=
  match e with
  | NaN => NaN
  | Fin y =>
      match sgn y with
      | Zero => Fin 1
      | sy =>
          match b with
          | NaN => NaN
          | PosInf => match sy with Pos => PosInf | _ => Fin 0 end
          | NegInf =>
              match sy with
              | Pos => if is_odd_integer y then NegInf else PosInf
              | _ => Fin 0
              end
          | Fin x =>
              match sgn x with
              | Pos => Fin (Rpower x y)
              | Zero => match sy with Pos => Fin 0 | _ => PosInf end
              | Neg =>
                  if is_integer y
                  then Fin (if Z.odd (Int_part y)
                            then - Rpower (- x) y else Rpower (- x) y)
                  else NaN
              end
          end
      end
  | PosInf =>
      match b with
      | NaN => NaN
      | PosInf | NegInf => PosInf
      | Fin x =>
          match total_order_T (Rabs x) 1 with
          | inleft (left _) => Fin 0
          | inleft (right _) => NaN
          | inright _ => PosInf
          end
      end
  | NegInf =>
      match b with
      | NaN => NaN
      | PosInf | NegInf => Fin 0
      | Fin x =>
          match total_order_T (Rabs x) 1 with
          | inleft (left _) => PosInf
          | inleft (right _) => NaN
          | inright _ => Fin 0
          end
      end
  end.

(** Math.log10: the logarithm of zero is -Infinity, that of a negative
    number NaN. *)
Definition Math_log10 (a : number) : number :=
  match a with
  | NaN | NegInf => NaN
  | PosInf => PosInf
  | Fin x =>
      match sgn x with
      | Neg => NaN
      | Zero => NegInf
      | Pos => Fin (ln x / ln 10)
      end
  end.

(** The double an operation returns in place of its exact result [a]: the
    nearest double, which is [a] times 1 + d for a relative error [d] of at
    most the unit roundoff 2^-53 in magnitude (2^-52 for a Math.pow that is
    accurate to one unit in the last place) as long as the result neither
    overflows nor underflows; a run in which an operation does is a run
    whose errors are not bounded that way.  NaN and the infinities stay
    what they are. *)
Definition fl (d : R) (a : number) : number := mul a (Fin (1 + d)).

End JS.

Import JS.

Declare Scope js_scope.
Delimit Scope js_scope with js.
Bind Scope js_scope with number.
Infix "+" := add : js_scope.
Infix "-" := sub : js_scope.
Infix "*" := mul : js_scope.
Infix "/" := div : js_scope.
Infix "<?" := lt (at level 70) : js_scope.
Infix "<=?" := le (at level 70) : js_scope.
Infix ">?" := gt (at level 70) : js_scope.
Infix ">=?" := ge (at level 70) : js_scope.
Infix "===" := strict_eq (at level 70) : js_scope.
Infix "||" := or_else : js_scope.

Coercion Fin : R >-> number.

(* ================================================================== *)
(** ** Exceptions *)
(* ================================================================== *)

(** A method either returns or throws [new Error(msg)]. *)
Inductive result (A : Type) : Type :=
| Ok (a : A)
| Throw (msg : string).

Arguments Ok {A} a.
Arguments Throw {A} msg.

Definition bind {A B : Type} (r : result A) (k : A -> result B) : result B :=
  match r with
  | Ok a => k a
  | Throw msg => Throw msg
  end.

Notation "x <- r ;; k" := (bind r (fun x => k))
  (at level 61, r at next level, right associativity).
Notation "' p <- r ;; k" := (bind r (fun x => match x with p => k end))
  (at level 61, p pattern, r at next level, right associativity).

Definition throws {A : Type} (r : result A) : bool :=
  match r with Ok _ => false | Throw _ => true end.

(** [arr[i] || d] for an array of numbers and an index inside or outside it. *)
Definition index_or (arr : list number) (i : nat) (d : number) : number :=
  match nth_error arr i with
  | Some x => (x || d)%js
  | None => d
  end.

(** [array.length] as a number. *)
Definition length_number {A : Type} (l : list A) : number := Fin (INR (List.length l)).

(* ================================================================== *)
(** ** The vessel row *)
(* ================================================================== *)

(** A row of the [vessels] table.  The numeric columns are numbers (a column
    that was never filled is outside this model, except that a zero or NaN
    entry is falsy like a missing one); [vessel_category] and
    [last_clean_date] may be absent.  [last_clean_date] holds the time value,
    in milliseconds, that [new Date(...)] gives the stored date; it is NaN
    for a date that does not parse. *)
Module Vessel.
Record t : Type := {
  id : Z;
  length : number;
  beam : number;
  draft : number;
  cb : number;
  gross_tonnage : number;
  displacement : number;
  wave_exp : number;
  vessel_category : option string;
  eco_speed : number;
  full_speed : number;
  cost_eco : number;
  cost_full : number;
  last_clean_date : option number
}.
End Vessel.

(* ================================================================== *)
(** ** FoulingPhysics *)
(* ================================================================== *)

Module FoulingPhysics.

(** The object literal [calculateCostAt] returns. *)
Record CostAt : Type := {
  clean : number;
  fouled : number;
  foulingIncrease : number;
  speedReduction : number;
  roughness : number
}.

Record t : Type := {
  length : number;
  beam : number;
  draft : number;
  cb : number;
  grossTonnage : number;
  displacement : number;
  waveExp : number;
  vesselCategory : string;
  ecoSpeed : number;
  fullSpeed : number;
  costEco : number;
  costFull : number;
  alpha : option number;        (* null until solveAlphaBeta caches it *)
  beta : option number;
  wettedSurface : number
}.

(** Physical constants set by the constructor. *)
Definition KNOTS_TO_MPS : number := Fin 0.514444.
Definition MPS_TO_KNOTS : number := Fin 1.94384.
Definition NU_WATER : number := Fin 1.19e-6.
Definition RHO_WATER : number := Fin 1025.
Definition GRAVITY : number := Fin 9.81.
Definition FUEL_CO2_FACTOR : number := Fin 3.16.
Definition FUEL_ENERGY_DENSITY : number := Fin 42.7.
Definition FUEL_DENSITY : number := Fin 0.85.
Definition FUEL_PRICE_PER_LITER : number := Fin 1.92.

Definition frKsMapping : list number :=
  [Fin 0; Fin 0.00003; Fin 0.00010; Fin 0.00030; Fin 0.00080; Fin 0.00200].

(** Field updates ([this.x = ...]). *)
Definition set_displacement (this : t) (x : number) : t :=
  {| length := length this; beam := beam this; draft := draft this;
     cb := cb this; grossTonnage := grossTonnage this; displacement := x;
     waveExp := waveExp this; vesselCategory := vesselCategory this;
     ecoSpeed := ecoSpeed this; fullSpeed := fullSpeed this;
     costEco := costEco this; costFull := costFull this;
     alpha := alpha this; beta := beta this;
     wettedSurface := wettedSurface this |}.

Definition set_wettedSurface (this : t) (x : number) : t :=
  {| length := length this; beam := beam this; draft := draft this;
     cb := cb this; grossTonnage := grossTonnage this;
     displacement := displacement this;
     waveExp := waveExp this; vesselCategory := vesselCategory this;
     ecoSpeed := ecoSpeed this; fullSpeed := fullSpeed this;
     costEco := costEco this; costFull := costFull this;
     alpha := alpha this; beta := beta this;
     wettedSurface := x |}.

Definition set_speeds (this : t) (eco full : number) : t :=
  {| length := length this; beam := beam this; draft := draft this;
     cb := cb this; grossTonnage := grossTonnage this;
     displacement := displacement this;
     waveExp := waveExp this; vesselCategory := vesselCategory this;
     ecoSpeed := eco; fullSpeed := full;
     costEco := costEco this; costFull := costFull this;
     alpha := alpha this; beta := beta this;
     wettedSurface := wettedSurface this |}.

Definition set_costs (this : t) (eco full : number) : t :=
  {| length := length this; beam := beam this; draft := draft this;
     cb := cb this; grossTonnage := grossTonnage this;
     displacement := displacement this;
     waveExp := waveExp this; vesselCategory := vesselCategory this;
     ecoSpeed := ecoSpeed this; fullSpeed := fullSpeed this;
     costEco := eco; costFull := full;
     alpha := alpha this; beta := beta this;
     wettedSurface := wettedSurface this |}.

Definition set_alpha_beta (this : t) (a b : number) : t :=
  {| length := length this; beam := beam this; draft := draft this;
     cb := cb this; grossTonnage := grossTonnage this;
     displacement := displacement this;
     waveExp := waveExp this; vesselCategory := vesselCategory this;
     ecoSpeed := ecoSpeed this; fullSpeed := fullSpeed this;
     costEco := costEco this; costFull := costFull this;
     alpha := Some a; beta := Some b;
     wettedSurface := wettedSurface this |}.

(** calculateWettedSurface *)
Definition calculateWettedSurface (this : t) : number :=
  (length this * (Fin 2 * draft this + beam this) * Math_sqrt (cb this) *
   (Fin 0.453 + Fin 0.4425 * cb this - Fin 0.2862 * cb this * cb this +
    Fin 0.003467 * beam this / draft this + Fin 0.3696 * Fin 0.65))%js.

(** estimateVesselSpeeds *)
Definition speedFactor (category : string) : number :=
  if String.eqb category "cargo" then Fin 0.8
  else if String.eqb category "container" then Fin 1.2
  else if String.eqb category "cruise" then Fin 1.1
  else if String.eqb category "naval" then Fin 1.4
  else if String.eqb category "workboat" then Fin 0.9
  else if String.eqb category "yacht" then Fin 1.3
  else Fin 1.0.

Definition estimateVesselSpeeds (this : t) : number * number :=
  let speedFactor := speedFactor (vesselCategory this) in
  let ecoFr := (Fin 0.18 * speedFactor)%js in
  let fullFr := (Fin 0.25 * speedFactor)%js in
  let ecoSpeed := (ecoFr * Math_sqrt (GRAVITY * length this) * MPS_TO_KNOTS)%js in
  let fullSpeed := (fullFr * Math_sqrt (GRAVITY * length this) * MPS_TO_KNOTS)%js in
  (ecoSpeed, fullSpeed).

(** estimateVesselCosts *)
Definition estimateVesselCosts (this : t) : number * number :=
  let powerEco := (displacement this * Math_pow (ecoSpeed this) (Fin 2.5) * Fin 0.015)%js in
  let powerFull := (displacement this * Math_pow (fullSpeed this) (Fin 2.5) * Fin 0.015)%js in
  let efficiencyBase := Fin 0.35 in
  let costEco :=
    (powerEco * FUEL_PRICE_PER_LITER /
     (efficiencyBase * FUEL_ENERGY_DENSITY * Fin 3.6))%js in
  let costFull :=
    (powerFull * FUEL_PRICE_PER_LITER /
     ((efficiencyBase + Fin 0.05) * FUEL_ENERGY_DENSITY * Fin 3.6))%js in
  (costEco, costFull).

(** estimateMissingParameters *)
Definition estimateMissingParameters (this : t) : t :=
  let this :=
    if negb (truthy (ecoSpeed this)) || negb (truthy (fullSpeed this))
    then
      let '(ecoSpeed', fullSpeed') := estimateVesselSpeeds this in
      set_speeds this (ecoSpeed this || ecoSpeed')%js (fullSpeed this || fullSpeed')%js
    else this in
  if negb (truthy (costEco this)) || negb (truthy (costFull this))
  then
    let '(costEco', costFull') := estimateVesselCosts this in
    set_costs this (costEco this || costEco')%js (costFull this || costFull')%js
  else this.

(** initializeParameters *)
Definition initializeParameters (this : t) : t :=
  let this := set_wettedSurface this (calculateWettedSurface this) in
  let this :=
    if negb (truthy (displacement this))
    then set_displacement this
           (length this * beam this * draft this * cb this * RHO_WATER / Fin 1000)%js
    else this in
  estimateMissingParameters this.

(** [vessel.vessel_category || 'cargo'] *)
Definition category_or_cargo (c : option string) : string :=
  match c with
  | Some s => if String.eqb s "" then "cargo"%string else s
  | None => "cargo"%string
  end.

(** constructor(vessel); [wettedSurface] is undefined (NaN as a number)
    until initializeParameters assigns it. *)
Definition new (vessel : Vessel.t) : t :=
  initializeParameters
    {| length := Vessel.length vessel;
       beam := Vessel.beam vessel;
       draft := Vessel.draft vessel;
       cb := Vessel.cb vessel;
       grossTonnage := Vessel.gross_tonnage vessel;
       displacement := Vessel.displacement vessel;
       waveExp := (Vessel.wave_exp vessel || Fin 4.5)%js;
       vesselCategory := category_or_cargo (Vessel.vessel_category vessel);
       ecoSpeed := Vessel.eco_speed vessel;
       fullSpeed := Vessel.full_speed vessel;
       costEco := Vessel.cost_eco vessel;
       costFull := Vessel.cost_full vessel;
       alpha := None;
       beta := None;
       wettedSurface := NaN |}.

(** solveAlphaBeta(ecoCost, fullCost, ecoSpeed, fullSpeed): the object with
    the cached coefficients, and the pair it returns. *)
Definition solveAlphaBeta (this : t) (ecoCost fullCost ecoSpeed fullSpeed : number)
  : result (t * (number * number)) :=
  if (ecoSpeed === fullSpeed)%js then Throw "Speeds must differ"
  else if negb (truthy ecoCost) || negb (truthy fullCost) ||
          negb (truthy ecoSpeed) || negb (truthy fullSpeed)
  then Throw "All parameters must be provided"
  else
    let s1 := ecoSpeed in
    let s2 := fullSpeed in
    let x1 := Math_pow s1 (Fin 3) in
    let y1 := Math_pow s1 (waveExp this) in
    let x2 := Math_pow s2 (Fin 3) in
    let y2 := Math_pow s2 (waveExp this) in
    let det := (x1 * y2 - x2 * y1)%js in
    let alpha := ((ecoCost * y2 - fullCost * y1) / det)%js in
    let beta := ((fullCost * x1 - ecoCost * x2) / det)%js in
    Ok (set_alpha_beta this alpha beta, (alpha, beta)).

(** The value of a cached coefficient in arithmetic; the guard of
    calculateBaseCost makes sure it is not null when it is read. *)
Definition coefficient (c : option number) : number :=
  match c with Some x => x | None => Fin 0 end.

(** calculateBaseCost(speed) *)
Definition calculateBaseCost (this : t) (speed : number) : result (t * number) :=
  this <-
    match alpha this, beta this with
    | Some _, Some _ => Ok this
    | _, _ =>
        '(this', _) <-
          solveAlphaBeta this (costEco this) (costFull this)
                         (ecoSpeed this) (fullSpeed this) ;;
        Ok this'
    end ;;
  let clampedSpeed :=
    Math_max (Fin 0.1) (Math_min speed (fullSpeed this * Fin 1.2)%js) in
  Ok (this,
      (coefficient (alpha this) * Math_pow clampedSpeed (Fin 3) +
       coefficient (beta this) * Math_pow clampedSpeed (waveExp this))%js).

(** solveAlphaBeta with the rounding of its operations made explicit: the
    i-th floating-point operation, in the order of evaluation, returns its
    exact result with the relative error [d i].  The four calls of Math.pow
    are operations 0 to 3, the determinant takes 4 to 6, alpha 7 to 10 and
    beta 11 to 14.  With every error zero this is solveAlphaBeta. *)
Definition solveAlphaBeta_fl (d : nat -> R) (this : t)
    (ecoCost fullCost ecoSpeed fullSpeed : number)
  : result (t * (number * number)) :=
  if (ecoSpeed === fullSpeed)%js then Throw "Speeds must differ"
  else if negb (truthy ecoCost) || negb (truthy fullCost) ||
          negb (truthy ecoSpeed) || negb (truthy fullSpeed)
  then Throw "All parameters must be provided"
  else
    let s1 := ecoSpeed in
    let s2 := fullSpeed in
    let x1 := fl (d 0%nat) (Math_pow s1 (Fin 3)) in
    let y1 := fl (d 1%nat) (Math_pow s1 (waveExp this)) in
    let x2 := fl (d 2%nat) (Math_pow s2 (Fin 3)) in
    let y2 := fl (d 3%nat) (Math_pow s2 (waveExp this)) in
    let det :=
      fl (d 6%nat) (fl (d 4%nat) (x1 * y2) - fl (d 5%nat) (x2 * y1))%js in
    let alpha :=
      fl (d 10%nat)
         (fl (d 9%nat)
             (fl (d 7%nat) (ecoCost * y2) - fl (d 8%nat) (fullCost * y1)) / det)%js in
    let beta :=
      fl (d 14%nat)
         (fl (d 13%nat)
             (fl (d 11%nat) (fullCost * x1) - fl (d 12%nat) (ecoCost * x2)) / det)%js in
    Ok (set_alpha_beta this alpha beta, (alpha, beta)).

(** calculateBaseCost with the rounding of its operations made explicit:
    [d] is passed to the calibration it may trigger, and its own six
    operations have the errors [e 0] (the bound of the clamp), [e 1] and
    [e 3] (the two powers), [e 2] and [e 4] (the two products) and [e 5]
    (the sum).  With every error zero this is calculateBaseCost. *)
Definition calculateBaseCost_fl (d e : nat -> R) (this : t) (speed : number)
  : result (t * number) :=
  this <-
    match alpha this, beta this with
    | Some _, Some _ => Ok this
    | _, _ =>
        '(this', _) <-
          solveAlphaBeta_fl d this (costEco this) (costFull this)
                            (ecoSpeed this) (fullSpeed this) ;;
        Ok this'
    end ;;
  let clampedSpeed :=
    Math_max (Fin 0.1)
      (Math_min speed (fl (e 0%nat) (fullSpeed this * Fin 1.2)%js)) in
  Ok (this,
      fl (e 5%nat)
         (fl (e 2%nat)
             (coefficient (alpha this) * fl (e 1%nat) (Math_pow clampedSpeed (Fin 3))) +
          fl (e 4%nat)
             (coefficient (beta this) *
              fl (e 3%nat) (Math_pow clampedSpeed (waveExp this))))%js).

Definition foulingIncreases : list number :=
  [Fin 0; Fin 0.15; Fin 0.35; Fin 0.60; Fin 0.95; Fin 1.93].

(** The Froude number computed inside calculateCostAt. *)
Definition froude (this : t) (speed : number) : number :=
  let speedMs := (speed * KNOTS_TO_MPS)%js in
  (speedMs / Math_sqrt (GRAVITY * length this))%js.

(** The speed-dependent reduction factor of calculateCostAt. *)
Definition speedReductionAt (Fr : number) : number :=
  if (Fr >? Fin 0.15)%js
  then Math_max (Fin 0.3) (Fin 1.0 - Fin 2.0 * (Fr - Fin 0.15))%js
  else Fin 1.0.

(** calculateCostAt(speed, frLevel = 0); [frLevel] is the array index. *)
Definition calculateCostAt (this : t) (speed : number) (frLevel : nat)
  : result (t * CostAt) :=
  '(this, baseCost) <- calculateBaseCost this speed ;;
  let roughness := index_or frKsMapping frLevel (Fin 0) in
  let Fr := froude this speed in
  let speedReduction := speedReductionAt Fr in
  let baseFoulingIncrease := index_or foulingIncreases frLevel (Fin 0) in
  let effectiveFoulingIncrease := (baseFoulingIncrease * speedReduction)%js in
  let costFouledHr := (baseCost * (Fin 1 + effectiveFoulingIncrease))%js in
  Ok (this,
      {| clean := baseCost;
         fouled := costFouledHr;
         foulingIncrease := effectiveFoulingIncrease;
         speedReduction := speedReduction;
         roughness := roughness |}).

(** The engine and propulsion constants of the constructor. *)
Definition propEfficiency : number := Fin 0.65.
Definition sfoc : number := Fin 200.
Definition fuelCostPerKg : number := (FUEL_PRICE_PER_LITER / FUEL_DENSITY)%js.
Definition co2PerKgFuel : number := FUEL_CO2_FACTOR.

(** calculateReynolds(speedMs, length) *)
Definition calculateReynolds (speedMs length : number) : number :=
  (speedMs * length / NU_WATER)%js.

(** calculateCfs(ReL) *)
Definition calculateCfs (ReL : number) : number :=
  if (ReL <=? Fin 0)%js then Fin 0
  else (Fin 0.075 / Math_pow (Math_log10 ReL - Fin 2) (Fin 2))%js.

(** calculateCf(ReL, ks, L) *)
Definition calculateCf (this : t) (ReL ks L : number) : number :=
  let Cfs := calculateCfs ReL in
  if (ks <=? Fin 0)%js || negb (truthy ks) then Cfs
  else
    let L := if negb (truthy L) then (length this || Fin 50)%js else L in
    let roughnessRatio := (ks / L)%js in
    let roughnessFactor := (Fin 1 + Fin 100 * roughnessRatio)%js in
    let CfRough := (Cfs * roughnessFactor)%js in
    Math_min CfRough (Cfs * Fin 3)%js.

(** calculateFormFactor() *)
Definition calculateFormFactor (this : t) : number :=
  let L := length this in
  let B := (beam this || L / Fin 5)%js in
  let T := (draft this || B / Fin 2.5)%js in
  let Cb := (cb this || Fin 0.65)%js in
  let LR :=
    (L / Math_pow (displacement this || (L * B * T * Cb * RHO_WATER / Fin 1000))
                  (Fin 1 / Fin 3))%js in
  let c14 := (Fin 1 + Fin 0.011 * Cb)%js in
  let K := (c14 - Fin 0.001 * LR)%js in
  Math_max (Fin 0) K.

(** calculateWaveResistance(speedMs) *)
Definition calculateWaveResistance (this : t) (speedMs : number) : number :=
  let Fr := (speedMs / Math_sqrt (GRAVITY * length this))%js in
  let Cw :=
    if (Fr >? Fin 0.05)%js then (Fin 0.00008 * Math_pow Fr (Fin 4))%js
    else Fin 0 in
  (Fin 0.5 * RHO_WATER * wettedSurface this * Cw * speedMs * speedMs)%js.

(** The object calculateResistanceComponents returns. *)
Record Resistance : Type := {
  friction : number;
  wave : number;
  form : number;
  total : number;
  reynolds : number;
  res_froude : number
}.

(** calculateResistanceComponents(speed, frLevel = 0) *)
Definition calculateResistanceComponents (this : t) (speed : number) (frLevel : nat)
  : Resistance :=
  let speedMs := (speed * KNOTS_TO_MPS)%js in
  let Re := calculateReynolds speedMs (length this) in
  let roughness := index_or frKsMapping frLevel (Fin 0) in
  let cf := calculateCf this Re roughness (length this) in
  let frictionResistance :=
    (Fin 0.5 * RHO_WATER * wettedSurface this * cf * speedMs * speedMs)%js in
  let waveResistance := calculateWaveResistance this speedMs in
  let K := calculateFormFactor this in
  let totalResistance := (frictionResistance * (Fin 1 + K) + waveResistance)%js in
  {| friction := frictionResistance;
     wave := waveResistance;
     form := K;
     total := totalResistance;
     reynolds := Re;
     res_froude := (speedMs / Math_sqrt (GRAVITY * length this))%js |}.

(** The object calculatePowerRequired returns. *)
Record Power : Type := {
  power : number;
  resistance : Resistance;
  efficiency : number
}.

(** calculatePowerRequired(speed, frLevel = 0) *)
Definition calculatePowerRequired (this : t) (speed : number) (frLevel : nat)
  : Power :=
  let resistance := calculateResistanceComponents this speed frLevel in
  let speedMs := (speed * KNOTS_TO_MPS)%js in
  let power := (total resistance * speedMs / Fin 1000 / propEfficiency)%js in
  {| power := power; resistance := resistance; efficiency := propEfficiency |}.

(** The object estimateFuelRate returns. *)
Record FuelRate : Type := {
  fuelRate : number;
  cost : number;
  co2Emissions : number;
  fuel_power : number
}.

(** estimateFuelRate(speed, frLevel = 0, engineEfficiency = 0.4) *)
Definition estimateFuelRate (this : t) (speed : number) (frLevel : nat)
    (engineEfficiency : number) : FuelRate :=
  let powerData := calculatePowerRequired this speed frLevel in
  let power := power powerData in
  let fuelConsumption :=
    (power / (engineEfficiency * FUEL_ENERGY_DENSITY * Fin 1000 / Fin 3600))%js in
  let cost := (fuelConsumption * fuelCostPerKg)%js in
  let co2Emissions := (fuelConsumption * co2PerKgFuel)%js in
  {| fuelRate := fuelConsumption;
     cost := cost;
     co2Emissions := co2Emissions;
     fuel_power := power |}.

(** The default of the parameter engineEfficiency. *)
Definition defaultEngineEfficiency : number := Fin 0.4.

(** calculateDeltaRT(deltaCf, Cfs, CrCfRatio, CA, K) *)
Definition calculateDeltaRT (deltaCf Cfs CrCfRatio CA K : number) : number :=
  if (Cfs <=? Fin 0)%js then Fin 0
  else
    let Cv_smooth := (Cfs * (Fin 1 + K))%js in
    let denominator := (Cv_smooth * (Fin 1 + CrCfRatio) + CA)%js in
    if (denominator <=? Fin 0)%js then Fin 0
    else (deltaCf * (Fin 1 + K) / denominator * Fin 100)%js.

(** The object calculateConfidenceIntervals returns: the fields of
    calculateCostAt and three more. *)
Record ConfidenceIntervals : Type := {
  ci_result : CostAt;
  confidenceLower : number;
  confidenceUpper : number;
  confidenceInterval : number
}.

(** calculateConfidenceIntervals(speed, frLevel) *)
Definition calculateConfidenceIntervals (this : t) (speed : number) (frLevel : nat)
  : result (t * ConfidenceIntervals) :=
  '(this, result) <- calculateCostAt this speed frLevel ;;
  let confidenceInterval := Fin 0.15 in
  let costFouledLower :=
    (clean result *
     (Fin 1 + foulingIncrease result * (Fin 1 - confidenceInterval)))%js in
  let costFouledUpper :=
    (clean result *
     (Fin 1 + foulingIncrease result * (Fin 1 + confidenceInterval)))%js in
  Ok (this,
      {| ci_result := result;
         confidenceLower := costFouledLower;
         confidenceUpper := costFouledUpper;
         confidenceInterval := confidenceInterval |}).

(** The object calculateAnnualImpact returns. *)
Record AnnualImpact : Type := {
  annualExtraCost : number;
  annualExtraFuel : number;
  annualExtraCO2 : number;
  operatingHours : number;
  hourlyImpact : CostAt
}.

(** The default of the parameter operatingHours. *)
Definition defaultOperatingHours : number := Fin 2400.

(** calculateAnnualImpact(speed, frLevel, operatingHours = 2400) *)
Definition calculateAnnualImpact (this : t) (speed : number) (frLevel : nat)
    (operatingHours : number) : result (t * AnnualImpact) :=
  '(this, hourly) <- calculateCostAt this speed frLevel ;;
  let extraCost := (fouled hourly - clean hourly)%js in
  let annualExtraCost := (extraCost * operatingHours)%js in
  let fuelData := estimateFuelRate this speed frLevel defaultEngineEfficiency in
  let cleanFuelData := estimateFuelRate this speed 0 defaultEngineEfficiency in
  let extraFuel := (fuelRate fuelData - fuelRate cleanFuelData)%js in
  let extraCO2 := (co2Emissions fuelData - co2Emissions cleanFuelData)%js in
  let annualExtraFuel := (extraFuel * operatingHours)%js in
  let annualExtraCO2 := (extraCO2 * operatingHours / Fin 1000)%js in
  Ok (this,
      {| annualExtraCost := annualExtraCost;
         annualExtraFuel := annualExtraFuel;
         annualExtraCO2 := annualExtraCO2;
         operatingHours := operatingHours;
         hourlyImpact := hourly |}).

(** [!x || x <= 0], the test validateVesselData applies to a dimension. *)
Definition notPositive (x : number) : bool :=
  negb (truthy x) || (x <=? Fin 0)%js.

(** The object validateVesselData returns. *)
Record Validation : Type := {
  isValid : bool;
  errors : list string
}.

(** validateVesselData() *)
Definition validateVesselData (this : t) : Validation :=
  let errors := [] in
  let errors :=
    if notPositive (length this)
    then errors ++ ["Vessel length must be positive"%string] else errors in
  let errors :=
    if notPositive (beam this)
    then errors ++ ["Vessel beam must be positive"%string] else errors in
  let errors :=
    if notPositive (draft this)
    then errors ++ ["Vessel draft must be positive"%string] else errors in
  let errors :=
    if notPositive (cb this) || (cb this >? Fin 1)%js
    then errors ++ ["Block coefficient must be between 0 and 1"%string]
    else errors in
  let errors :=
    if (ecoSpeed this >=? fullSpeed this)%js
    then errors ++ ["Economic speed must be less than full speed"%string]
    else errors in
  {| isValid := (List.length errors =? 0)%nat; errors := errors |}.

End FoulingPhysics.

(* ================================================================== *)
(** ** AdaptiveFoulingModel *)
(* ================================================================== *)

Module AdaptiveFoulingModel.

(** The row of [fouling_models] that loadModelState reads. *)
Record ModelState : Type := {
  correction_factor : number;
  fouling_accumulation_rate : number;
  confidence_score : number;
  training_data_count : Z
}.

(** What [new Date()] gives at the moment of a call: the time value in
    milliseconds and its ISO string. *)
Record Clock : Type := {
  now : number;
  nowISO : string
}.

(** The values an expression of predict can hold besides a number: the
    undefined of a missing key, the object calculateCostAt returns, and a
    member of Object.prototype found through an object literal. *)
Inductive value : Type :=
| Undefined
| Num (n : number)
| CostObject (c : FoulingPhysics.CostAt)
| Inherited (key : string).

(** ToBoolean *)
Definition value_truthy (v : value) : bool :=
  match v with
  | Undefined => false
  | Num n => truthy n
  | CostObject _ | Inherited _ => true
  end.

(** [a || b] *)
Definition value_or (a b : value) : value := if value_truthy a then a else b.

(** ToNumber, as [*] and [-] apply it to an operand.  A plain object has no
    numeric primitive: its valueOf returns the object and its toString the
    text "[object Object]", so it converts to NaN; so does a function. *)
Definition ToNumber (v : value) : number :=
  match v with
  | Undefined => NaN
  | Num n => n
  | CostObject _ => NaN
  | Inherited _ => NaN
  end.

(** The property names every object literal inherits from Object.prototype. *)
Definition Object_prototype_keys : list string :=
  ["constructor"; "__defineGetter__"; "__defineSetter__"; "hasOwnProperty";
   "__lookupGetter__"; "__lookupSetter__"; "isPrototypeOf";
   "propertyIsEnumerable"; "toString"; "valueOf"; "__proto__";
   "toLocaleString"]%string.

(** [weatherMultipliers[weather]] for the literal
    [{calm: 1.0, moderate: 1.05, rough: 1.15, storm: 1.30}];
    [weather] is the property key the argument converts to. *)
Definition weatherMultipliers (weather : string) : value :=
  if String.eqb weather "calm" then Num (Fin 1.0)
  else if String.eqb weather "moderate" then Num (Fin 1.05)
  else if String.eqb weather "rough" then Num (Fin 1.15)
  else if String.eqb weather "storm" then Num (Fin 1.30)
  else if existsb (String.eqb weather) Object_prototype_keys then Inherited weather
  else Undefined.

(** An entry of the training data buffer. *)
Record DataPoint : Type := {
  actual : number;
  predicted : number;
  speed : number;
  weather : string;
  frLevel : nat;
  error : number;
  timestamp : string
}.

(** The object predict returns when returnComponents is set. *)
Record Prediction : Type := {
  p_predicted : number;
  p_base : FoulingPhysics.CostAt;
  p_frLevel : nat;
  p_correctionFactor : number;
  p_weatherMultiplier : value;
  p_confidence : number
}.

(** What predict returns: the cost, or the components. *)
Inductive Predicted : Type :=
| Cost (predictedCost : number)
| Components (p : Prediction).

(** The object updateFromReading returns. *)
Record Update : Type := {
  u_error : number;
  u_correctionFactor : number;
  u_confidence : number
}.

Record t : Type := {
  vesselId : Z;
  physics : FoulingPhysics.t;
  modelState : option ModelState;
  baseAlpha : number;
  baseBeta : number;
  correctionFactor : number;
  foulingAccumulationRate : number;
  confidence : number;
  trainingDataCount : Z;
  daysSinceClean : number;
  trainingDataBuffer : list DataPoint;
  maxBufferSize : nat
}.

(** Field updates ([this.x = ...]). *)
Definition set_physics (this : t) (x : FoulingPhysics.t) : t :=
  {| vesselId := vesselId this; physics := x; modelState := modelState this;
     baseAlpha := baseAlpha this; baseBeta := baseBeta this;
     correctionFactor := correctionFactor this;
     foulingAccumulationRate := foulingAccumulationRate this;
     confidence := confidence this;
     trainingDataCount := trainingDataCount this;
     daysSinceClean := daysSinceClean this;
     trainingDataBuffer := trainingDataBuffer this;
     maxBufferSize := maxBufferSize this |}.

Definition set_correctionFactor (this : t) (x : number) : t :=
  {| vesselId := vesselId this; physics := physics this;
     modelState := modelState this;
     baseAlpha := baseAlpha this; baseBeta := baseBeta this;
     correctionFactor := x;
     foulingAccumulationRate := foulingAccumulationRate this;
     confidence := confidence this;
     trainingDataCount := trainingDataCount this;
     daysSinceClean := daysSinceClean this;
     trainingDataBuffer := trainingDataBuffer this;
     maxBufferSize := maxBufferSize this |}.

Definition set_foulingAccumulationRate (this : t) (x : number) : t :=
  {| vesselId := vesselId this; physics := physics this;
     modelState := modelState this;
     baseAlpha := baseAlpha this; baseBeta := baseBeta this;
     correctionFactor := correctionFactor this;
     foulingAccumulationRate := x;
     confidence := confidence this;
     trainingDataCount := trainingDataCount this;
     daysSinceClean := daysSinceClean this;
     trainingDataBuffer := trainingDataBuffer this;
     maxBufferSize := maxBufferSize this |}.

Definition set_confidence (this : t) (x : number) : t :=
  {| vesselId := vesselId this; physics := physics this;
     modelState := modelState this;
     baseAlpha := baseAlpha this; baseBeta := baseBeta this;
     correctionFactor := correctionFactor this;
     foulingAccumulationRate := foulingAccumulationRate this;
     confidence := x;
     trainingDataCount := trainingDataCount this;
     daysSinceClean := daysSinceClean this;
     trainingDataBuffer := trainingDataBuffer this;
     maxBufferSize := maxBufferSize this |}.

Definition set_trainingDataCount (this : t) (x : Z) : t :=
  {| vesselId := vesselId this; physics := physics this;
     modelState := modelState this;
     baseAlpha := baseAlpha this; baseBeta := baseBeta this;
     correctionFactor := correctionFactor this;
     foulingAccumulationRate := foulingAccumulationRate this;
     confidence := confidence this;
     trainingDataCount := x;
     daysSinceClean := daysSinceClean this;
     trainingDataBuffer := trainingDataBuffer this;
     maxBufferSize := maxBufferSize this |}.

Definition set_trainingDataBuffer (this : t) (x : list DataPoint) : t :=
  {| vesselId := vesselId this; physics := physics this;
     modelState := modelState this;
     baseAlpha := baseAlpha this; baseBeta := baseBeta this;
     correctionFactor := correctionFactor this;
     foulingAccumulationRate := foulingAccumulationRate this;
     confidence := confidence this;
     trainingDataCount := trainingDataCount this;
     daysSinceClean := daysSinceClean this;
     trainingDataBuffer := x;
     maxBufferSize := maxBufferSize this |}.

(** calculateDaysSinceClean(lastCleanDate); [None] is a falsy argument. *)
Definition calculateDaysSinceClean (clock : Clock) (lastCleanDate : option number)
  : number :=
  match lastCleanDate with
  | None => Fin 0
  | Some clean =>
      Math_max (Fin 0)
        (Math_floor ((now clock - clean) / (Fin 1000 * Fin 60 * Fin 60 * Fin 24))%js)
  end.

(** The names of the required fields that are falsy in the row. *)
Definition missingFields (vessel : Vessel.t) : list string :=
  map fst
    (filter (fun field => negb (truthy (snd field)))
       [("cost_eco"%string, Vessel.cost_eco vessel);
        ("cost_full"%string, Vessel.cost_full vessel);
        ("eco_speed"%string, Vessel.eco_speed vessel);
        ("full_speed"%string, Vessel.full_speed vessel)]).

(** constructor(vessel).  [row] is what loadModelState finds in the
    database ([None] when there is no row or the read fails). *)
Definition new (clock : Clock) (row : option ModelState) (vessel : Vessel.t)
  : result t :=
  let missingFields := missingFields vessel in
  if (0 <? List.length missingFields)%nat
  then Throw ("Vessel missing required parameters: " ++
              String.concat ", " missingFields)
  else
    let physics := FoulingPhysics.new vessel in
    '(physics, (alpha, beta)) <-
      FoulingPhysics.solveAlphaBeta physics
        (Vessel.cost_eco vessel) (Vessel.cost_full vessel)
        (Vessel.eco_speed vessel) (Vessel.full_speed vessel) ;;
    Ok {| vesselId := Vessel.id vessel;
          physics := physics;
          modelState := row;
          baseAlpha := alpha;
          baseBeta := beta;
          correctionFactor :=
            match row with
            | Some s => (correction_factor s || Fin 1.0)%js
            | None => Fin 1.0
            end;
          foulingAccumulationRate :=
            match row with
            | Some s => (fouling_accumulation_rate s || Fin 1.0)%js
            | None => Fin 1.0
            end;
          confidence :=
            match row with
            | Some s => (confidence_score s || Fin 0.0)%js
            | None => Fin 0.0
            end;
          trainingDataCount :=
            match row with
            | Some s => training_data_count s
            | None => 0%Z
            end;
          daysSinceClean :=
            calculateDaysSinceClean clock (Vessel.last_clean_date vessel);
          trainingDataBuffer := [];
          maxBufferSize := 100 |}.

(** estimateFRLevel(daysSinceClean = null) *)
Definition estimateFRLevel (this : t) (daysSinceClean' : option number) : nat :=
  let days :=
    match daysSinceClean' with
    | Some d => d
    | None => daysSinceClean this
    end in
  let adjustedDays := (days * foulingAccumulationRate this)%js in
  if (adjustedDays <? Fin 30)%js then 0%nat
  else if (adjustedDays <? Fin 60)%js then 1%nat
  else if (adjustedDays <? Fin 120)%js then 2%nat
  else if (adjustedDays <? Fin 180)%js then 3%nat
  else if (adjustedDays <? Fin 270)%js then 4%nat
  else 5%nat.

(** A parameter with the default value ['calm']: the default applies when
    the argument is omitted. *)
Definition weather_or_calm (weather : option string) : string :=
  match weather with
  | Some w => w
  | None => "calm"%string
  end.

(** The body of predict up to its return statement: the components, and the
    engine with the physics object as calculateCostAt leaves it. *)
Definition predictComponents (this : t) (speed : number) (weather : option string)
  : result (t * Prediction) :=
  let weather := weather_or_calm weather in
  let frLevel := estimateFRLevel this None in
  '(physics', baseCost) <-
    FoulingPhysics.calculateCostAt (physics this) speed frLevel ;;
  let this := set_physics this physics' in
  let weatherMultiplier :=
    value_or (weatherMultipliers weather) (weatherMultipliers "moderate") in
  let predictedCost :=
    (ToNumber (CostObject baseCost) * correctionFactor this *
     ToNumber weatherMultiplier)%js in
  Ok (this,
      {| p_predicted := predictedCost;
         p_base := baseCost;
         p_frLevel := frLevel;
         p_correctionFactor := correctionFactor this;
         p_weatherMultiplier := weatherMultiplier;
         p_confidence := confidence this |}).

(** predict(speed, weather = 'calm', returnComponents = false) *)
Definition predict (this : t) (speed : number) (weather : option string)
    (returnComponents : bool) : result (t * Predicted) :=
  '(this, p) <- predictComponents this speed weather ;;
  if returnComponents then Ok (this, Components p)
  else Ok (this, Cost (p_predicted p)).

(** updateConfidence(relativeError) *)
Definition updateConfidence (this : t) (relativeError : number) : t :=
  let errorThreshold := Fin 0.15 in
  if (relativeError <? errorThreshold)%js
  then
    let improvement := ((errorThreshold - relativeError) * Fin 100)%js in
    set_confidence this
      (Math_min (Fin 100) (confidence this + improvement * Fin 0.5)%js)
  else
    let degradation := ((relativeError - errorThreshold) * Fin 100)%js in
    set_confidence this
      (Math_max (Fin 0) (confidence this - degradation * Fin 0.3)%js).

(** storeTrainingData(dataPoint): push, then shift when over capacity. *)
Definition storeTrainingData (this : t) (dataPoint : DataPoint) : t :=
  let buffer := trainingDataBuffer this ++ [dataPoint] in
  if (maxBufferSize this <? List.length buffer)%nat
  then set_trainingDataBuffer this (tl buffer)
  else set_trainingDataBuffer this buffer.

(** shouldRetrain() *)
Definition shouldRetrain (this : t) : bool :=
  (Z.rem (trainingDataCount this) 10 =? 0)%Z ||
  ((confidence this <? Fin 50)%js &&
   (5 <=? List.length (trainingDataBuffer this))%nat).

(** The object [errorsByFR]: one array of errors per fouling level.  Its
    keys are integers, which Object.keys lists in ascending order, so the
    entries are kept in that order. *)
Fixpoint push_error (frLevel : nat) (e : number) (errorsByFR : list (nat * list number))
  : list (nat * list number) :=
  match errorsByFR with
  | [] => [(frLevel, [e])]
  | (k, errors) :: rest =>
      if (frLevel =? k)%nat then (k, errors ++ [e]) :: rest
      else if (frLevel <? k)%nat then (frLevel, [e]) :: errorsByFR
      else (k, errors) :: push_error frLevel e rest
  end.

(** updateFoulingAccumulationRate() *)
Definition updateFoulingAccumulationRate (this : t) : t :=
  let dataPoints := filter (fun d => (0 <? frLevel d)%nat) (trainingDataBuffer this) in
  if (List.length dataPoints <? 3)%nat then this
  else
    let errorsByFR :=
      fold_left (fun o d => push_error (frLevel d) (error d) o) dataPoints [] in
    let '(totalAdjustment, adjustmentCount) :=
      fold_left
        (fun '(totalAdjustment, adjustmentCount) '(_, errors) =>
           let avgError :=
             (fold_left add errors (Fin 0) / length_number errors)%js in
           ((totalAdjustment + avgError * Fin 0.5)%js,
            (adjustmentCount + Fin 1)%js))
        errorsByFR (Fin 0, Fin 0) in
    if (adjustmentCount >? Fin 0)%js
    then
      let adjustment := (totalAdjustment / adjustmentCount)%js in
      set_foulingAccumulationRate this
        (Math_max (Fin 0.5)
           (Math_min (Fin 2.0)
              (foulingAccumulationRate this * (Fin 1 + adjustment))%js))
    else this.

(** retrainModel() *)
Definition retrainModel (this : t) : t :=
  if (List.length (trainingDataBuffer this) <? 3)%nat then this
  else updateFoulingAccumulationRate this.

(** [timestamp || new Date().toISOString()] *)
Definition timestamp_or_now (clock : Clock) (timestamp : option string) : string :=
  match timestamp with
  | Some s => if String.eqb s "" then nowISO clock else s
  | None => nowISO clock
  end.

(** updateFromReading(actualFuelRate, speed, weather = 'calm', timestamp = null).
    It returns nothing ([None]) for a reading it rejects, after a warning
    on the console.  saveModelState() writes the new fields to the database
    and leaves the object as it is. *)
Definition updateFromReading (clock : Clock) (this : t)
    (actualFuelRate speed : number) (weather : option string)
    (timestamp : option string) : result (t * option Update) :=
  if (actualFuelRate <=? Fin 0)%js then Ok (this, None)
  else
    let weather := weather_or_calm weather in
    '(this, prediction) <- predictComponents this speed (Some weather) ;;
    let predicted := p_predicted prediction in
    let absoluteError := Math_abs (actualFuelRate - predicted)%js in
    let relativeError := (absoluteError / predicted)%js in
    let signedError := ((actualFuelRate - predicted) / predicted)%js in
    let baseLearningRate := Fin 0.1 in
    let confidenceAdjustment :=
      Math_max (Fin 0.5) (Fin 1 - confidence this / Fin 100)%js in
    let learningRate := (baseLearningRate * confidenceAdjustment)%js in
    let correctionUpdate := (Fin 1 + signedError * learningRate)%js in
    let this :=
      set_correctionFactor this
        (Math_max (Fin 0.3)
           (Math_min (Fin 3.0)
              (correctionFactor this * (Fin 1 - learningRate) +
               correctionUpdate * learningRate)%js)) in
    let this := updateConfidence this relativeError in
    let this :=
      storeTrainingData this
        {| actual := actualFuelRate;
           predicted := predicted;
           speed := speed;
           weather := weather;
           frLevel := p_frLevel prediction;
           error := relativeError;
           timestamp := timestamp_or_now clock timestamp |} in
    let this := set_trainingDataCount this (trainingDataCount this + 1)%Z in
    let this := if shouldRetrain this then retrainModel this else this in
    Ok (this,
        Some {| u_error := relativeError;
                u_correctionFactor := correctionFactor this;
                u_confidence := confidence this |}).

(** calculateExtraCostPerDay() *)
Definition calculateExtraCostPerDay (this : t) : result (t * number) :=
  let currentSpeed := FoulingPhysics.ecoSpeed (physics this) in
  '(physics', cleanCost) <-
    FoulingPhysics.calculateCostAt (physics this) currentSpeed 0 ;;
  let this := set_physics this physics' in
  '(this, p) <- predictComponents this currentSpeed None ;;
  let currentCost := p_predicted p in
  Ok (this,
      Math_max (Fin 0)
        ((currentCost - ToNumber (CostObject cleanCost)) * Fin 24)%js).

(** The object recommendCleaning returns. *)
Record Recommendation : Type := {
  r_recommended : bool;
  r_currentFRLevel : nat;
  r_extraCostPerDay : number;
  r_daysToBreakeven : number;
  r_annualSavings : number;
  r_cleaningCost : number;
  r_confidence : number;
  r_daysSinceClean : number;
  r_correctionFactor : number
}.

(** recommendCleaning() *)
Definition recommendCleaning (this : t) : result (t * Recommendation) :=
  let currentFRLevel := estimateFRLevel this None in
  '(this, extraCostPerDay) <- calculateExtraCostPerDay this ;;
  let cleaningCost := Fin 15000 in
  let daysToBreakeven :=
    if (extraCostPerDay >? Fin 0)%js
    then (cleaningCost / extraCostPerDay)%js
    else PosInf in
  let annualSavings := (extraCostPerDay * Fin 365)%js in
  let shouldClean :=
    (3 <=? currentFRLevel)%nat ||
    (daysToBreakeven <? Fin 60)%js ||
    (annualSavings >? cleaningCost * Fin 2)%js in
  Ok (this,
      {| r_recommended := shouldClean;
         r_currentFRLevel := currentFRLevel;
         r_extraCostPerDay := Math_round extraCostPerDay;
         r_daysToBreakeven := Math_round daysToBreakeven;
         r_annualSavings := Math_round annualSavings;
         r_cleaningCost := cleaningCost;
         r_confidence := Math_round (confidence this);
         r_daysSinceClean := daysSinceClean this;
         r_correctionFactor := correctionFactor this |}).

(** A point of the curve generateSpeedCurve returns. *)
Record CurvePoint : Type := {
  c_speed : number;
  c_fuelRate : number;
  c_cost : number;
  c_frLevel : nat;
  c_confidence : number;
  c_extraFuel : number
}.

(** generateSpeedCurve(minSpeed = 6, maxSpeed = 20, steps = 15), for a whole
    number of steps; the loop variable takes the values 0 to steps - 1. *)
Definition generateSpeedCurve (this : t) (minSpeed maxSpeed : number) (steps : nat)
  : list CurvePoint :=
  let speedRange := (maxSpeed - minSpeed)%js in
  let speedStep := (speedRange / (Fin (INR steps) - Fin 1))%js in
  map
    (fun i : nat =>
       let speed := (minSpeed + Fin (INR i) * speedStep)%js in
       let fuelData :=
         FoulingPhysics.estimateFuelRate (physics this) speed
           (estimateFRLevel this None) FoulingPhysics.defaultEngineEfficiency in
       let cleanFuelData :=
         FoulingPhysics.estimateFuelRate (physics this) speed 0
           FoulingPhysics.defaultEngineEfficiency in
       {| c_speed := (Math_round (speed * Fin 10) / Fin 10)%js;
          c_fuelRate :=
            (Math_round (FoulingPhysics.fuelRate fuelData * Fin 100) / Fin 100)%js;
          c_cost :=
            (Math_round (FoulingPhysics.cost fuelData * Fin 100) / Fin 100)%js;
          c_frLevel := estimateFRLevel this None;
          c_confidence := Math_round (confidence this);
          c_extraFuel :=
            (Math_round
               ((FoulingPhysics.fuelRate fuelData -
                 FoulingPhysics.fuelRate cleanFuelData) * Fin 100) / Fin 100)%js |})
    (seq 0 steps).

(** The arguments of one call of updateFromReading. *)
Record Reading : Type := {
  rd_actualFuelRate : number;
  rd_speed : number;
  rd_weather : option string;
  rd_timestamp : option string
}.

(** A caller that hands its readings, one after the other, to the same
    engine. *)
Fixpoint updateFromReadings (clock : Clock) (this : t) (readings : list Reading)
  : result t :=
  match readings with
  | [] => Ok this
  | r :: rest =>
      '(this, _) <-
        updateFromReading clock this (rd_actualFuelRate r) (rd_speed r)
          (rd_weather r) (rd_timestamp r) ;;
      updateFromReadings clock this rest
  end.

(** The readings of a list that updateFromReading does not reject. *)
Definition accepted (readings : list Reading) : list Reading :=
  filter (fun r => negb (rd_actualFuelRate r <=? Fin 0)%js) readings.

End AdaptiveFoulingModel.

(* ================================================================== *)
(** ** CalculatorService *)
(* ================================================================== *)

Module CalculatorService.

Import AdaptiveFoulingModel.

(** [conversionRates[code]] for the literal [{AUD: 1, GBP: 0.495, USD: 0.644}]. *)
Definition conversionRates (code : string) : value :=
  if String.eqb code "AUD" then Num (Fin 1)
  else if String.eqb code "GBP" then Num (Fin 0.495)
  else if String.eqb code "USD" then Num (Fin 0.644)
  else if existsb (String.eqb code) Object_prototype_keys then Inherited code
  else Undefined.

(** convertCurrency(amount, fromCurrency, toCurrency) *)
Definition convertCurrency (amount : number) (fromCurrency toCurrency : string)
  : number :=
  if String.eqb fromCurrency toCurrency then amount
  else
    let amountInAUD :=
      if String.eqb fromCurrency "AUD" then amount
      else (amount / ToNumber (conversionRates fromCurrency))%js in
    (amountInAUD * ToNumber (conversionRates toCurrency))%js.

(** String.prototype.toLowerCase on the ASCII letters. *)
Definition lowerAscii (c : Ascii.ascii) : Ascii.ascii :=
  let n := Ascii.nat_of_ascii c in
  if (65 <=? n)%nat && (n <=? 90)%nat then Ascii.ascii_of_nat (n + 32) else c.

Fixpoint toLowerCase (s : string) : string :=
  match s with
  | EmptyString => EmptyString
  | String c rest => String (lowerAscii c) (toLowerCase rest)
  end.

(** String.prototype.includes *)
Fixpoint includes (s sub : string) : bool :=
  String.prefix sub s ||
  match s with
  | EmptyString => false
  | String _ rest => includes rest sub
  end.

(** An object as Object.entries lists it: the keys, in the order of the
    literal, with their values. *)
Definition object : Type := list (string * value).

(** [typeof value === 'number'] *)
Definition isNumber (v : value) : bool :=
  match v with Num _ => true | _ => false end.

(** convertCostsToCurrency(costObject, targetCurrency) *)
Definition convertCostsToCurrency (costObject : object) (targetCurrency : string)
  : object :=
  if String.eqb targetCurrency "AUD" then costObject
  else
    map
      (fun '(key, v) =>
         match v with
         | Num n =>
             if includes (toLowerCase key) "cost"
             then (key, Num (convertCurrency n "AUD" targetCurrency))
             else (key, v)
         | _ => (key, v)
         end)
      costObject.

(** The entries of the objects FoulingPhysics returns. *)
Definition entriesOfCostAt (c : FoulingPhysics.CostAt) : object :=
  [("clean", Num (FoulingPhysics.clean c));
   ("fouled", Num (FoulingPhysics.fouled c));
   ("foulingIncrease", Num (FoulingPhysics.foulingIncrease c));
   ("speedReduction", Num (FoulingPhysics.speedReduction c));
   ("roughness", Num (FoulingPhysics.roughness c))]%string.

Definition entriesOfConfidenceIntervals (r : FoulingPhysics.ConfidenceIntervals)
  : object :=
  entriesOfCostAt (FoulingPhysics.ci_result r) ++
  [("confidenceLower", Num (FoulingPhysics.confidenceLower r));
   ("confidenceUpper", Num (FoulingPhysics.confidenceUpper r));
   ("confidenceInterval", Num (FoulingPhysics.confidenceInterval r))]%string.

Definition entriesOfAnnualImpact (a : FoulingPhysics.AnnualImpact) : object :=
  [("annualExtraCost", Num (FoulingPhysics.annualExtraCost a));
   ("annualExtraFuel", Num (FoulingPhysics.annualExtraFuel a));
   ("annualExtraCO2", Num (FoulingPhysics.annualExtraCO2 a));
   ("operatingHours", Num (FoulingPhysics.operatingHours a));
   ("hourlyImpact", CostObject (FoulingPhysics.hourlyImpact a))]%string.

End CalculatorService.

(* ================================================================== *)
(** ** server/services/weatherService.js: class WeatherService *)
(* ================================================================== *)

Module WeatherService.

Import AdaptiveFoulingModel.

(** The fields of [weather.current] that determineSeaCondition reads:
    [windSpeed] in km/h and the free-text [description], which may be
    missing. *)
Record CurrentWeather : Type := {
  windSpeed : number;
  description : option string
}.

(** The object determineSeaCondition returns. *)
Record SeaCondition : Type := {
  condition : string;
  code : nat;
  sc_description : string;
  waveHeight : string
}.

(** [(currentWeather.description || '')] *)
Definition description_or_empty (d : option string) : string :=
  match d with
  | Some s => s
  | None => EmptyString
  end.

(** determineSeaCondition(currentWeather) *)
Definition determineSeaCondition (currentWeather : CurrentWeather) : SeaCondition :=
  let windSpeed := (windSpeed currentWeather || Fin 0)%js in
  let description :=
    CalculatorService.toLowerCase
      (description_or_empty (description currentWeather)) in
  if (windSpeed <? Fin 6)%js || CalculatorService.includes description "calm"
  then {| condition := "calm"; code := 0;
          sc_description := "Calm seas, minimal wave action";
          waveHeight := "0-0.3m" |}
  else if (windSpeed <? Fin 20)%js &&
          negb (CalculatorService.includes description "storm") &&
          negb (CalculatorService.includes description "thunderstorm")
  then {| condition := "moderate"; code := 1;
          sc_description := "Moderate seas, some wave action";
          waveHeight := "0.5-1.5m" |}
  else if (windSpeed <? Fin 40)%js &&
          negb (CalculatorService.includes description "storm")
  then {| condition := "rough"; code := 2;
          sc_description := "Rough seas, significant wave action";
          waveHeight := "1.5-3m" |}
  else {| condition := "storm"; code := 3;
          sc_description := "Storm conditions, heavy seas";
          waveHeight := "3m+" |}.

(** [impacts[seaCondition]] for the literal
    [{calm: 1.0, moderate: 1.05, rough: 1.15, storm: 1.30}]. *)
Definition impacts (seaCondition : string) : value :=
  if String.eqb seaCondition "calm" then Num (Fin 1.0)
  else if String.eqb seaCondition "moderate" then Num (Fin 1.05)
  else if String.eqb seaCondition "rough" then Num (Fin 1.15)
  else if String.eqb seaCondition "storm" then Num (Fin 1.30)
  else if existsb (String.eqb seaCondition) Object_prototype_keys
  then Inherited seaCondition
  else Undefined.

(** calculateFuelImpact(seaCondition) *)
Definition calculateFuelImpact (seaCondition : string) : value :=
  value_or (impacts seaCondition) (Num (Fin 1.05)).

(** The object getSafetyLevel returns. *)
Record SafetyLevel : Type := {
  level : string;
  color : string;
  message : string
}.

(** getSafetyLevel(seaCondition, windSpeed) *)
Definition getSafetyLevel (seaCondition : string) (windSpeed : number) : SafetyLevel :=
  if String.eqb seaCondition "storm" || (windSpeed >? Fin 50)%js
  then {| level := "high_risk"; color := "red";
          message := "High risk conditions, consider shelter" |}
  else if String.eqb seaCondition "rough" || (windSpeed >? Fin 30)%js
  then {| level := "moderate_risk"; color := "orange";
          message := "Moderate risk, proceed with caution" |}
  else if String.eqb seaCondition "moderate"
  then {| level := "low_risk"; color := "yellow";
          message := "Normal precautions" |}
  else {| level := "minimal_risk"; color := "green";
          message := "Good conditions for operation" |}.

(** The fields of the object estimateMarineConditions returns that are
    computed from the sea condition and the wind speed. *)
Record MarineConditions : Type := {
  seaState : nat;
  fuelImpactMultiplier : value;
  safetyLevel : SafetyLevel
}.

(** estimateMarineConditions(weather), with [weather.seaCondition] as
    parseWeatherData sets it: determineSeaCondition(weather.current). *)
Definition estimateMarineConditions (current : CurrentWeather) : MarineConditions :=
  let windSpeed := (windSpeed current || Fin 0)%js in
  let seaCondition := determineSeaCondition current in
  {| seaState := code seaCondition;
     fuelImpactMultiplier := calculateFuelImpact (condition seaCondition);
     safetyLevel := getSafetyLevel (condition seaCondition) windSpeed |}.

(** The order of the four risk levels, from minimal_risk to high_risk. *)
Definition riskRank (l : SafetyLevel) : nat :=
  if String.eqb (level l) "high_risk" then 3
  else if String.eqb (level l) "moderate_risk" then 2
  else if String.eqb (level l) "low_risk" then 1
  else 0.

End WeatherService.

(* ================================================================== *)
(** ** Vocabulary of the specification *)
(* ================================================================== *)

Module Spec.

Import AdaptiveFoulingModel.

(** [clamp(x, lo, hi)] as the code writes it: Math.max(lo, Math.min(hi, x)). *)
Definition clamp (x lo hi : number) : number := Math_max lo (Math_min hi x).

(** [lo <= x && x <= hi] *)
Definition within (lo hi x : number) : bool := (lo <=? x)%js && (x <=? hi)%js.

(** The bounds the specification gives the adaptive state. *)
Definition state_bounded (m : t) : bool :=
  within (Fin 0.3) (Fin 3.0) (correctionFactor m) &&
  within (Fin 0.5) (Fin 2.0) (foulingAccumulationRate m) &&
  within (Fin 0) (Fin 100) (confidence m).

(** The physics object holds its coefficients, as it does once the
    constructor of the engine has called solveAlphaBeta. *)
Definition calibrated (p : FoulingPhysics.t) : Prop :=
  exists a b, FoulingPhysics.alpha p = Some a /\ FoulingPhysics.beta p = Some b.

(** What the specification calls base: the fouled cost of the physics model
    at the estimated fouling level. *)
Definition base (this : t) (speed : number) : result number :=
  '(_, c) <- FoulingPhysics.calculateCostAt (physics this) speed
               (estimateFRLevel this None) ;;
  Ok (FoulingPhysics.fouled c).

(** The weather multiplier of the specification: the four categories, and
    the moderate value for anything else. *)
Definition weatherMultiplier (weather : string) : number :=
  if String.eqb weather "calm" then Fin 1.0
  else if String.eqb weather "moderate" then Fin 1.05
  else if String.eqb weather "rough" then Fin 1.15
  else if String.eqb weather "storm" then Fin 1.30
  else Fin 1.05.

(** The weather multiplier predict applies: the expression
    [weatherMultipliers[weather] || weatherMultipliers.moderate] at the
    defaulted argument. *)
Definition appliedMultiplier (weather : option string) : value :=
  value_or (weatherMultipliers (weather_or_calm weather))
           (weatherMultipliers "moderate").

(** The signed relative error of an observation, negative when the model
    over-predicts. *)
Definition signedRelativeError (d : DataPoint) : number :=
  ((actual d - predicted d) / predicted d)%js.

Definition mean (l : list number) : number :=
  (fold_left add l (Fin 0) / length_number l)%js.

(** Retraining as the specification words it: the observations with a
    fouling level above zero are grouped by level, each group gives the mean
    of its signed errors, and the rate is nudged by half the average of
    those means. *)
Definition retrainedRate (this : t) : number :=
  let dataPoints := filter (fun d => (0 <? frLevel d)%nat) (trainingDataBuffer this) in
  if (List.length dataPoints <? 3)%nat then foulingAccumulationRate this
  else
    let groups :=
      fold_left (fun o d => push_error (frLevel d) (signedRelativeError d) o)
        dataPoints [] in
    let A := mean (map (fun g => mean (snd g)) groups) in
    clamp (foulingAccumulationRate this * (Fin 1 + Fin 0.5 * A))%js
      (Fin 0.5) (Fin 2.0).

(** The attenuation of the fouling increase as the specification words it:
    full below Froude 0.15, linear down to 30% at Froude 0.35, 30% above. *)
Definition attenuation (Fr : R) : R :=
  if Rle_dec Fr 0.15 then 1
  else if Rle_dec Fr 0.35 then 1 - (0.7 / 0.2) * (Fr - 0.15)
  else 0.3.

(** The error condition the specification gives calibrate. *)
Definition nonPositive (x : number) : bool := negb (Fin 0 <? x)%js.

Definition calibrationRejected (ecoCost fullCost ecoSpeed fullSpeed : number) : bool :=
  (ecoSpeed === fullSpeed)%js ||
  nonPositive ecoCost || nonPositive fullCost ||
  nonPositive ecoSpeed || nonPositive fullSpeed.

(** Both calibration points are reproduced by the calibrated cost function. *)
Definition reproduces (this : FoulingPhysics.t)
    (ecoCost fullCost ecoSpeed fullSpeed : number) : Prop :=
  exists this' ab,
    FoulingPhysics.solveAlphaBeta this ecoCost fullCost ecoSpeed fullSpeed
      = Ok (this', ab) /\
    FoulingPhysics.calculateBaseCost this' ecoSpeed = Ok (this', ecoCost) /\
    FoulingPhysics.calculateBaseCost this' fullSpeed = Ok (this', fullCost).

(** The two products x1 y2 and x2 y1 whose difference is the determinant
    solveAlphaBeta divides by. *)
Definition cross1 (ecoSpeed fullSpeed waveExp : R) : R :=
  Rpower ecoSpeed 3 * Rpower fullSpeed waveExp.

Definition cross2 (ecoSpeed fullSpeed waveExp : R) : R :=
  Rpower fullSpeed 3 * Rpower ecoSpeed waveExp.

(** Both calibration points of a vessel are reproduced up to given
    tolerances when the operations round with the errors [d] (calibration),
    [e1] and [e2] (the two evaluations of the cost function): the call of
    solveAlphaBeta the constructor of the engine makes on the physics
    object of the vessel returns, and the costs then computed at the two
    calibration speeds are finite numbers within [tol1] of cost_eco and
    within [tol2] of cost_full. *)
Definition reproduces_within (d e1 e2 : nat -> R) (vessel : Vessel.t)
    (tol1 tol2 : R) : Prop :=
  exists this' ab c1 c2 b1 b2,
    Vessel.cost_eco vessel = Fin c1 /\
    Vessel.cost_full vessel = Fin c2 /\
    FoulingPhysics.solveAlphaBeta_fl d (FoulingPhysics.new vessel)
      (Vessel.cost_eco vessel) (Vessel.cost_full vessel)
      (Vessel.eco_speed vessel) (Vessel.full_speed vessel) = Ok (this', ab) /\
    FoulingPhysics.calculateBaseCost_fl d e1 this' (Vessel.eco_speed vessel)
      = Ok (this', Fin b1) /\
    FoulingPhysics.calculateBaseCost_fl d e2 this' (Vessel.full_speed vessel)
      = Ok (this', Fin b2) /\
    Rabs (b1 - c1) <= tol1 /\
    Rabs (b2 - c2) <= tol2.

End Spec.

(* ================================================================== *)
(** ** Concrete vessels and engines *)
(* ================================================================== *)

Module Example.

Import AdaptiveFoulingModel.

(** The vessel of the repository's test script (wave exponent at its
    database default), last cleaned a hundred days before [clock]. *)
Definition clock : Clock :=
  {| now := Fin 1750000000000; nowISO := "2025-06-15T15:06:40.000Z" |}.

Definition vessel : Vessel.t :=
  {| Vessel.id := 1;
     Vessel.length := Fin 100;
     Vessel.beam := Fin 20;
     Vessel.draft := Fin 8;
     Vessel.cb := Fin 0.7;
     Vessel.gross_tonnage := Fin 5000;
     Vessel.displacement := Fin 8000;
     Vessel.wave_exp := Fin 4.5;
     Vessel.vessel_category := Some "cargo"%string;
     Vessel.eco_speed := Fin 12;
     Vessel.full_speed := Fin 18;
     Vessel.cost_eco := Fin 150;
     Vessel.cost_full := Fin 300;
     Vessel.last_clean_date := Some (Fin 1741360000000) |}.

(** The same vessel with a cubic wave exponent. *)
Definition cubicVessel : Vessel.t :=
  {| Vessel.id := 2;
     Vessel.length := Fin 100;
     Vessel.beam := Fin 20;
     Vessel.draft := Fin 8;
     Vessel.cb := Fin 0.7;
     Vessel.gross_tonnage := Fin 5000;
     Vessel.displacement := Fin 8000;
     Vessel.wave_exp := Fin 3;
     Vessel.vessel_category := Some "cargo"%string;
     Vessel.eco_speed := Fin 12;
     Vessel.full_speed := Fin 18;
     Vessel.cost_eco := Fin 150;
     Vessel.cost_full := Fin 300;
     Vessel.last_clean_date := Some (Fin 1741360000000) |}.

(** The physics object of [vessel] after calibration with coefficients
    [a] and [b]. *)
Definition physicsWith (a b : number) : FoulingPhysics.t :=
  FoulingPhysics.set_alpha_beta (FoulingPhysics.new vessel) a b.

(** An engine in its initial adaptive state around a physics object. *)
Definition engineOf (p : FoulingPhysics.t) (days : number)
    (buffer : list DataPoint) : t :=
  {| vesselId := 1;
     physics := p;
     modelState := None;
     baseAlpha := FoulingPhysics.coefficient (FoulingPhysics.alpha p);
     baseBeta := FoulingPhysics.coefficient (FoulingPhysics.beta p);
     correctionFactor := Fin 1.0;
     foulingAccumulationRate := Fin 1.0;
     confidence := Fin 0.0;
     trainingDataCount := 0;
     daysSinceClean := days;
     trainingDataBuffer := buffer;
     maxBufferSize := 100 |}.

(** An engine in its initial state, 35 days after the last clean, with an
    empty window. *)
Definition freshEngine : t :=
  engineOf (physicsWith (Fin 0) (Fin 0)) (Fin 35) [].

(** An engine whose last-clean date lies after [clock]. *)
Definition futureCleanDate : option number := Some (Fin 1760000000000).

Definition futureCleanEngine : t :=
  engineOf (physicsWith (Fin 0) (Fin 0))
           (calculateDaysSinceClean clock futureCleanDate) [].

(** The test vessel with that last-clean date, and a stored model row
    whose accumulation rate is +Infinity. *)
Definition futureCleanVessel : Vessel.t :=
  {| Vessel.id := 3;
     Vessel.length := Fin 100;
     Vessel.beam := Fin 20;
     Vessel.draft := Fin 8;
     Vessel.cb := Fin 0.7;
     Vessel.gross_tonnage := Fin 5000;
     Vessel.displacement := Fin 8000;
     Vessel.wave_exp := Fin 4.5;
     Vessel.vessel_category := Some "cargo"%string;
     Vessel.eco_speed := Fin 12;
     Vessel.full_speed := Fin 18;
     Vessel.cost_eco := Fin 150;
     Vessel.cost_full := Fin 300;
     Vessel.last_clean_date := futureCleanDate |}.

Definition infiniteRateRow : ModelState :=
  {| correction_factor := Fin 1.0;
     fouling_accumulation_rate := PosInf;
     confidence_score := Fin 50;
     training_data_count := 10 |}.

(** The physics object the constructor builds for [cubicVessel]. *)
Definition cubicPhysics : FoulingPhysics.t := FoulingPhysics.new cubicVessel.

(** An observation at fouling level 1 where the model predicted 100 and the
    reading was 80, with the error field updateFromReading stores for it. *)
Definition overPredicted : DataPoint :=
  {| actual := Fin 80;
     predicted := Fin 100;
     speed := Fin 12;
     weather := "calm";
     frLevel := 1;
     error := (Math_abs (Fin 80 - Fin 100) / Fin 100)%js;
     timestamp := "2025-06-15T15:06:40.000Z" |}.

(** An engine whose window holds three such observations. *)
Definition overPredictingEngine : t :=
  engineOf (physicsWith (Fin 0) (Fin 0)) (Fin 35)
           [overPredicted; overPredicted; overPredicted].

(** The physics object of [vessel] with the coefficients solveAlphaBeta
    computes from its two calibration points. *)
Definition calibratedPhysics : FoulingPhysics.t :=
  let det := Rpower 12 3 * Rpower 18 4.5 - Rpower 18 3 * Rpower 12 4.5 in
  physicsWith (Fin ((150 * Rpower 18 4.5 - 300 * Rpower 12 4.5) / det))
              (Fin ((300 * Rpower 12 3 - 150 * Rpower 18 3) / det)).

(** An engine around it, in its initial state, 100 days after the last
    clean. *)
Definition calibratedEngine : t := engineOf calibratedPhysics (Fin 100) [].

(** Three readings: one rejected, two accepted. *)
Definition someReadings : list Reading :=
  [ {| rd_actualFuelRate := Fin 180; rd_speed := Fin 12;
       rd_weather := Some "calm"%string; rd_timestamp := None |};
    {| rd_actualFuelRate := Fin 0; rd_speed := Fin 12;
       rd_weather := None; rd_timestamp := None |};
    {| rd_actualFuelRate := Fin 210; rd_speed := Fin 14;
       rd_weather := Some "rough"%string; rd_timestamp := None |} ].

(** The physics object of a vessel with the dimensions of [vessel] that
    gives neither speeds nor costs, as the constructor holds it before
    estimateMissingParameters runs. *)
Definition unpricedPhysics : FoulingPhysics.t :=
  {| FoulingPhysics.length := Fin 100;
     FoulingPhysics.beam := Fin 20;
     FoulingPhysics.draft := Fin 8;
     FoulingPhysics.cb := Fin 0.7;
     FoulingPhysics.grossTonnage := Fin 5000;
     FoulingPhysics.displacement := Fin 8000;
     FoulingPhysics.waveExp := Fin 4.5;
     FoulingPhysics.vesselCategory := "cargo";
     FoulingPhysics.ecoSpeed := NaN;
     FoulingPhysics.fullSpeed := NaN;
     FoulingPhysics.costEco := NaN;
     FoulingPhysics.costFull := NaN;
     FoulingPhysics.alpha := None;
     FoulingPhysics.beta := None;
     FoulingPhysics.wettedSurface := NaN |}.

End Example.

(* ================================================================== *)
(** ** Tactics *)
(* ================================================================== *)

(** Settle the comparisons of reals a goal depends on, by linear
    arithmetic. *)
Ltac decide_reals :=
  repeat match goal with
    | |- context [Rlt_dec ?a ?b] =>
        destruct (Rlt_dec a b); try (exfalso; lra)
    | |- context [Rle_dec ?a ?b] =>
        destruct (Rle_dec a b); try (exfalso; lra)
    | |- context [Req_dec_T ?a ?b] =>
        destruct (Req_dec_T a b); try (exfalso; lra)
    | |- context [total_order_T ?a ?b] =>
        destruct (total_order_T a b) as [[?|?]|?]; try (exfalso; lra)
    end.

Ltac js_unfold :=
  cbv beta iota delta
    [add sub neg mul div lt le gt ge strict_eq truthy or_else signed_inf sgn
     Math_max Math_min Math_abs Math_floor Math_sqrt negb orb andb].

Ltac js_eval := js_unfold; decide_reals.

(** Split the constructor of the physics object along its guards. *)
Ltac split_new :=
  unfold FoulingPhysics.new, FoulingPhysics.initializeParameters,
    FoulingPhysics.estimateMissingParameters,
    FoulingPhysics.estimateVesselSpeeds, FoulingPhysics.estimateVesselCosts;
  repeat match goal with
    | |- context [if ?c then _ else _] => destruct c
    end;
  reflexivity.

(** Evaluate retraining on a concrete window. *)
Ltac eval_retraining :=
  cbv beta iota zeta delta
    [AdaptiveFoulingModel.updateFoulingAccumulationRate
     AdaptiveFoulingModel.retrainModel
     AdaptiveFoulingModel.push_error
     AdaptiveFoulingModel.trainingDataBuffer
     AdaptiveFoulingModel.foulingAccumulationRate
     AdaptiveFoulingModel.set_foulingAccumulationRate
     AdaptiveFoulingModel.frLevel AdaptiveFoulingModel.error
     AdaptiveFoulingModel.actual AdaptiveFoulingModel.predicted
     Spec.retrainedRate Spec.clamp Spec.mean Spec.signedRelativeError
     Example.overPredictingEngine Example.engineOf Example.overPredicted
     filter fold_left map snd app length_number List.length
     Nat.ltb Nat.leb Nat.eqb INR];
  js_unfold;
  repeat (unfold Rabs;
          repeat match goal with
            | |- context [Rcase_abs ?a] =>
                destruct (Rcase_abs a); try (exfalso; lra)
            end;
          decide_reals).

(* ================================================================== *)
(** ** Arithmetic of JavaScript numbers *)
(* ================================================================== *)

Section NumberFacts.

Implicit Types a b : number.
Implicit Types x y : R.

Lemma mul_NaN_l b : (NaN * b)%js = NaN.
Proof. reflexivity. Qed.

Lemma mul_NaN_r a : (a * NaN)%js = NaN.
Proof. destruct a; reflexivity. Qed.

Lemma add_NaN_r a : (a + NaN)%js = NaN.
Proof. destruct a; reflexivity. Qed.

Lemma sub_NaN_r a : (a - NaN)%js = NaN.
Proof. destruct a; reflexivity. Qed.

Lemma div_NaN_r a : (a / NaN)%js = NaN.
Proof. destruct a; reflexivity. Qed.

Lemma Math_max_NaN_r a : Math_max a NaN = NaN.
Proof. destruct a; reflexivity. Qed.

Lemma Math_min_NaN_r a : Math_min a NaN = NaN.
Proof. destruct a; reflexivity. Qed.

Lemma lt_Fin x y : (Fin x <? Fin y)%js = true <-> x < y.
Proof. js_eval; split; intros; try discriminate; try lra; auto. Qed.

Lemma lt_Fin_false x y : (Fin x <? Fin y)%js = false <-> y <= x.
Proof. js_eval; split; intros; try discriminate; try lra; auto. Qed.

Lemma le_Fin x y : (Fin x <=? Fin y)%js = true <-> x <= y.
Proof. js_eval; split; intros; try discriminate; try lra; auto. Qed.

Lemma truthy_Fin x : truthy (Fin x) = true <-> x <> 0.
Proof. js_eval; split; intros; try discriminate; try lra; auto. Qed.

(** The falsy numbers are zero and NaN. *)
Lemma falsy_iff a : truthy a = false <-> a = NaN \/ a = Fin 0.
Proof.
  destruct a as [| |x|]; simpl; split; intros H; auto;
    try discriminate; try (destruct H; discriminate).
  - destruct (Req_dec_T x 0); [subst; auto | discriminate].
  - destruct H as [H|H]; [discriminate | injection H as ->].
    destruct (Req_dec_T 0 0); [reflexivity | lra].
Qed.

(** Nothing compares with NaN. *)
Lemma within_NaN lo hi : Spec.within lo hi NaN = false.
Proof. unfold Spec.within; destruct lo; reflexivity. Qed.

Lemma sgn_pos x : 0 < x -> sgn x = Pos.
Proof. intros; js_eval; reflexivity. Qed.

Lemma sgn_neg x : x < 0 -> sgn x = Neg.
Proof. intros; js_eval; reflexivity. Qed.

Lemma sgn_zero : sgn 0 = Zero.
Proof. js_eval; reflexivity. Qed.

Lemma div_Fin x y : y <> 0 -> (Fin x / Fin y)%js = Fin (x / y).
Proof. intros; js_eval; reflexivity. Qed.

(** Powers of positive numbers. *)
Lemma Math_pow_pos x y :
  0 < x -> y <> 0 -> Math_pow (Fin x) (Fin y) = Fin (Rpower x y).
Proof.
  intros Hx Hy. unfold Math_pow.
  rewrite (sgn_pos x Hx).
  unfold sgn. destruct (total_order_T y 0) as [[?|?]|?]; try reflexivity; lra.
Qed.

Lemma Rpower_3 x : 0 < x -> Rpower x 3 = x * x * x.
Proof.
  intros Hx. replace 3 with (INR 3) by (simpl; lra).
  rewrite Rpower_pow by assumption. simpl; ring.
Qed.

End NumberFacts.

(* ================================================================== *)
(** ** FoulingPhysics: calibration *)
(* ================================================================== *)

Section Calibration.

Import FoulingPhysics.

Variable this : FoulingPhysics.t.

(** solveAlphaBeta either throws or caches the pair it returns. *)
Lemma solveAlphaBeta_returns c1 c2 s1 s2 :
  throws (solveAlphaBeta this c1 c2 s1 s2) = false ->
  exists a b,
    solveAlphaBeta this c1 c2 s1 s2 = Ok (set_alpha_beta this a b, (a, b)).
Proof.
  unfold solveAlphaBeta.
  destruct (s1 === s2)%js; [discriminate|].
  destruct (negb (truthy c1) || negb (truthy c2) ||
            negb (truthy s1) || negb (truthy s2))%bool; [discriminate|].
  intros _. eauto.
Qed.

Lemma solveAlphaBeta_throws c1 c2 s1 s2 :
  throws (solveAlphaBeta this c1 c2 s1 s2) =
  ((s1 === s2)%js || negb (truthy c1) || negb (truthy c2) ||
   negb (truthy s1) || negb (truthy s2))%bool.
Proof.
  unfold solveAlphaBeta.
  destruct (s1 === s2)%js; [reflexivity|].
  rewrite !orb_false_l.
  destruct (negb (truthy c1) || negb (truthy c2) ||
            negb (truthy s1) || negb (truthy s2))%bool; reflexivity.
Qed.

End Calibration.

(** The determinant of the calibration system vanishes only for a cubic
    wave exponent. *)
Lemma det_nonzero s1 s2 w :
  0 < s1 < s2 -> w <> 3 ->
  Rpower s1 3 * Rpower s2 w - Rpower s2 3 * Rpower s1 w <> 0.
Proof.
  intros [H1 H12] Hw Hdet.
  assert (Hln : ln s1 < ln s2) by (apply ln_increasing; lra).
  unfold Rpower in Hdet.
  rewrite <- !exp_plus in Hdet.
  apply Rminus_diag_uniq in Hdet.
  apply exp_inv in Hdet.
  assert (Hz : (w - 3) * (ln s2 - ln s1) = 0) by lra.
  apply Rmult_integral in Hz. lra.
Qed.

Lemma calculateBaseCost_calibrated (p : FoulingPhysics.t) a b speed :
  FoulingPhysics.alpha p = Some a -> FoulingPhysics.beta p = Some b ->
  FoulingPhysics.calculateBaseCost p speed =
  Ok (p,
      (a * Math_pow (Math_max (Fin 0.1)
                       (Math_min speed (FoulingPhysics.fullSpeed p * Fin 1.2)%js))
                    (Fin 3) +
       b * Math_pow (Math_max (Fin 0.1)
                       (Math_min speed (FoulingPhysics.fullSpeed p * Fin 1.2)%js))
                    (FoulingPhysics.waveExp p))%js).
Proof.
  intros Ha Hb. unfold FoulingPhysics.calculateBaseCost.
  rewrite Ha, Hb. cbn [bind]. rewrite Ha, Hb. reflexivity.
Qed.

(** Inside [0.1, 1.2 fullSpeed] the clamp of calculateBaseCost does nothing. *)
Lemma clamp_speed_id s full :
  0.1 <= s -> s <= full -> 0 < full ->
  Math_max (Fin 0.1) (Math_min (Fin s) (Fin full * Fin 1.2)%js) = Fin s.
Proof.
  intros. js_eval; try reflexivity; f_equal; lra.
Qed.

(** The coefficients solveAlphaBeta computes from finite positive inputs
    when the wave exponent is not cubic. *)
Lemma solveAlphaBeta_value (this : FoulingPhysics.t) c1 c2 s1 s2 w :
  FoulingPhysics.waveExp this = Fin w ->
  0 < s1 < s2 -> c1 <> 0 -> c2 <> 0 -> w <> 0 -> w <> 3 ->
  let det := Rpower s1 3 * Rpower s2 w - Rpower s2 3 * Rpower s1 w in
  let a := Fin ((c1 * Rpower s2 w - c2 * Rpower s1 w) / det) in
  let b := Fin ((c2 * Rpower s1 3 - c1 * Rpower s2 3) / det) in
  FoulingPhysics.solveAlphaBeta this (Fin c1) (Fin c2) (Fin s1) (Fin s2) =
  Ok (FoulingPhysics.set_alpha_beta this a b, (a, b)).
Proof.
  intros Hw Hs Hc1 Hc2 Hw0 Hw3 det a b.
  pose proof (det_nonzero s1 s2 w Hs Hw3) as Hdet. fold det in Hdet.
  unfold FoulingPhysics.solveAlphaBeta.
  replace (Fin s1 === Fin s2)%js with false by (js_eval; reflexivity).
  replace (truthy (Fin c1)) with true by (symmetry; apply truthy_Fin; lra).
  replace (truthy (Fin c2)) with true by (symmetry; apply truthy_Fin; lra).
  replace (truthy (Fin s1)) with true by (symmetry; apply truthy_Fin; lra).
  replace (truthy (Fin s2)) with true by (symmetry; apply truthy_Fin; lra).
  cbn [negb orb]. rewrite Hw.
  rewrite !Math_pow_pos by lra.
  cbn [mul sub add neg].
  rewrite !div_Fin by (unfold det in Hdet; lra).
  subst a b det. repeat f_equal; unfold Rminus; reflexivity.
Qed.

(** The two calibration points, for a non-singular system. *)
Lemma calibration_points (this : FoulingPhysics.t) c1 c2 s1 s2 w :
  FoulingPhysics.waveExp this = Fin w ->
  FoulingPhysics.fullSpeed this = Fin s2 ->
  0.1 <= s1 < s2 -> c1 <> 0 -> c2 <> 0 -> w <> 0 -> w <> 3 ->
  let det := Rpower s1 3 * Rpower s2 w - Rpower s2 3 * Rpower s1 w in
  let a := Fin ((c1 * Rpower s2 w - c2 * Rpower s1 w) / det) in
  let b := Fin ((c2 * Rpower s1 3 - c1 * Rpower s2 3) / det) in
  let this' := FoulingPhysics.set_alpha_beta this a b in
  FoulingPhysics.calculateBaseCost this' (Fin s1) = Ok (this', Fin c1) /\
  FoulingPhysics.calculateBaseCost this' (Fin s2) = Ok (this', Fin c2).
Proof.
  intros Hw Hfull Hs Hc1 Hc2 Hw0 Hw3 det a b this'.
  assert (Hs' : 0 < s1 < s2) by lra.
  pose proof (det_nonzero s1 s2 w Hs' Hw3) as Hdet. fold det in Hdet.
  split.
  - subst this'. erewrite calculateBaseCost_calibrated by reflexivity.
    cbn [FoulingPhysics.fullSpeed FoulingPhysics.waveExp FoulingPhysics.set_alpha_beta].
    rewrite Hfull, Hw, clamp_speed_id by lra.
    rewrite !Math_pow_pos by lra.
    subst a b. cbn [mul add]. do 3 f_equal. subst det. field. exact Hdet.
  - subst this'. erewrite calculateBaseCost_calibrated by reflexivity.
    cbn [FoulingPhysics.fullSpeed FoulingPhysics.waveExp FoulingPhysics.set_alpha_beta].
    rewrite Hfull, Hw, clamp_speed_id by lra.
    rewrite !Math_pow_pos by lra.
    subst a b. cbn [mul add]. do 3 f_equal. subst det. field. exact Hdet.
Qed.

(** *** What the constructor of the physics object leaves in its fields *)

Section PhysicsConstructor.

Import FoulingPhysics.

Variable vessel : Vessel.t.

Lemma new_waveExp :
  waveExp (new vessel) = (Vessel.wave_exp vessel || Fin 4.5)%js.
Proof. split_new. Qed.

Lemma new_length : length (new vessel) = Vessel.length vessel.
Proof. split_new. Qed.

Lemma new_alpha : alpha (new vessel) = None.
Proof. split_new. Qed.

Lemma new_beta : beta (new vessel) = None.
Proof. split_new. Qed.

Lemma new_ecoSpeed :
  truthy (Vessel.eco_speed vessel) = true ->
  ecoSpeed (new vessel) = Vessel.eco_speed vessel.
Proof.
  intros H.
  unfold new, initializeParameters, estimateMissingParameters,
    estimateVesselSpeeds, estimateVesselCosts.
  repeat match goal with
    | |- context [if ?c then _ else _] => destruct c
    end; cbn; unfold or_else; rewrite ?H; reflexivity.
Qed.

Lemma new_fullSpeed :
  truthy (Vessel.full_speed vessel) = true ->
  fullSpeed (new vessel) = Vessel.full_speed vessel.
Proof.
  intros H.
  unfold new, initializeParameters, estimateMissingParameters,
    estimateVesselSpeeds, estimateVesselCosts.
  repeat match goal with
    | |- context [if ?c then _ else _] => destruct c
    end; cbn; unfold or_else; rewrite ?H; reflexivity.
Qed.

End PhysicsConstructor.

(** *** The test vessel, and the same vessel with a cubic wave exponent *)

Lemma vessel_waveExp :
  FoulingPhysics.waveExp (FoulingPhysics.new Example.vessel) = Fin 4.5.
Proof. rewrite new_waveExp. cbn. js_eval. reflexivity. Qed.

Lemma vessel_fullSpeed :
  FoulingPhysics.fullSpeed (FoulingPhysics.new Example.vessel) = Fin 18.
Proof. apply new_fullSpeed. apply truthy_Fin. lra. Qed.

Lemma cubicVessel_waveExp :
  FoulingPhysics.waveExp Example.cubicPhysics = Fin 3.
Proof. unfold Example.cubicPhysics. rewrite new_waveExp. cbn. js_eval. reflexivity. Qed.

Lemma cubicVessel_fullSpeed :
  FoulingPhysics.fullSpeed Example.cubicPhysics = Fin 18.
Proof. apply new_fullSpeed. apply truthy_Fin. lra. Qed.

(** *** Rounding: products of relative errors *)

Lemma Rabs_bounds (x b : R) : Rabs x <= b <-> - b <= x <= b.
Proof. unfold Rabs. destruct (Rcase_abs x); lra. Qed.

Section RoundingAnalysis.

Variable u : R.
Hypothesis Hu : 0 <= u <= 1 / 1000.

(** A product of factors [1 + d], some of them inverted, stays close to 1:
    each factor adds at most 1.11 u to the distance. *)
Lemma near_one_factor (d : R) :
  Rabs d <= u -> Rabs ((1 + d) - 1) <= 11 / 10 * u.
Proof. intros Hd. apply Rabs_bounds in Hd. apply Rabs_bounds. lra. Qed.

Lemma near_one_inverse (d : R) :
  Rabs d <= u -> Rabs (/ (1 + d) - 1) <= 11 / 10 * u.
Proof.
  intros Hd. apply Rabs_bounds in Hd. apply Rabs_bounds.
  assert (Hpos : 0 < 1 + d) by lra.
  assert (Hinv : 0 < / (1 + d)) by (apply Rinv_0_lt_compat; exact Hpos).
  assert (Heq : / (1 + d) * (1 + d) = 1) by (field; lra).
  split; nra.
Qed.

Lemma near_one_mul (k p q : R) :
  0 <= k <= 8 ->
  Rabs (p - 1) <= k * u ->
  Rabs (q - 1) <= 11 / 10 * u ->
  Rabs (p * q - 1) <= (k + 111 / 100) * u.
Proof.
  intros Hk Hp Hq. apply Rabs_bounds in Hp. apply Rabs_bounds in Hq.
  apply Rabs_bounds.
  replace (p * q - 1) with ((p - 1) * (q - 1) + (p - 1) + (q - 1)) by ring.
  assert (H : - (k * u * (11 / 10 * u)) <= (p - 1) * (q - 1)
              <= k * u * (11 / 10 * u)).
  { split; nra. }
  assert (H2 : k * u * (11 / 10 * u) <= 1 / 100 * u) by nra.
  nra.
Qed.

Lemma near_one_3 (a b c : R) :
  Rabs (a - 1) <= 11 / 10 * u -> Rabs (b - 1) <= 11 / 10 * u ->
  Rabs (c - 1) <= 11 / 10 * u ->
  Rabs (a * b * c - 1) <= 4 * u.
Proof.
  intros Ha Hb Hc.
  assert (H1 : Rabs (1 * a - 1) <= (0 + 111 / 100) * u)
    by (apply near_one_mul; [lra | rewrite Rminus_diag, Rabs_R0; lra | exact Ha]).
  assert (H2 : Rabs (1 * a * b - 1) <= (0 + 111 / 100 + 111 / 100) * u)
    by (apply near_one_mul; [lra | exact H1 | exact Hb]).
  assert (H3 : Rabs (1 * a * b * c - 1)
               <= (0 + 111 / 100 + 111 / 100 + 111 / 100) * u)
    by (apply near_one_mul; [lra | exact H2 | exact Hc]).
  replace (a * b * c) with (1 * a * b * c) by ring. lra.
Qed.

Lemma near_one_8 (a b c d e f g h : R) :
  Rabs (a - 1) <= 11 / 10 * u -> Rabs (b - 1) <= 11 / 10 * u ->
  Rabs (c - 1) <= 11 / 10 * u -> Rabs (d - 1) <= 11 / 10 * u ->
  Rabs (e - 1) <= 11 / 10 * u -> Rabs (f - 1) <= 11 / 10 * u ->
  Rabs (g - 1) <= 11 / 10 * u -> Rabs (h - 1) <= 11 / 10 * u ->
  Rabs (a * b * c * d * e * f * g * h - 1) <= 9 * u.
Proof.
  intros Ha Hb Hc Hd He Hf Hg Hh.
  assert (H1 : Rabs (1 * a - 1) <= (0 + 111 / 100) * u)
    by (apply near_one_mul; [lra | rewrite Rminus_diag, Rabs_R0; lra | exact Ha]).
  assert (H2 : Rabs (1 * a * b - 1) <= (0 + 111 / 100 + 111 / 100) * u)
    by (apply near_one_mul; [lra | exact H1 | exact Hb]).
  assert (H3 : Rabs (1 * a * b * c - 1)
               <= (0 + 111 / 100 + 111 / 100 + 111 / 100) * u)
    by (apply near_one_mul; [lra | exact H2 | exact Hc]).
  assert (H4 : Rabs (1 * a * b * c * d - 1)
               <= (0 + 111 / 100 + 111 / 100 + 111 / 100 + 111 / 100) * u)
    by (apply near_one_mul; [lra | exact H3 | exact Hd]).
  assert (H5 : Rabs (1 * a * b * c * d * e - 1)
               <= (0 + 111 / 100 + 111 / 100 + 111 / 100 + 111 / 100
                   + 111 / 100) * u)
    by (apply near_one_mul; [lra | exact H4 | exact He]).
  assert (H6 : Rabs (1 * a * b * c * d * e * f - 1)
               <= (0 + 111 / 100 + 111 / 100 + 111 / 100 + 111 / 100
                   + 111 / 100 + 111 / 100) * u)
    by (apply near_one_mul; [lra | exact H5 | exact Hf]).
  assert (H7 : Rabs (1 * a * b * c * d * e * f * g - 1)
               <= (0 + 111 / 100 + 111 / 100 + 111 / 100 + 111 / 100
                   + 111 / 100 + 111 / 100 + 111 / 100) * u)
    by (apply near_one_mul; [lra | exact H6 | exact Hg]).
  assert (H8 : Rabs (1 * a * b * c * d * e * f * g * h - 1)
               <= (0 + 111 / 100 + 111 / 100 + 111 / 100 + 111 / 100
                   + 111 / 100 + 111 / 100 + 111 / 100 + 111 / 100) * u)
    by (apply near_one_mul; [lra | exact H7 | exact Hh]).
  replace (a * b * c * d * e * f * g * h)
    with (1 * a * b * c * d * e * f * g * h) by ring.
  lra.
Qed.

(** A sum of four terms with weights close to 1 is close to the plain
    sum. *)
Lemma near_sum_4 (k a b c d p q r s : R) :
  0 <= k -> 0 <= a -> 0 <= b -> 0 <= c -> 0 <= d ->
  Rabs (p - 1) <= k -> Rabs (q - 1) <= k ->
  Rabs (r - 1) <= k -> Rabs (s - 1) <= k ->
  Rabs ((a * p - b * q + c * r - d * s) - (a - b + c - d)) <= k * (a + b + c + d).
Proof.
  intros Hk Ha Hb Hc Hd Hp Hq Hr Hs.
  apply Rabs_bounds in Hp. apply Rabs_bounds in Hq.
  apply Rabs_bounds in Hr. apply Rabs_bounds in Hs.
  apply Rabs_bounds. split; nra.
Qed.

(** The calibration computed with rounding, on the reals.  The exact data
    are the powers x1, y1, x2, y2 of the two speeds and the two costs;
    [xk], [yk] and [ck] are the powers and the cost of the calibration
    point at which the cost function is evaluated.  The determinant
    computed is not zero, and the cost computed differs from [ck] by a
    multiple of u that grows as the determinant shrinks against its two
    products. *)
Lemma rounded_calibration
    (x1 y1 x2 y2 c1 c2 xk yk ck : R)
    (d0 d1 d2 d3 d4 d5 d6 d7 d8 d9 d10 d11 d12 d13 d14 e1 e2 e3 e4 e5 : R) :
  0 < x1 -> 0 < y1 -> 0 < x2 -> 0 < y2 -> 0 < c1 -> 0 < c2 ->
  0 < xk -> 0 < yk -> 0 < ck ->
  (c1 * y2 - c2 * y1) * xk + (c2 * x1 - c1 * x2) * yk = ck * (x1 * y2 - x2 * y1) ->
  Rabs d0 <= u -> Rabs d1 <= u -> Rabs d2 <= u -> Rabs d3 <= u -> Rabs d4 <= u ->
  Rabs d5 <= u -> Rabs d6 <= u -> Rabs d7 <= u -> Rabs d8 <= u -> Rabs d9 <= u ->
  Rabs d10 <= u -> Rabs d11 <= u -> Rabs d12 <= u -> Rabs d13 <= u ->
  Rabs d14 <= u ->
  Rabs e1 <= u -> Rabs e2 <= u -> Rabs e3 <= u -> Rabs e4 <= u -> Rabs e5 <= u ->
  8 * u * (x1 * y2 + x2 * y1) < Rabs (x1 * y2 - x2 * y1) ->
  let det :=
    (x1 * (1 + d0) * (y2 * (1 + d3)) * (1 + d4)
     + - (x2 * (1 + d2) * (y1 * (1 + d1)) * (1 + d5))) * (1 + d6) in
  let alpha :=
    (c1 * (y2 * (1 + d3)) * (1 + d7) + - (c2 * (y1 * (1 + d1)) * (1 + d8)))
    * (1 + d9) / det * (1 + d10) in
  let beta :=
    (c2 * (x1 * (1 + d0)) * (1 + d11) + - (c1 * (x2 * (1 + d2)) * (1 + d12)))
    * (1 + d13) / det * (1 + d14) in
  det <> 0 /\
  Rabs ((alpha * (xk * (1 + e1)) * (1 + e2) + beta * (yk * (1 + e3)) * (1 + e4))
        * (1 + e5) - ck)
  <= 2 * (9 * u * ((c1 * y2 + c2 * y1) * xk + (c2 * x1 + c1 * x2) * yk)
          + 4 * u * ck * (x1 * y2 + x2 * y1))
     / Rabs (x1 * y2 - x2 * y1).
Proof.
  intros Hx1 Hy1 Hx2 Hy2 Hc1 Hc2 Hxk Hyk Hck Hexact
    H0 H1 H2 H3 H4 H5 H6 H7 H8 H9 H10 H11 H12 H13 H14 G1 G2 G3 G4 G5 Hcond
    det alpha beta.
  set (P := x1 * y2) in *. set (Q := x2 * y1) in *.
  assert (HP : 0 < P) by (apply Rmult_lt_0_compat; assumption).
  assert (HQ : 0 < Q) by (apply Rmult_lt_0_compat; assumption).
  (* the two products of the determinant *)
  set (tP := (1 + d0) * (1 + d3) * (1 + d4)).
  set (tQ := (1 + d2) * (1 + d1) * (1 + d5)).
  assert (HtP : Rabs (tP - 1) <= 4 * u)
    by (apply near_one_3; apply near_one_factor; assumption).
  assert (HtQ : Rabs (tQ - 1) <= 4 * u)
    by (apply near_one_3; apply near_one_factor; assumption).
  set (D2 := P * tP - Q * tQ).
  assert (Hdet : det = D2 * (1 + d6)) by (subst det D2 tP tQ P Q; ring).
  assert (HD2 : Rabs (D2 - (P - Q)) <= 4 * u * (P + Q)).
  { apply Rabs_bounds in HtP. apply Rabs_bounds in HtQ. apply Rabs_bounds.
    subst D2. split; nra. }
  assert (HD2half : Rabs (P - Q) / 2 < Rabs D2).
  { apply Rabs_bounds in HD2. revert Hcond. unfold Rabs.
    destruct (Rcase_abs (P - Q)); destruct (Rcase_abs D2); lra. }
  assert (HD2pos : 0 < Rabs D2) by (pose proof (Rabs_pos (P - Q)); lra).
  assert (HD2nz : D2 <> 0) by (intros Hz; rewrite Hz, Rabs_R0 in HD2pos; lra).
  assert (Hd6 : 1 + d6 <> 0) by (apply Rabs_bounds in H6; lra).
  assert (Hdetnz : det <> 0).
  { rewrite Hdet. apply Rmult_integral_contrapositive_currified; assumption. }
  split; [exact Hdetnz|].
  (* the four terms of the numerator, each with its eight rounding errors *)
  set (p1 := (1 + d3) * (1 + d7) * (1 + d9) * (1 + d10) * (1 + e1) * (1 + e2)
             * (1 + e5) * / (1 + d6)).
  set (p2 := (1 + d1) * (1 + d8) * (1 + d9) * (1 + d10) * (1 + e1) * (1 + e2)
             * (1 + e5) * / (1 + d6)).
  set (p3 := (1 + d0) * (1 + d11) * (1 + d13) * (1 + d14) * (1 + e3) * (1 + e4)
             * (1 + e5) * / (1 + d6)).
  set (p4 := (1 + d2) * (1 + d12) * (1 + d13) * (1 + d14) * (1 + e3) * (1 + e4)
             * (1 + e5) * / (1 + d6)).
  assert (Hp1 : Rabs (p1 - 1) <= 9 * u)
    by (apply near_one_8; try (apply near_one_factor; assumption);
        apply near_one_inverse; assumption).
  assert (Hp2 : Rabs (p2 - 1) <= 9 * u)
    by (apply near_one_8; try (apply near_one_factor; assumption);
        apply near_one_inverse; assumption).
  assert (Hp3 : Rabs (p3 - 1) <= 9 * u)
    by (apply near_one_8; try (apply near_one_factor; assumption);
        apply near_one_inverse; assumption).
  assert (Hp4 : Rabs (p4 - 1) <= 9 * u)
    by (apply near_one_8; try (apply near_one_factor; assumption);
        apply near_one_inverse; assumption).
  set (A := c1 * y2 * xk). set (B := c2 * y1 * xk).
  set (C := c2 * x1 * yk). set (E := c1 * x2 * yk).
  assert (HA : 0 <= A) by (subst A; repeat apply Rmult_le_pos; lra).
  assert (HB : 0 <= B) by (subst B; repeat apply Rmult_le_pos; lra).
  assert (HC : 0 <= C) by (subst C; repeat apply Rmult_le_pos; lra).
  assert (HE : 0 <= E) by (subst E; repeat apply Rmult_le_pos; lra).
  set (N := A * p1 - B * p2 + C * p3 - E * p4).
  assert (Hres :
    (alpha * (xk * (1 + e1)) * (1 + e2) + beta * (yk * (1 + e3)) * (1 + e4))
    * (1 + e5) = N / D2).
  { subst alpha beta N A B C E p1 p2 p3 p4. rewrite Hdet. field.
    split; assumption. }
  rewrite Hres.
  assert (Hsum : A - B + C - E = ck * (P - Q)) by (subst A B C E P Q; lra).
  assert (HN : Rabs (N - ck * (P - Q)) <= 9 * u * (A + B + C + E)).
  { rewrite <- Hsum. subst N. apply near_sum_4; try assumption. lra. }
  replace (N / D2 - ck) with ((N - ck * (P - Q) - ck * (D2 - (P - Q))) / D2)
    by (field; exact HD2nz).
  unfold Rdiv at 1. rewrite Rabs_mult, Rabs_inv.
  assert (Hnum : Rabs (N - ck * (P - Q) - ck * (D2 - (P - Q)))
                 <= 9 * u * (A + B + C + E) + 4 * u * ck * (P + Q)).
  { apply Rabs_bounds in HN. apply Rabs_bounds in HD2. apply Rabs_bounds.
    split; nra. }
  replace ((c1 * y2 + c2 * y1) * xk + (c2 * x1 + c1 * x2) * yk)
    with (A + B + C + E) by (subst A B C E; ring).
  set (M := 9 * u * (A + B + C + E) + 4 * u * ck * (P + Q)) in *.
  assert (HM : 0 <= M).
  { pose proof (Rabs_pos (N - ck * (P - Q) - ck * (D2 - (P - Q)))). lra. }
  assert (HDpos : 0 < Rabs (P - Q)).
  { assert (0 <= 8 * u * (P + Q)) by nra. lra. }
  assert (Hinv : / Rabs D2 <= 2 * / Rabs (P - Q)).
  { replace (2 * / Rabs (P - Q)) with (/ (Rabs (P - Q) / 2)) by (field; lra).
    apply Rinv_le_contravar; lra. }
  apply Rle_trans with (M * / Rabs D2).
  - apply Rmult_le_compat_r;
      [left; apply Rinv_0_lt_compat; exact HD2pos | exact Hnum].
  - unfold Rdiv. rewrite (Rmult_comm 2 M), Rmult_assoc.
    apply Rmult_le_compat_l; [exact HM | exact Hinv].
Qed.

End RoundingAnalysis.

(** *** The functions with rounding *)

Lemma fl_Fin (d x : R) : fl d (Fin x) = Fin (x * (1 + d)).
Proof. reflexivity. Qed.

(** No error: the operation returns its exact result. *)
Lemma fl_exact (a : number) : fl 0 a = a.
Proof.
  unfold fl. replace (1 + 0) with 1 by lra.
  destruct a as [| |x|]; cbn [mul neg signed_inf];
    rewrite ?sgn_pos by lra; try reflexivity.
  f_equal. lra.
Qed.

(** With every error zero the functions with rounding are the functions of
    the exact model. *)
Lemma solveAlphaBeta_fl_exact (this : FoulingPhysics.t) (c1 c2 s1 s2 : number) :
  FoulingPhysics.solveAlphaBeta_fl (fun _ => 0) this c1 c2 s1 s2 =
  FoulingPhysics.solveAlphaBeta this c1 c2 s1 s2.
Proof.
  unfold FoulingPhysics.solveAlphaBeta_fl, FoulingPhysics.solveAlphaBeta.
  rewrite !fl_exact. reflexivity.
Qed.

Lemma calculateBaseCost_fl_exact (this : FoulingPhysics.t) (speed : number) :
  FoulingPhysics.calculateBaseCost_fl (fun _ => 0) (fun _ => 0) this speed =
  FoulingPhysics.calculateBaseCost this speed.
Proof.
  unfold FoulingPhysics.calculateBaseCost_fl, FoulingPhysics.calculateBaseCost.
  rewrite solveAlphaBeta_fl_exact.
  destruct (match FoulingPhysics.alpha this, FoulingPhysics.beta this with
            | Some _, Some _ => Ok this
            | _, _ => _
            end) as [p|msg]; cbn [bind]; [|reflexivity].
  rewrite !fl_exact. reflexivity.
Qed.

(** The coefficients solveAlphaBeta caches when its operations round, on
    finite positive inputs and as long as the determinant computed is not
    zero. *)
Lemma solveAlphaBeta_fl_value (d : nat -> R) (this : FoulingPhysics.t)
    (c1 c2 s1 s2 w : R) :
  FoulingPhysics.waveExp this = Fin w ->
  0 < s1 < s2 -> 0 < c1 -> 0 < c2 -> w <> 0 ->
  let x1 := Rpower s1 3 in
  let y1 := Rpower s1 w in
  let x2 := Rpower s2 3 in
  let y2 := Rpower s2 w in
  let det :=
    (x1 * (1 + d 0%nat) * (y2 * (1 + d 3%nat)) * (1 + d 4%nat)
     + - (x2 * (1 + d 2%nat) * (y1 * (1 + d 1%nat)) * (1 + d 5%nat)))
    * (1 + d 6%nat) in
  let alpha :=
    (c1 * (y2 * (1 + d 3%nat)) * (1 + d 7%nat)
     + - (c2 * (y1 * (1 + d 1%nat)) * (1 + d 8%nat)))
    * (1 + d 9%nat) / det * (1 + d 10%nat) in
  let beta :=
    (c2 * (x1 * (1 + d 0%nat)) * (1 + d 11%nat)
     + - (c1 * (x2 * (1 + d 2%nat)) * (1 + d 12%nat)))
    * (1 + d 13%nat) / det * (1 + d 14%nat) in
  det <> 0 ->
  FoulingPhysics.solveAlphaBeta_fl d this (Fin c1) (Fin c2) (Fin s1) (Fin s2) =
  Ok (FoulingPhysics.set_alpha_beta this (Fin alpha) (Fin beta),
      (Fin alpha, Fin beta)).
Proof.
  intros Hw Hs Hc1 Hc2 Hw0 x1 y1 x2 y2 det alpha beta Hdet.
  unfold FoulingPhysics.solveAlphaBeta_fl.
  replace (Fin s1 === Fin s2)%js with false by (js_eval; reflexivity).
  replace (truthy (Fin c1)) with true by (symmetry; apply truthy_Fin; lra).
  replace (truthy (Fin c2)) with true by (symmetry; apply truthy_Fin; lra).
  replace (truthy (Fin s1)) with true by (symmetry; apply truthy_Fin; lra).
  replace (truthy (Fin s2)) with true by (symmetry; apply truthy_Fin; lra).
  cbn [negb orb]. rewrite Hw.
  rewrite !Math_pow_pos by lra.
  cbn [fl mul sub add neg].
  fold x1 y1 x2 y2. fold det.
  rewrite !div_Fin by exact Hdet.
  cbn [mul]. reflexivity.
Qed.

(** The cost calculateBaseCost computes on a calibrated object when its
    operations round, at a speed the clamp leaves alone. *)
Lemma calculateBaseCost_fl_value (d e : nat -> R) (p : FoulingPhysics.t)
    (a b s full w u : R) :
  FoulingPhysics.alpha p = Some (Fin a) ->
  FoulingPhysics.beta p = Some (Fin b) ->
  FoulingPhysics.fullSpeed p = Fin full ->
  FoulingPhysics.waveExp p = Fin w ->
  0 <= u <= 1 / 1000 -> Rabs (e 0%nat) <= u ->
  0.1 <= s <= full -> w <> 0 ->
  FoulingPhysics.calculateBaseCost_fl d e p (Fin s) =
  Ok (p,
      Fin ((a * (Rpower s 3 * (1 + e 1%nat)) * (1 + e 2%nat)
            + b * (Rpower s w * (1 + e 3%nat)) * (1 + e 4%nat))
           * (1 + e 5%nat))).
Proof.
  intros Ha Hb Hfull Hw Hu He0 Hs Hw0.
  unfold FoulingPhysics.calculateBaseCost_fl.
  rewrite Ha, Hb. cbn [bind]. rewrite Ha, Hb, Hfull, Hw.
  cbn [FoulingPhysics.coefficient].
  apply Rabs_bounds in He0.
  assert (Hclamp :
    Math_max (Fin 0.1) (Math_min (Fin s) (fl (e 0%nat) (Fin full * Fin 1.2)%js))
    = Fin s).
  { cbn [fl mul].
    assert (Hle : s <= full * 1.2 * (1 + e 0%nat)) by nra.
    js_eval; try reflexivity; f_equal; lra. }
  rewrite Hclamp.
  rewrite !Math_pow_pos by lra.
  reflexivity.
Qed.

(** The determinant against its products: for a wave exponent of 4 or more
    and an economical speed at most nine tenths of the full speed, the
    second product is at most nine tenths of the first. *)
Lemma cross2_le_cross1 (s1 s2 w : R) :
  0 < s1 -> s1 <= 9 / 10 * s2 -> 4 <= w ->
  0 < Spec.cross2 s1 s2 w <= 9 / 10 * Spec.cross1 s1 s2 w.
Proof.
  intros Hs1 Hs Hw. unfold Spec.cross1, Spec.cross2.
  assert (Hs2 : 0 < s2) by lra.
  replace w with (3 + 1 + (w - 4)) by ring.
  rewrite !Rpower_plus, !Rpower_1 by lra.
  assert (H31 : 0 < Rpower s1 3) by apply exp_pos.
  assert (H32 : 0 < Rpower s2 3) by apply exp_pos.
  assert (Ht1 : 0 < Rpower s1 (w - 4)) by apply exp_pos.
  assert (Ht : Rpower s1 (w - 4) <= Rpower s2 (w - 4))
    by (apply Rle_Rpower_l; lra).
  split.
  - repeat apply Rmult_lt_0_compat; assumption.
  - apply Rle_trans
      with (Rpower s2 3 * (Rpower s1 3 * (9 / 10 * s2) * Rpower s2 (w - 4))).
    + apply Rmult_le_compat_l; [lra|].
      apply Rmult_le_compat; nra.
    + right. ring.
Qed.

Lemma well_conditioned (s1 s2 w u : R) :
  0 < s1 -> s1 <= 9 / 10 * s2 -> 4 <= w -> 0 <= u <= 1 / 1000 ->
  8 * u * (Spec.cross1 s1 s2 w + Spec.cross2 s1 s2 w)
  < Rabs (Spec.cross1 s1 s2 w - Spec.cross2 s1 s2 w).
Proof.
  intros Hs1 Hs Hw Hu.
  pose proof (cross2_le_cross1 s1 s2 w Hs1 Hs Hw) as [HQ HQP].
  rewrite Rabs_right by lra. nra.
Qed.

(** C3, amended.  For every vessel with finite calibration inputs
    0.1 <= ecoSpeed < fullSpeed, 0 < ecoCost < fullCost and a positive wave
    exponent: when every floating-point operation of solveAlphaBeta and
    calculateBaseCost, Math.pow included, returns its exact result with a
    relative error of at most u <= 0.001, which doubles do with u = 2^-52
    as long as no result overflows or underflows, and the determinant
    x1 y2 - x2 y1 is not lost in the rounding of its two products,
    8 u (x1 y2 + x2 y1) < |x1 y2 - x2 y1|, the calibration the constructor
    runs returns finite coefficients and calculateBaseCost reproduces both
    points: its results at ecoSpeed and fullSpeed are finite and differ
    from ecoCost and fullCost by at most
    36 u (ecoCost (x1 y2 + x2 y1) + fullCost x1 y1) / |x1 y2 - x2 y1| and
    36 u (fullCost (x1 y2 + x2 y1) + ecoCost x2 y2) / |x1 y2 - x2 y1|.
    With u = 0 this is exact reproduction for every exponent other than 3;
    at the exponent 3 the determinant is zero and the condition fails for
    every u. *)
Theorem calibration_reproduces_points (vessel : Vessel.t)
    (s1 s2 c1 c2 w u : R) (d e1 e2 : nat -> R) :
  Vessel.eco_speed vessel = Fin s1 ->
  Vessel.full_speed vessel = Fin s2 ->
  Vessel.cost_eco vessel = Fin c1 ->
  Vessel.cost_full vessel = Fin c2 ->
  Vessel.wave_exp vessel = Fin w ->
  0.1 <= s1 < s2 -> 0 < c1 < c2 -> 0 < w ->
  0 <= u <= 1 / 1000 ->
  (forall i, Rabs (d i) <= u) ->
  (forall i, Rabs (e1 i) <= u) ->
  (forall i, Rabs (e2 i) <= u) ->
  8 * u * (Spec.cross1 s1 s2 w + Spec.cross2 s1 s2 w)
    < Rabs (Spec.cross1 s1 s2 w - Spec.cross2 s1 s2 w) ->
  Spec.reproduces_within d e1 e2 vessel
    (36 * u * (c1 * (Spec.cross1 s1 s2 w + Spec.cross2 s1 s2 w)
               + c2 * (Rpower s1 3 * Rpower s1 w))
     / Rabs (Spec.cross1 s1 s2 w - Spec.cross2 s1 s2 w))
    (36 * u * (c2 * (Spec.cross1 s1 s2 w + Spec.cross2 s1 s2 w)
               + c1 * (Rpower s2 3 * Rpower s2 w))
     / Rabs (Spec.cross1 s1 s2 w - Spec.cross2 s1 s2 w)).
Proof.
  intros Hs1 Hs2 Hc1 Hc2 Hw Hs Hc Hw0 Hu Hd He1 He2 Hcond.
  unfold Spec.cross1, Spec.cross2 in *.
  set (x1 := Rpower s1 3) in *. set (y1 := Rpower s1 w) in *.
  set (x2 := Rpower s2 3) in *. set (y2 := Rpower s2 w) in *.
  assert (Hx1 : 0 < x1) by apply exp_pos.
  assert (Hy1 : 0 < y1) by apply exp_pos.
  assert (Hx2 : 0 < x2) by apply exp_pos.
  assert (Hy2 : 0 < y2) by apply exp_pos.
  assert (HP : 0 < x1 * y2) by (apply Rmult_lt_0_compat; assumption).
  assert (HQ : 0 < x2 * y1) by (apply Rmult_lt_0_compat; assumption).
  assert (Hden : 0 < Rabs (x1 * y2 - x2 * y1)).
  { assert (0 <= 8 * u * (x1 * y2 + x2 * y1)) by (apply Rmult_le_pos; lra).
    lra. }
  set (p := FoulingPhysics.new vessel).
  assert (Hpw : FoulingPhysics.waveExp p = Fin w).
  { subst p. rewrite new_waveExp, Hw. unfold or_else.
    replace (truthy (Fin w)) with true by (symmetry; apply truthy_Fin; lra).
    reflexivity. }
  assert (Hpf : FoulingPhysics.fullSpeed p = Fin s2).
  { subst p. rewrite new_fullSpeed; [exact Hs2|].
    rewrite Hs2. apply truthy_Fin. lra. }
  (* the calibration point at the economical speed *)
  destruct (rounded_calibration u Hu x1 y1 x2 y2 c1 c2 x1 y1 c1
              (d 0%nat) (d 1%nat) (d 2%nat) (d 3%nat) (d 4%nat) (d 5%nat)
              (d 6%nat) (d 7%nat) (d 8%nat) (d 9%nat) (d 10%nat) (d 11%nat)
              (d 12%nat) (d 13%nat) (d 14%nat)
              (e1 1%nat) (e1 2%nat) (e1 3%nat) (e1 4%nat) (e1 5%nat))
    as [Hdet Hb1]; try lra; try apply Hd; try apply He1; try exact Hcond.
  (* the calibration point at the full speed *)
  destruct (rounded_calibration u Hu x1 y1 x2 y2 c1 c2 x2 y2 c2
              (d 0%nat) (d 1%nat) (d 2%nat) (d 3%nat) (d 4%nat) (d 5%nat)
              (d 6%nat) (d 7%nat) (d 8%nat) (d 9%nat) (d 10%nat) (d 11%nat)
              (d 12%nat) (d 13%nat) (d 14%nat)
              (e2 1%nat) (e2 2%nat) (e2 3%nat) (e2 4%nat) (e2 5%nat))
    as [_ Hb2]; try lra; try apply Hd; try apply He2; try exact Hcond.
  pose proof (solveAlphaBeta_fl_value d p c1 c2 s1 s2 w Hpw) as Hsolve.
  cbv zeta in Hsolve. fold x1 y1 x2 y2 in Hsolve.
  specialize (Hsolve ltac:(lra) ltac:(lra) ltac:(lra) ltac:(lra) Hdet).
  unfold Spec.reproduces_within.
  rewrite Hs1, Hs2, Hc1, Hc2. fold p. rewrite Hsolve.
  do 2 eexists. exists c1, c2. do 2 eexists.
  split; [reflexivity|]. split; [reflexivity|]. split; [reflexivity|].
  split; [|split; [|split]].
  - eapply calculateBaseCost_fl_value with (u := u) (full := s2) (w := w);
      try reflexivity; try exact Hpw; try exact Hpf; try exact Hu;
      try apply He1; lra.
  - eapply calculateBaseCost_fl_value with (u := u) (full := s2) (w := w);
      try reflexivity; try exact Hpw; try exact Hpf; try exact Hu;
      try apply He2; lra.
  - fold x1 y1. eapply Rle_trans; [exact Hb1|].
    apply Rmult_le_compat_r.
    + left. apply Rinv_0_lt_compat. exact Hden.
    + assert (Hpos : 0 <= u * (c1 * (x1 * y2 + x2 * y1)))
        by (repeat apply Rmult_le_pos; nra).
      replace (36 * u * (c1 * (x1 * y2 + x2 * y1) + c2 * (x1 * y1)))
        with (2 * (9 * u * ((c1 * y2 + c2 * y1) * x1 + (c2 * x1 + c1 * x2) * y1)
                   + 4 * u * c1 * (x1 * y2 + x2 * y1))
              + 10 * (u * (c1 * (x1 * y2 + x2 * y1)))) by ring.
      lra.
  - fold x2 y2. eapply Rle_trans; [exact Hb2|].
    apply Rmult_le_compat_r.
    + left. apply Rinv_0_lt_compat. exact Hden.
    + assert (Hpos : 0 <= u * (c2 * (x1 * y2 + x2 * y1)))
        by (repeat apply Rmult_le_pos; nra).
      replace (36 * u * (c2 * (x1 * y2 + x2 * y1) + c1 * (x2 * y2)))
        with (2 * (9 * u * ((c1 * y2 + c2 * y1) * x2 + (c2 * x1 + c1 * x2) * y2)
                   + 4 * u * c2 * (x1 * y2 + x2 * y1))
              + 10 * (u * (c2 * (x1 * y2 + x2 * y1)))) by ring.
      lra.
Qed.

(** With a cubic wave exponent the two products are equal and the
    condition on the determinant fails, whatever the rounding. *)
Lemma cubic_exponent_is_not_conditioned (s1 s2 u : R) :
  0 <= u ->
  ~ 8 * u * (Spec.cross1 s1 s2 3 + Spec.cross2 s1 s2 3)
    < Rabs (Spec.cross1 s1 s2 3 - Spec.cross2 s1 s2 3).
Proof.
  intros Hu. unfold Spec.cross1, Spec.cross2.
  replace (Rpower s1 3 * Rpower s2 3 - Rpower s2 3 * Rpower s1 3) with 0 by ring.
  rewrite Rabs_R0.
  assert (0 < Rpower s1 3 * Rpower s2 3)
    by (apply Rmult_lt_0_compat; apply exp_pos).
  assert (0 < Rpower s2 3 * Rpower s1 3)
    by (apply Rmult_lt_0_compat; apply exp_pos).
  assert (0 <= 8 * u * (Rpower s1 3 * Rpower s2 3 + Rpower s2 3 * Rpower s1 3))
    by (apply Rmult_le_pos; lra).
  lra.
Qed.

Lemma calibration_reproduces_points_witness :
  Spec.reproduces_within (fun _ => 1.1e-16) (fun _ => -1.1e-16) (fun _ => 1.1e-16)
    Example.vessel
    (36 * 1e-15 * (150 * (Spec.cross1 12 18 4.5 + Spec.cross2 12 18 4.5)
                   + 300 * (Rpower 12 3 * Rpower 12 4.5))
     / Rabs (Spec.cross1 12 18 4.5 - Spec.cross2 12 18 4.5))
    (36 * 1e-15 * (300 * (Spec.cross1 12 18 4.5 + Spec.cross2 12 18 4.5)
                   + 150 * (Rpower 18 3 * Rpower 18 4.5))
     / Rabs (Spec.cross1 12 18 4.5 - Spec.cross2 12 18 4.5)).
Proof.
  apply (calibration_reproduces_points Example.vessel 12 18 150 300 4.5 1e-15).
  - reflexivity.
  - reflexivity.
  - reflexivity.
  - reflexivity.
  - reflexivity.
  - lra.
  - lra.
  - lra.
  - lra.
  - intros _. rewrite Rabs_right; lra.
  - intros _. rewrite Rabs_left; lra.
  - intros _. rewrite Rabs_right; lra.
  - apply well_conditioned; lra.
Defined.

(** With a cubic wave exponent the system is singular: the determinant is
    zero, the coefficients are infinite, and the cost at a calibration
    speed is NaN. *)
Lemma cubic_solveAlphaBeta :
  FoulingPhysics.solveAlphaBeta Example.cubicPhysics
    (Fin 150) (Fin 300) (Fin 12) (Fin 18) =
  Ok (FoulingPhysics.set_alpha_beta Example.cubicPhysics PosInf NegInf,
      (PosInf, NegInf)).
Proof.
  unfold FoulingPhysics.solveAlphaBeta.
  replace (Fin 12 === Fin 18)%js with false by (js_eval; reflexivity).
  replace (truthy (Fin 150)) with true by (symmetry; apply truthy_Fin; lra).
  replace (truthy (Fin 300)) with true by (symmetry; apply truthy_Fin; lra).
  replace (truthy (Fin 12)) with true by (symmetry; apply truthy_Fin; lra).
  replace (truthy (Fin 18)) with true by (symmetry; apply truthy_Fin; lra).
  cbn [negb orb]. rewrite cubicVessel_waveExp.
  rewrite !Math_pow_pos by lra. rewrite !Rpower_3 by lra.
  js_eval; reflexivity.
Qed.

Lemma cubic_calculateBaseCost :
  FoulingPhysics.calculateBaseCost
    (FoulingPhysics.set_alpha_beta Example.cubicPhysics PosInf NegInf) (Fin 12)
  = Ok (FoulingPhysics.set_alpha_beta Example.cubicPhysics PosInf NegInf, NaN).
Proof.
  erewrite calculateBaseCost_calibrated by reflexivity.
  cbn [FoulingPhysics.fullSpeed FoulingPhysics.waveExp FoulingPhysics.set_alpha_beta].
  rewrite cubicVessel_fullSpeed, cubicVessel_waveExp, clamp_speed_id by lra.
  rewrite !Math_pow_pos by lra. rewrite !Rpower_3 by lra.
  js_eval; reflexivity.
Qed.

(** C3 fails as stated: the test vessel with wave exponent 3 satisfies the
    conditions of the claim, and its calibration points are not reproduced. *)
Lemma cubic_exponent_not_reproduced :
  FoulingPhysics.waveExp Example.cubicPhysics = Fin 3 /\
  FoulingPhysics.fullSpeed Example.cubicPhysics = Fin 18 /\
  0.1 <= 12 < 18 /\ 0 < 150 < 300 /\ 0 < 3 /\
  ~ Spec.reproduces Example.cubicPhysics (Fin 150) (Fin 300) (Fin 12) (Fin 18).
Proof.
  split; [exact cubicVessel_waveExp|].
  split; [exact cubicVessel_fullSpeed|].
  repeat (split; [lra|]).
  intros (this' & ab & Hsolve & Heco & _).
  rewrite cubic_solveAlphaBeta in Hsolve.
  injection Hsolve as <- _.
  rewrite cubic_calculateBaseCost in Heco.
  discriminate Heco.
Qed.

(* ================================================================== *)
(** ** FoulingPhysics: the guards of solveAlphaBeta *)
(* ================================================================== *)

(** C6, amended.  solveAlphaBeta throws exactly when ecoSpeed === fullSpeed
    or one of its four inputs is falsy, that is zero or NaN; on every other
    input, negative ones included, it returns the coefficients it caches. *)
Theorem solveAlphaBeta_throws_iff (this : FoulingPhysics.t)
    (ecoCost fullCost ecoSpeed fullSpeed : number) :
  (throws (FoulingPhysics.solveAlphaBeta this ecoCost fullCost ecoSpeed fullSpeed)
     = true <->
   (ecoSpeed === fullSpeed)%js = true \/
   Exists (fun x => x = NaN \/ x = Fin 0) [ecoCost; fullCost; ecoSpeed; fullSpeed])
  /\
  (throws (FoulingPhysics.solveAlphaBeta this ecoCost fullCost ecoSpeed fullSpeed)
     = false <->
   exists a b,
     FoulingPhysics.solveAlphaBeta this ecoCost fullCost ecoSpeed fullSpeed =
     Ok (FoulingPhysics.set_alpha_beta this a b, (a, b))).
Proof.
  split.
  - rewrite solveAlphaBeta_throws, !orb_true_iff, !negb_true_iff, !falsy_iff.
    rewrite !Exists_cons, Exists_nil. tauto.
  - split.
    + apply solveAlphaBeta_returns.
    + intros (a & b & ->). reflexivity.
Qed.

(** C6 fails as stated: a negative cost is a non-positive input, and
    solveAlphaBeta returns normally on it. *)
Lemma negative_cost_accepted :
  Spec.calibrationRejected (Fin (-150)) (Fin 300) (Fin 12) (Fin 18) = true /\
  throws (FoulingPhysics.solveAlphaBeta (FoulingPhysics.new Example.vessel)
            (Fin (-150)) (Fin 300) (Fin 12) (Fin 18)) = false /\
  ~ (throws (FoulingPhysics.solveAlphaBeta (FoulingPhysics.new Example.vessel)
               (Fin (-150)) (Fin 300) (Fin 12) (Fin 18)) = true <->
     Spec.calibrationRejected (Fin (-150)) (Fin 300) (Fin 12) (Fin 18) = true).
Proof.
  assert (Hrej : Spec.calibrationRejected (Fin (-150)) (Fin 300) (Fin 12) (Fin 18)
                 = true).
  { unfold Spec.calibrationRejected, Spec.nonPositive. js_eval; reflexivity. }
  assert (Hok : throws (FoulingPhysics.solveAlphaBeta
                          (FoulingPhysics.new Example.vessel)
                          (Fin (-150)) (Fin 300) (Fin 12) (Fin 18)) = false).
  { rewrite solveAlphaBeta_throws. js_eval; reflexivity. }
  split; [exact Hrej|]. split; [exact Hok|].
  intros [_ H]. rewrite Hok in H. specialize (H Hrej). discriminate H.
Qed.

(* ================================================================== *)
(** ** FoulingPhysics: the cost at a fouling level *)
(* ================================================================== *)

Lemma calculateCostAt_calibrated (p : FoulingPhysics.t) a b speed frLevel :
  FoulingPhysics.alpha p = Some a -> FoulingPhysics.beta p = Some b ->
  exists baseCost,
    FoulingPhysics.calculateBaseCost p speed = Ok (p, baseCost) /\
    FoulingPhysics.calculateCostAt p speed frLevel =
    Ok (p,
        {| FoulingPhysics.clean := baseCost;
           FoulingPhysics.fouled :=
             (baseCost *
              (Fin 1 + index_or FoulingPhysics.foulingIncreases frLevel (Fin 0) *
                       FoulingPhysics.speedReductionAt (FoulingPhysics.froude p speed)))%js;
           FoulingPhysics.foulingIncrease :=
             (index_or FoulingPhysics.foulingIncreases frLevel (Fin 0) *
              FoulingPhysics.speedReductionAt (FoulingPhysics.froude p speed))%js;
           FoulingPhysics.speedReduction :=
             FoulingPhysics.speedReductionAt (FoulingPhysics.froude p speed);
           FoulingPhysics.roughness :=
             index_or FoulingPhysics.frKsMapping frLevel (Fin 0) |}).
Proof.
  intros Ha Hb. eexists. split.
  - apply (calculateBaseCost_calibrated p a b speed Ha Hb).
  - unfold FoulingPhysics.calculateCostAt.
    rewrite (calculateBaseCost_calibrated p a b speed Ha Hb).
    reflexivity.
Qed.

(** The reduction factor the code computes: full up to Froude 0.15, linear
    with slope -2 up to Froude 0.5, and 0.3 from there on. *)
Lemma speedReductionAt_Fin (Fr : R) :
  FoulingPhysics.speedReductionAt (Fin Fr) =
  Fin (if Rle_dec Fr 0.15 then 1
       else if Rle_dec Fr 0.5 then 1 - 2 * (Fr - 0.15)
       else 0.3).
Proof.
  unfold FoulingPhysics.speedReductionAt.
  js_eval; f_equal; lra.
Qed.

Lemma speedReductionAt_035 : FoulingPhysics.speedReductionAt (Fin 0.35) = Fin 0.6.
Proof. rewrite speedReductionAt_Fin. decide_reals. f_equal; lra. Qed.

Lemma Rdiv_bounds a q lo hi :
  0 < q -> lo * q < a -> a < hi * q -> lo < a / q < hi.
Proof.
  intros Hq Hlo Hhi.
  split; apply Rmult_lt_reg_r with q; auto;
    unfold Rdiv; rewrite Rmult_assoc, Rinv_l; lra.
Qed.

Lemma sqrt_bounds x lo hi :
  0 <= lo -> 0 <= hi -> lo * lo < x -> x < hi * hi -> lo < sqrt x < hi.
Proof.
  intros Hlo Hhi H1 H2.
  assert (Hx : 0 <= x) by nra.
  split.
  - rewrite <- (sqrt_square lo) by assumption. apply sqrt_lt_1; nra.
  - rewrite <- (sqrt_square hi) by assumption. apply sqrt_lt_1; nra.
Qed.

(** The Froude number of the 100 m test vessel at 24 knots. *)
Lemma vessel_froude_24 (a b : number) :
  exists Fr,
    FoulingPhysics.froude (Example.physicsWith a b) (Fin 24) = Fin Fr /\
    0.394 < Fr < 0.3943.
Proof.
  unfold FoulingPhysics.froude, Example.physicsWith.
  cbn [FoulingPhysics.length FoulingPhysics.set_alpha_beta].
  rewrite new_length. cbn [Vessel.length Example.vessel].
  unfold FoulingPhysics.GRAVITY, FoulingPhysics.KNOTS_TO_MPS.
  cbn [mul].
  pose proof (sqrt_bounds (9.81 * 100) 31.32 31.33) as Hq.
  destruct Hq as [Hq1 Hq2]; try lra.
  unfold Math_sqrt. rewrite sgn_pos by lra.
  rewrite div_Fin by lra.
  eexists; split; [reflexivity|].
  apply Rdiv_bounds; lra.
Qed.

(** C5: the attenuation reaches its floor at Froude 0.5, not at 0.35.  For
    the calibrated test vessel (100 m) at 24 knots and fouling level 5 the
    Froude number lies above 0.35, where the claim puts the fraction at
    30% of 1.93, and calculateCostAt returns a fraction above 0.98. *)
Theorem attenuation_above_floor_past_035 :
  exists p ab c Fr x,
    FoulingPhysics.solveAlphaBeta (FoulingPhysics.new Example.vessel)
      (Fin 150) (Fin 300) (Fin 12) (Fin 18) = Ok (p, ab) /\
    FoulingPhysics.calculateCostAt p (Fin 24) 5 = Ok (p, c) /\
    FoulingPhysics.froude p (Fin 24) = Fin Fr /\
    0.35 < Fr /\
    FoulingPhysics.foulingIncrease c = Fin x /\
    0.98 < x /\
    1.93 * Spec.attenuation Fr = 0.579.
Proof.
  destruct (solveAlphaBeta_returns (FoulingPhysics.new Example.vessel)
              (Fin 150) (Fin 300) (Fin 12) (Fin 18)) as (a & b & Hsolve).
  { rewrite solveAlphaBeta_throws. js_eval; reflexivity. }
  destruct (vessel_froude_24 a b) as (Fr & HFr & Hlo & Hhi).
  destruct (calculateCostAt_calibrated (Example.physicsWith a b) a b (Fin 24) 5)
    as (baseCost & _ & Hcost); try reflexivity.
  exists (Example.physicsWith a b), (a, b).
  eexists. exists Fr. eexists.
  split; [exact Hsolve|].
  split; [exact Hcost|].
  split; [exact HFr|].
  split; [lra|].
  cbn [FoulingPhysics.foulingIncrease].
  rewrite HFr, speedReductionAt_Fin.
  unfold index_or, FoulingPhysics.foulingIncreases. cbn [nth_error].
  split; [|split].
  - js_eval; reflexivity.
  - decide_reals. lra.
  - unfold Spec.attenuation. decide_reals. lra.
Qed.

(* ================================================================== *)
(** ** AdaptiveFoulingModel: construction *)
(* ================================================================== *)

Section Engine.

Import AdaptiveFoulingModel.

Lemma set_physics_id (m : t) : set_physics m (physics m) = m.
Proof. destruct m; reflexivity. Qed.

(** The constructor succeeds when the four required fields are truthy and
    the speeds differ; the engine then holds a calibrated physics object,
    an empty window, and the adaptive state of the row (or the defaults). *)
Lemma new_ok (clock : Clock) (row : option ModelState) (vessel : Vessel.t) :
  missingFields vessel = [] ->
  throws (FoulingPhysics.solveAlphaBeta (FoulingPhysics.new vessel)
            (Vessel.cost_eco vessel) (Vessel.cost_full vessel)
            (Vessel.eco_speed vessel) (Vessel.full_speed vessel)) = false ->
  exists m,
    new clock row vessel = Ok m /\
    Spec.calibrated (physics m) /\
    FoulingPhysics.length (physics m) = Vessel.length vessel /\
    trainingDataBuffer m = [] /\
    daysSinceClean m = calculateDaysSinceClean clock (Vessel.last_clean_date vessel) /\
    (row = None ->
     correctionFactor m = Fin 1.0 /\
     foulingAccumulationRate m = Fin 1.0 /\
     confidence m = Fin 0.0 /\
     trainingDataCount m = 0%Z).
Proof.
  intros Hmissing Hsolve.
  destruct (solveAlphaBeta_returns _ _ _ _ _ Hsolve) as (a & b & Heq).
  unfold new. rewrite Hmissing. cbn [List.length Nat.ltb Nat.leb].
  rewrite Heq. cbn [bind].
  eexists. split; [reflexivity|].
  cbn [physics trainingDataBuffer daysSinceClean correctionFactor
       foulingAccumulationRate confidence trainingDataCount].
  split; [exists a, b; split; reflexivity|].
  split; [cbn [FoulingPhysics.length FoulingPhysics.set_alpha_beta];
          apply new_length|].
  split; [reflexivity|].
  split; [reflexivity|].
  intros ->. repeat split; reflexivity.
Qed.

(** The constructor throws when a required field is falsy. *)
Lemma new_missing (clock : Clock) (row : option ModelState) (vessel : Vessel.t) :
  missingFields vessel <> [] -> throws (new clock row vessel) = true.
Proof.
  intros H. unfold new.
  destruct (missingFields vessel); [contradiction|]. reflexivity.
Qed.

(* ================================================================== *)
(** ** AdaptiveFoulingModel: predict *)
(* ================================================================== *)

Lemma appliedMultiplier_table :
  Spec.appliedMultiplier (Some "calm"%string) = Num (Fin 1.0) /\
  Spec.appliedMultiplier (Some "moderate"%string) = Num (Fin 1.05) /\
  Spec.appliedMultiplier (Some "rough"%string) = Num (Fin 1.15) /\
  Spec.appliedMultiplier (Some "storm"%string) = Num (Fin 1.30) /\
  Spec.appliedMultiplier None = Num (Fin 1.0).
Proof.
  unfold Spec.appliedMultiplier, value_or, weather_or_calm, weatherMultipliers.
  cbn [String.eqb Ascii.eqb Bool.eqb value_truthy].
  repeat split; js_eval; reflexivity.
Qed.

(** A weather that is neither a category nor an inherited property name
    gets the moderate multiplier. *)
Lemma appliedMultiplier_unknown (weather : string) :
  weatherMultipliers weather = Undefined ->
  Spec.appliedMultiplier (Some weather) = Num (Fin 1.05).
Proof.
  intros H. unfold Spec.appliedMultiplier, value_or, weather_or_calm.
  rewrite H. reflexivity.
Qed.

(** A property name of Object.prototype is found through the literal: the
    multiplier is then no number at all. *)
Lemma appliedMultiplier_inherited :
  Spec.appliedMultiplier (Some "constructor"%string) = Inherited "constructor".
Proof. reflexivity. Qed.

(** On a calibrated engine predict returns, leaves the engine as it is,
    and its predicted cost is the product of the object calculateCostAt
    returned with the two factors: NaN. *)
Lemma predictComponents_calibrated (m : t) speed weather :
  Spec.calibrated (physics m) ->
  exists c,
    FoulingPhysics.calculateCostAt (physics m) speed (estimateFRLevel m None)
      = Ok (physics m, c) /\
    predictComponents m speed weather =
    Ok (m,
        {| p_predicted := NaN;
           p_base := c;
           p_frLevel := estimateFRLevel m None;
           p_correctionFactor := correctionFactor m;
           p_weatherMultiplier := Spec.appliedMultiplier weather;
           p_confidence := confidence m |}).
Proof.
  intros (a & b & Ha & Hb).
  destruct (calculateCostAt_calibrated (physics m) a b speed
              (estimateFRLevel m None) Ha Hb) as (baseCost & _ & Hcost).
  eexists. split; [exact Hcost|].
  unfold predictComponents. rewrite Hcost. cbn [bind].
  rewrite set_physics_id. reflexivity.
Qed.

End Engine.

Section Predict.

Import AdaptiveFoulingModel.

(** On every engine the constructor can produce, and for every speed and
    weather, calculateCostAt returns its object, predict multiplies that
    object instead of its fouled field, and the cost it returns is NaN. *)
Lemma predict_cost_is_NaN (m : t) (speed : number) (weather : option string) :
  Spec.calibrated (physics m) ->
  (exists c,
     FoulingPhysics.calculateCostAt (physics m) speed (estimateFRLevel m None)
       = Ok (physics m, c) /\
     Spec.base m speed = Ok (FoulingPhysics.fouled c)) /\
  predict m speed weather false = Ok (m, Cost NaN).
Proof.
  intros Hcal.
  destruct (predictComponents_calibrated m speed weather Hcal) as (c & Hc & Hp).
  split.
  - exists c. split; [exact Hc|]. unfold Spec.base. rewrite Hc. reflexivity.
  - unfold predict. rewrite Hp. reflexivity.
Qed.

(** C9.  predict with the weather omitted is predict with 'calm', whatever
    the engine, the speed and the returnComponents flag; the multiplier it
    applies is 1.0; and calculateExtraCostPerDay, which recommendCleaning
    uses, is computed from that calm prediction. *)
Theorem predict_default_weather_is_calm (m : t) (speed : number)
    (returnComponents : bool) :
  predict m speed None returnComponents =
    predict m speed (Some "calm"%string) returnComponents /\
  Spec.appliedMultiplier None = Num (Fin 1.0) /\
  ToNumber (Spec.appliedMultiplier None) <> Fin 1.05 /\
  calculateExtraCostPerDay m =
    ('(physics', cleanCost) <-
       FoulingPhysics.calculateCostAt (physics m)
         (FoulingPhysics.ecoSpeed (physics m)) 0 ;;
     '(m', p) <- predictComponents (set_physics m physics')
                   (FoulingPhysics.ecoSpeed (physics m)) (Some "calm"%string) ;;
     Ok (m', Math_max (Fin 0)
               ((p_predicted p - ToNumber (CostObject cleanCost)) * Fin 24)%js)) /\
  (forall m' r,
     recommendCleaning m = Ok (m', r) ->
     exists extraCostPerDay,
       calculateExtraCostPerDay m = Ok (m', extraCostPerDay) /\
       r_extraCostPerDay r = Math_round extraCostPerDay).
Proof.
  split; [reflexivity|].
  split; [apply appliedMultiplier_table|].
  split.
  { destruct appliedMultiplier_table as (_ & _ & _ & _ & ->).
    cbn [ToNumber]. intros H. injection H as H. lra. }
  split; [reflexivity|].
  intros m' r. unfold recommendCleaning.
  destruct (calculateExtraCostPerDay m) as [[m1 e]|]; [|discriminate].
  cbn [bind]. intros H. injection H as <- <-.
  exists e. split; reflexivity.
Qed.

(** On a calibrated engine the components of a prediction without weather
    carry the calm multiplier. *)
Lemma predict_default_components (m : t) (speed : number) :
  Spec.calibrated (physics m) ->
  exists p,
    predict m speed None true = Ok (m, Components p) /\
    p_weatherMultiplier p = Num (Fin 1.0).
Proof.
  intros Hcal.
  destruct (predictComponents_calibrated m speed None Hcal) as (c & _ & Hp).
  eexists. unfold predict. rewrite Hp. cbn [bind].
  split; [reflexivity|]. apply appliedMultiplier_table.
Qed.

End Predict.

(* ================================================================== *)
(** ** AdaptiveFoulingModel: updateFromReading *)
(* ================================================================== *)

Section Observe.

Import AdaptiveFoulingModel.

Variable clock : Clock.

(** C7.  A reading with actualFuelRate <= 0 is rejected without an error:
    updateFromReading returns nothing and the engine, with its correction
    factor, accumulation rate, confidence, observation count and window, is
    the one it was called on. *)
Theorem updateFromReading_rejects_non_positive (m : t)
    (actualFuelRate speed : number) (weather timestamp : option string) :
  (actualFuelRate <=? Fin 0)%js = true ->
  updateFromReading clock m actualFuelRate speed weather timestamp = Ok (m, None).
Proof.
  intros H. unfold updateFromReading. rewrite H. reflexivity.
Qed.

(** Retraining touches the accumulation rate only. *)
Lemma retrainModel_frame (m : t) :
  physics (retrainModel m) = physics m /\
  correctionFactor (retrainModel m) = correctionFactor m /\
  confidence (retrainModel m) = confidence m /\
  trainingDataCount (retrainModel m) = trainingDataCount m /\
  trainingDataBuffer (retrainModel m) = trainingDataBuffer m /\
  daysSinceClean (retrainModel m) = daysSinceClean m.
Proof.
  unfold retrainModel, updateFoulingAccumulationRate.
  repeat match goal with
    | |- context [if ?c then _ else _] => destruct c
    | |- context [let '(_, _) := ?c in _] => destruct c
    end; repeat split; reflexivity.
Qed.

(** The confidence after an error that is NaN is NaN. *)
Lemma updateConfidence_NaN (m : t) : confidence (updateConfidence m NaN) = NaN.
Proof.
  unfold updateConfidence. cbn [lt set_confidence confidence].
  destruct (confidence m); reflexivity.
Qed.

Lemma updateConfidence_frame (m : t) e :
  physics (updateConfidence m e) = physics m /\
  correctionFactor (updateConfidence m e) = correctionFactor m /\
  foulingAccumulationRate (updateConfidence m e) = foulingAccumulationRate m /\
  trainingDataCount (updateConfidence m e) = trainingDataCount m /\
  trainingDataBuffer (updateConfidence m e) = trainingDataBuffer m.
Proof.
  unfold updateConfidence. destruct (e <? Fin 0.15)%js; repeat split; reflexivity.
Qed.

Lemma storeTrainingData_frame (m : t) d :
  physics (storeTrainingData m d) = physics m /\
  correctionFactor (storeTrainingData m d) = correctionFactor m /\
  foulingAccumulationRate (storeTrainingData m d) = foulingAccumulationRate m /\
  confidence (storeTrainingData m d) = confidence m /\
  trainingDataCount (storeTrainingData m d) = trainingDataCount m.
Proof.
  unfold storeTrainingData.
  destruct (maxBufferSize m <? _)%nat; repeat split; reflexivity.
Qed.

(** What a reading with a positive fuel rate does to a calibrated engine:
    the prediction it is compared with is NaN, and so are the correction
    factor and the confidence it leaves behind. *)
Lemma updateFromReading_accepted (m : t)
    (actualFuelRate speed : number) (weather timestamp : option string) :
  Spec.calibrated (physics m) ->
  (actualFuelRate <=? Fin 0)%js = false ->
  exists m' u,
    updateFromReading clock m actualFuelRate speed weather timestamp
      = Ok (m', Some u) /\
    physics m' = physics m /\
    correctionFactor m' = NaN /\
    confidence m' = NaN /\
    u_error u = NaN /\
    trainingDataCount m' = (trainingDataCount m + 1)%Z.
Proof.
  intros Hcal Hpos.
  destruct (predictComponents_calibrated m speed
              (Some (weather_or_calm weather)) Hcal) as (c & _ & Hp).
  unfold updateFromReading. rewrite Hpos, Hp. cbn [bind p_predicted p_frLevel].
  rewrite !sub_NaN_r. cbn [Math_abs]. cbn [div].
  assert (Hcf : forall x y z,
             Math_max (Fin 0.3) (Math_min (Fin 3.0) (x + (Fin 1 + NaN * y) * z)%js)
             = NaN).
  { intros. cbn [mul add]. rewrite add_NaN_r. reflexivity. }
  rewrite Hcf. clear Hcf.
  set (m1 := updateConfidence (set_correctionFactor m NaN) NaN).
  set (d := {| actual := actualFuelRate; predicted := NaN; speed := speed;
               weather := weather_or_calm weather;
               frLevel := estimateFRLevel m None; error := NaN;
               timestamp := timestamp_or_now clock timestamp |}).
  set (m2 := storeTrainingData m1 d).
  set (m3 := set_trainingDataCount m2 (trainingDataCount m2 + 1)%Z).
  assert (H3 : physics m3 = physics m /\ correctionFactor m3 = NaN /\
               confidence m3 = NaN /\
               trainingDataCount m3 = (trainingDataCount m + 1)%Z).
  { destruct (storeTrainingData_frame m1 d) as (Hs1 & Hs2 & _ & Hs4 & Hs5).
    destruct (updateConfidence_frame (set_correctionFactor m NaN) NaN)
      as (Hc2 & Hc3 & _ & Hc5 & _).
    pose proof (updateConfidence_NaN (set_correctionFactor m NaN)) as Hc1.
    subst m3. cbn [physics correctionFactor confidence trainingDataCount
                   set_trainingDataCount].
    subst m2. rewrite Hs1, Hs2, Hs4, Hs5.
    subst m1. rewrite Hc1, Hc2, Hc3, Hc5.
    repeat split; reflexivity. }
  destruct H3 as (Hp3 & Hcf3 & Hconf3 & Hn3).
  destruct (retrainModel_frame m3) as (Hr1 & Hr2 & Hr3 & Hr4 & _).
  destruct (shouldRetrain m3).
  - eexists; eexists. split; [reflexivity|].
    cbn [u_error]. rewrite Hr1, Hr2, Hr3, Hr4. repeat split; assumption.
  - eexists; eexists. split; [reflexivity|].
    cbn [u_error]. repeat split; assumption.
Qed.

End Observe.

Section TestVessel.

Import AdaptiveFoulingModel.

Lemma updateFromReading_rejects_non_positive_witness :
  updateFromReading Example.clock Example.freshEngine
    (Fin (-5)) (Fin 12) (Some "calm"%string) None
  = Ok (Example.freshEngine, None).
Proof.
  apply (updateFromReading_rejects_non_positive
           Example.clock Example.freshEngine (Fin (-5))).
  js_eval; reflexivity.
Defined.

Lemma vessel_missingFields : missingFields Example.vessel = [].
Proof.
  unfold missingFields, Example.vessel.
  cbn [Vessel.cost_eco Vessel.cost_full Vessel.eco_speed Vessel.full_speed
       filter snd].
  js_eval; reflexivity.
Qed.

Lemma vessel_calibrates :
  throws (FoulingPhysics.solveAlphaBeta (FoulingPhysics.new Example.vessel)
            (Vessel.cost_eco Example.vessel) (Vessel.cost_full Example.vessel)
            (Vessel.eco_speed Example.vessel) (Vessel.full_speed Example.vessel))
  = false.
Proof.
  rewrite solveAlphaBeta_throws. cbn [Vessel.cost_eco Vessel.cost_full
    Vessel.eco_speed Vessel.full_speed Example.vessel].
  js_eval; reflexivity.
Qed.

(** C2: the bounds do not survive a reading.  The engine the constructor
    builds for the test vessel starts in the initial adaptive state, inside
    the bounds; after the single reading updateFromReading(100, 12, 'calm')
    its correction factor and its confidence are NaN, outside every bound. *)
Theorem one_reading_leaves_the_bounds :
  exists m m' u,
    new Example.clock None Example.vessel = Ok m /\
    correctionFactor m = Fin 1.0 /\
    foulingAccumulationRate m = Fin 1.0 /\
    confidence m = Fin 0.0 /\
    Spec.state_bounded m = true /\
    updateFromReading Example.clock m (Fin 100) (Fin 12) (Some "calm"%string) None
      = Ok (m', Some u) /\
    correctionFactor m' = NaN /\
    confidence m' = NaN /\
    Spec.state_bounded m' = false.
Proof.
  destruct (new_ok Example.clock None Example.vessel
              vessel_missingFields vessel_calibrates)
    as (m & Hnew & Hcal & _ & _ & _ & Hinit).
  destruct (Hinit eq_refl) as (Hcf & Hrate & Hconf & _).
  destruct (updateFromReading_accepted Example.clock m (Fin 100) (Fin 12)
              (Some "calm"%string) None Hcal)
    as (m' & u & Hupd & _ & Hcf' & Hconf' & _).
  { js_eval; reflexivity. }
  exists m, m', u.
  repeat (split; [assumption|]).
  split.
  { unfold Spec.state_bounded, Spec.within. rewrite Hcf, Hrate, Hconf.
    js_eval; reflexivity. }
  split; [assumption|].
  repeat (split; [assumption|]).
  unfold Spec.state_bounded. rewrite Hcf', within_NaN. reflexivity.
Qed.

End TestVessel.

(* ================================================================== *)
(** ** AdaptiveFoulingModel: the fouling level *)
(* ================================================================== *)

Section FoulingLevel.

Import AdaptiveFoulingModel.

(** The six buckets, for a finite number of days and a finite rate. *)
Lemma estimateFRLevel_buckets (m : t) (r d : R) :
  foulingAccumulationRate m = Fin r ->
  estimateFRLevel m (Some (Fin d)) =
  if Rlt_dec (d * r) 30 then 0%nat
  else if Rlt_dec (d * r) 60 then 1%nat
  else if Rlt_dec (d * r) 120 then 2%nat
  else if Rlt_dec (d * r) 180 then 3%nat
  else if Rlt_dec (d * r) 270 then 4%nat
  else 5%nat.
Proof.
  intros Hr. unfold estimateFRLevel. rewrite Hr. cbn [mul lt].
  repeat match goal with
    | |- context [Rlt_dec ?a ?b] => destruct (Rlt_dec a b)
    end; reflexivity.
Qed.

(** C8.  For a non-negative accumulation rate the estimated fouling level
    is non-decreasing in the days since the last clean, over all six
    buckets of days x rate. *)
Theorem estimateFRLevel_monotone (m : t) (r d1 d2 : R) :
  foulingAccumulationRate m = Fin r ->
  0 <= r -> d1 <= d2 ->
  (estimateFRLevel m (Some (Fin d1)) <= estimateFRLevel m (Some (Fin d2)))%nat.
Proof.
  intros Hr Hr0 Hd.
  rewrite !(estimateFRLevel_buckets m r) by assumption.
  assert (Hmul : d1 * r <= d2 * r) by (apply Rmult_le_compat_r; assumption).
  decide_reals; lia.
Qed.

Lemma estimateFRLevel_monotone_witness :
  (estimateFRLevel Example.freshEngine (Some (Fin 35)) <=
   estimateFRLevel Example.freshEngine (Some (Fin 125)))%nat.
Proof.
  apply (estimateFRLevel_monotone Example.freshEngine 1.0 35 125).
  - reflexivity.
  - lra.
  - lra.
Defined.

(** The scenario of the specification: at rate 1.0 the days 0, 35, 65, 125,
    185 and 275 fall in the levels 0 to 5. *)
Lemma estimateFRLevel_scenario :
  map (fun d => estimateFRLevel Example.freshEngine (Some (Fin d)))
      [0; 35; 65; 125; 185; 275]
  = [0; 1; 2; 3; 4; 5]%nat.
Proof.
  cbn [map].
  rewrite !(estimateFRLevel_buckets Example.freshEngine 1.0) by reflexivity.
  decide_reals. reflexivity.
Qed.

(** Zero days since the last clean give level 0 at every finite rate. *)
Lemma estimateFRLevel_zero_days (m : t) (r : R) :
  daysSinceClean m = Fin 0 ->
  foulingAccumulationRate m = Fin r ->
  estimateFRLevel m None = 0%nat.
Proof.
  intros Hd Hr. unfold estimateFRLevel. rewrite Hd, Hr. cbn [mul lt].
  decide_reals. reflexivity.
Qed.

Lemma calculateDaysSinceClean_future (clock : Clock) (n c : R) :
  now clock = Fin n -> n < c ->
  calculateDaysSinceClean clock (Some (Fin c)) = Fin 0.
Proof.
  intros Hnow Hlt. unfold calculateDaysSinceClean. rewrite Hnow.
  cbn [mul sub add neg].
  rewrite div_Fin by lra. cbn [Math_floor].
  set (x := (n + - c) / (1000 * 60 * 60 * 24)).
  assert (Hx : x < 0).
  { subst x. apply Rdiv_neg_pos; lra. }
  pose proof (base_Int_part x) as [Hfloor _].
  js_eval; reflexivity.
Qed.

(** C10, amended.  When the last-clean date is absent, or lies after the
    current time, calculateDaysSinceClean returns 0, and an engine holding
    that value estimates fouling level 0 at every finite accumulation
    rate. *)
Theorem absent_or_future_clean_date (clock : Clock) (n : R)
    (lastCleanDate : option number) (m : t) (r : R) :
  now clock = Fin n ->
  (lastCleanDate = None \/ exists c, lastCleanDate = Some (Fin c) /\ n < c) ->
  daysSinceClean m = calculateDaysSinceClean clock lastCleanDate ->
  foulingAccumulationRate m = Fin r ->
  calculateDaysSinceClean clock lastCleanDate = Fin 0 /\
  estimateFRLevel m None = 0%nat.
Proof.
  intros Hnow Hlast Hdays Hrate.
  assert (Hzero : calculateDaysSinceClean clock lastCleanDate = Fin 0).
  { destruct Hlast as [-> | (c & -> & Hlt)].
    - reflexivity.
    - apply (calculateDaysSinceClean_future clock n c); assumption. }
  split; [exact Hzero|].
  apply (estimateFRLevel_zero_days m r); congruence.
Qed.

Lemma absent_or_future_clean_date_witness :
  calculateDaysSinceClean Example.clock Example.futureCleanDate = Fin 0 /\
  estimateFRLevel Example.futureCleanEngine None = 0%nat.
Proof.
  apply (absent_or_future_clean_date Example.clock 1750000000000
           Example.futureCleanDate Example.futureCleanEngine 1.0).
  - reflexivity.
  - right. exists 1760000000000. split; [reflexivity | lra].
  - reflexivity.
  - reflexivity.
Defined.

End FoulingLevel.

(** *** Accumulation rates that are not finite *)

Section InfiniteRate.

Import AdaptiveFoulingModel.

(** The accumulation rate the constructor takes from a stored row. *)
Lemma new_rate_of_row (clock : Clock) (s : ModelState) (vessel : Vessel.t) (m : t) :
  new clock (Some s) vessel = Ok m ->
  foulingAccumulationRate m = (fouling_accumulation_rate s || Fin 1.0)%js.
Proof.
  intros Hnew. unfold new in Hnew.
  destruct (0 <? List.length (missingFields vessel))%nat; [discriminate|].
  destruct (FoulingPhysics.solveAlphaBeta _ _ _ _ _) as [[p [a b]]|];
    [|discriminate].
  cbn [bind] in Hnew. injection Hnew as <-. reflexivity.
Qed.

(** With zero days since the clean the level is 0 exactly for the finite
    accumulation rates: zero times an infinity is NaN, as is zero times
    NaN, and NaN passes none of the bucket tests. *)
Lemma estimateFRLevel_zero_days_iff (m : t) :
  daysSinceClean m = Fin 0 ->
  (estimateFRLevel m None = 0%nat <-> exists r, foulingAccumulationRate m = Fin r) /\
  ((forall r, foulingAccumulationRate m <> Fin r) -> estimateFRLevel m None = 5%nat).
Proof.
  intros Hd. unfold estimateFRLevel. rewrite Hd.
  destruct (foulingAccumulationRate m) as [| |r|]; cbn [mul neg signed_inf];
    rewrite ?sgn_zero; cbn [lt neg signed_inf].
  - split; [split; [discriminate | intros [r Hr]; discriminate]|reflexivity].
  - split; [split; [discriminate | intros [r Hr]; discriminate]|reflexivity].
  - split.
    + split; [eauto|]. intros _. decide_reals. reflexivity.
    + intros H. exfalso. apply (H r). reflexivity.
  - split; [split; [discriminate | intros [r Hr]; discriminate]|reflexivity].
Qed.

(** C10 fails as stated: for the test vessel with a last-clean date in the
    future and a stored accumulation rate of +Infinity the constructor
    returns an engine with 0 days since the clean, and estimateFRLevel()
    returns level 5 on it, not 0. *)
Lemma infinite_rate_is_level_5 :
  now Example.clock = Fin 1750000000000 /\
  Vessel.last_clean_date Example.futureCleanVessel = Some (Fin 1760000000000) /\
  exists m,
    new Example.clock (Some Example.infiniteRateRow) Example.futureCleanVessel
      = Ok m /\
    daysSinceClean m = Fin 0 /\
    foulingAccumulationRate m = PosInf /\
    estimateFRLevel m None = 5%nat.
Proof.
  split; [reflexivity|]. split; [reflexivity|].
  assert (Hmissing : missingFields Example.futureCleanVessel = []).
  { unfold missingFields, Example.futureCleanVessel.
    cbn [Vessel.cost_eco Vessel.cost_full Vessel.eco_speed Vessel.full_speed
         filter snd].
    js_eval; reflexivity. }
  assert (Hsolve :
    throws (FoulingPhysics.solveAlphaBeta
              (FoulingPhysics.new Example.futureCleanVessel)
              (Vessel.cost_eco Example.futureCleanVessel)
              (Vessel.cost_full Example.futureCleanVessel)
              (Vessel.eco_speed Example.futureCleanVessel)
              (Vessel.full_speed Example.futureCleanVessel)) = false).
  { rewrite solveAlphaBeta_throws.
    cbn [Vessel.cost_eco Vessel.cost_full Vessel.eco_speed Vessel.full_speed
         Example.futureCleanVessel].
    js_eval; reflexivity. }
  destruct (new_ok Example.clock (Some Example.infiniteRateRow)
              Example.futureCleanVessel Hmissing Hsolve)
    as (m & Hnew & _ & _ & _ & Hdays & _).
  assert (Hzero : daysSinceClean m = Fin 0).
  { rewrite Hdays.
    apply (calculateDaysSinceClean_future Example.clock
             1750000000000 1760000000000); [reflexivity | lra]. }
  assert (Hrate : foulingAccumulationRate m = PosInf).
  { rewrite (new_rate_of_row _ _ _ _ Hnew). reflexivity. }
  exists m. split; [exact Hnew|]. split; [exact Hzero|]. split; [exact Hrate|].
  apply (estimateFRLevel_zero_days_iff m Hzero).
  intros r Hr. rewrite Hrate in Hr. discriminate.
Qed.

End InfiniteRate.

(* ================================================================== *)
(** ** AdaptiveFoulingModel: retraining *)
(* ================================================================== *)

Section Retraining.

Import AdaptiveFoulingModel.

(** The constructor stores the days since the last clean. *)
Lemma new_daysSinceClean (clock : Clock) (row : option ModelState)
    (vessel : Vessel.t) (m : t) :
  new clock row vessel = Ok m ->
  daysSinceClean m = calculateDaysSinceClean clock (Vessel.last_clean_date vessel).
Proof.
  unfold new.
  destruct (0 <? List.length (missingFields vessel))%nat; [discriminate|].
  destruct (FoulingPhysics.solveAlphaBeta _ _ _ _ _) as [[p [a b]]|];
    [|discriminate].
  cbn [bind]. intros H. injection H as <-. reflexivity.
Qed.

(** With fewer than three observations above level 0 in the window,
    retraining leaves the engine, and so the rate, as it is. *)
Lemma updateFoulingAccumulationRate_insufficient (m : t) :
  (List.length (filter (fun d => (0 <? frLevel d)%nat) (trainingDataBuffer m)) < 3)%nat ->
  updateFoulingAccumulationRate m = m /\ retrainModel m = m.
Proof.
  intros H. apply Nat.ltb_lt in H.
  unfold retrainModel, updateFoulingAccumulationRate. rewrite H.
  split; [reflexivity|].
  destruct (List.length (trainingDataBuffer m) <? 3)%nat; reflexivity.
Qed.

(** The error updateFromReading stores with an observation is the absolute
    error over the prediction, not the signed one. *)
Lemma updateFromReading_stores (clock : Clock) (m : t)
    (actualFuelRate speed : number) (weather timestamp : option string) m' p :
  (actualFuelRate <=? Fin 0)%js = false ->
  predictComponents m speed (Some (weather_or_calm weather)) = Ok (m', p) ->
  exists m'' u d,
    updateFromReading clock m actualFuelRate speed weather timestamp
      = Ok (m'', Some u) /\
    trainingDataBuffer m'' =
      (let buffer := trainingDataBuffer m ++ [d] in
       if (maxBufferSize m <? List.length buffer)%nat then tl buffer else buffer) /\
    actual d = actualFuelRate /\
    predicted d = p_predicted p /\
    frLevel d = p_frLevel p /\
    error d = (Math_abs (actual d - predicted d) / predicted d)%js.
Proof.
  intros Hpos Hp.
  assert (Hm' : trainingDataBuffer m' = trainingDataBuffer m /\
                maxBufferSize m' = maxBufferSize m).
  { unfold predictComponents in Hp.
    destruct (FoulingPhysics.calculateCostAt _ _ _) as [[p' c]|]; [|discriminate].
    cbn [bind] in Hp. injection Hp as <- _. split; reflexivity. }
  destruct Hm' as (Hbuf & Hmax).
  unfold updateFromReading. rewrite Hpos, Hp. cbn [bind].
  match goal with
  | |- context [storeTrainingData ?m0 ?d0] =>
      set (m1 := m0); set (d := d0)
  end.
  assert (H1 : trainingDataBuffer m1 = trainingDataBuffer m /\
               maxBufferSize m1 = maxBufferSize m).
  { subst m1. unfold updateConfidence.
    destruct (_ <? Fin 0.15)%js; cbn [trainingDataBuffer maxBufferSize
      set_confidence set_correctionFactor]; split; assumption. }
  destruct H1 as (Hbuf1 & Hmax1).
  set (m3 := set_trainingDataCount (storeTrainingData m1 d)
               (trainingDataCount (storeTrainingData m1 d) + 1)%Z).
  assert (H3 : trainingDataBuffer m3 =
               (let buffer := trainingDataBuffer m ++ [d] in
                if (maxBufferSize m <? List.length buffer)%nat
                then tl buffer else buffer)).
  { subst m3. cbn [trainingDataBuffer set_trainingDataCount].
    unfold storeTrainingData. rewrite Hbuf1, Hmax1. cbv zeta.
    destruct (maxBufferSize m <? _)%nat; reflexivity. }
  destruct (retrainModel_frame m3) as (_ & _ & _ & _ & Hr & _).
  exists (if shouldRetrain m3 then retrainModel m3 else m3).
  eexists. exists d.
  split; [reflexivity|].
  split; [destruct (shouldRetrain m3); [rewrite Hr|]; exact H3|].
  repeat split; reflexivity.
Qed.

(** C4: retraining averages the stored errors, which are absolute.  The
    window holds three observations at fouling level 1 in which the model
    over-predicted by 20% (reading 80, prediction 100); each carries the
    error updateFromReading stores for it, 0.2.  The claim nudges the rate
    1.0 down to 0.9; updateFoulingAccumulationRate nudges it up to 1.1. *)
Theorem retraining_ignores_the_sign :
  Forall (fun d => (0 < frLevel d)%nat /\
                   Spec.signedRelativeError d = Fin (-0.2) /\
                   error d = (Math_abs (actual d - predicted d) / predicted d)%js /\
                   error d = Fin 0.2)
         (trainingDataBuffer Example.overPredictingEngine) /\
  foulingAccumulationRate Example.overPredictingEngine = Fin 1.0 /\
  Spec.retrainedRate Example.overPredictingEngine = Fin 0.9 /\
  retrainModel Example.overPredictingEngine =
    updateFoulingAccumulationRate Example.overPredictingEngine /\
  foulingAccumulationRate
    (updateFoulingAccumulationRate Example.overPredictingEngine) = Fin 1.1.
Proof.
  split.
  { repeat constructor; try (eval_retraining; f_equal; lra). }
  split; [reflexivity|].
  split; [eval_retraining; f_equal; lra|].
  split; [reflexivity|].
  eval_retraining; f_equal; lra.
Qed.

End Retraining.

(* ================================================================== *)
(** ** The prediction for the test vessel *)
(* ================================================================== *)

Section TestVesselPrediction.

Import AdaptiveFoulingModel.

(** The physics object of a constructed engine is the one solveAlphaBeta
    left behind. *)
Lemma new_physics (clock : Clock) (row : option ModelState)
    (vessel : Vessel.t) (m : t) :
  new clock row vessel = Ok m ->
  exists ab,
    FoulingPhysics.solveAlphaBeta (FoulingPhysics.new vessel)
      (Vessel.cost_eco vessel) (Vessel.cost_full vessel)
      (Vessel.eco_speed vessel) (Vessel.full_speed vessel) = Ok (physics m, ab).
Proof.
  unfold new.
  destruct (0 <? List.length (missingFields vessel))%nat; [discriminate|].
  destruct (FoulingPhysics.solveAlphaBeta _ _ _ _ _) as [[p [a b]]|];
    [|discriminate].
  cbn [bind]. intros H. injection H as <-. eexists; reflexivity.
Qed.

(** Every entry of the table of fouling increases lies in [0, 1.93]. *)
Lemma foulingIncrease_range (frLevel : nat) :
  exists i,
    index_or FoulingPhysics.foulingIncreases frLevel (Fin 0) = Fin i /\
    0 <= i <= 1.93.
Proof.
  unfold index_or, FoulingPhysics.foulingIncreases.
  do 6 (destruct frLevel as [|frLevel];
        [cbn [nth_error]; js_eval; eexists; (split; [reflexivity | lra])|]).
  cbn [nth_error]. destruct frLevel; exists 0; (split; [reflexivity | lra]).
Qed.

(** The reduction factor at a finite Froude number lies in [0.3, 1]. *)
Lemma speedReductionAt_range (Fr : R) :
  exists rho,
    FoulingPhysics.speedReductionAt (Fin Fr) = Fin rho /\ 0.3 <= rho <= 1.
Proof.
  rewrite speedReductionAt_Fin. eexists. split; [reflexivity|].
  decide_reals; lra.
Qed.

(** The Froude number of the 100 m test vessel at a finite speed. *)
Lemma vessel_froude (a b : number) (s : R) :
  exists Fr,
    FoulingPhysics.froude (Example.physicsWith a b) (Fin s) = Fin Fr.
Proof.
  unfold FoulingPhysics.froude, Example.physicsWith.
  cbn [FoulingPhysics.length FoulingPhysics.set_alpha_beta].
  rewrite new_length. cbn [Vessel.length Example.vessel].
  unfold FoulingPhysics.GRAVITY, FoulingPhysics.KNOTS_TO_MPS.
  cbn [mul].
  pose proof (sqrt_bounds (9.81 * 100) 31.32 31.33) as Hq.
  destruct Hq as [Hq1 Hq2]; try lra.
  unfold Math_sqrt. rewrite sgn_pos by lra.
  rewrite div_Fin by lra.
  eexists; reflexivity.
Qed.

(** C1: predict does not return base x correctionFactor x weatherMultiplier.
    For the engine the constructor builds for the test vessel, the fouled
    cost at 12 knots is a finite number, at least the calibration cost 150,
    the correction factor is 1.0 and the calm multiplier is 1.0; the cost
    predict(12, 'calm') returns is NaN. *)
Theorem predict_is_not_the_product :
  exists m x,
    new Example.clock None Example.vessel = Ok m /\
    Spec.base m (Fin 12) = Ok (Fin x) /\
    150 <= x /\
    correctionFactor m = Fin 1.0 /\
    Spec.weatherMultiplier "calm" = Fin 1.0 /\
    (Fin x * correctionFactor m * Spec.weatherMultiplier "calm")%js = Fin x /\
    predict m (Fin 12) (Some "calm"%string) false = Ok (m, Cost NaN).
Proof.
  destruct (new_ok Example.clock None Example.vessel
              vessel_missingFields vessel_calibrates)
    as (m & Hnew & Hcal & _ & _ & _ & Hinit).
  destruct (Hinit eq_refl) as (Hcf & _).
  destruct (new_physics _ _ _ _ Hnew) as (ab & Hsolve).
  cbn [Vessel.cost_eco Vessel.cost_full Vessel.eco_speed Vessel.full_speed
       Example.vessel] in Hsolve.
  rewrite (solveAlphaBeta_value _ 150 300 12 18 4.5) in Hsolve
    by (try exact vessel_waveExp; lra).
  cbv zeta in Hsolve. injection Hsolve as Hphys _.
  set (a := Fin _) in Hphys. set (b := Fin _) in Hphys.
  destruct (predict_cost_is_NaN m (Fin 12) (Some "calm"%string) Hcal)
    as ((c & Hc & Hbase) & Hpredict).
  destruct (calculateCostAt_calibrated (physics m) a b (Fin 12)
              (estimateFRLevel m None)) as (baseCost & HbaseCost & Hcost);
    try (rewrite <- Hphys; reflexivity).
  rewrite Hcost in Hc. injection Hc as <-.
  cbn [FoulingPhysics.fouled] in Hbase.
  assert (Hclean : baseCost = Fin 150).
  { destruct (calibration_points (FoulingPhysics.new Example.vessel)
                150 300 12 18 4.5) as (Heco & _);
      try exact vessel_waveExp; try exact vessel_fullSpeed; try lra.
    cbv zeta in Heco. fold a b in Heco. rewrite Hphys in Heco.
    rewrite Heco in HbaseCost. injection HbaseCost as <-. reflexivity. }
  destruct (foulingIncrease_range (estimateFRLevel m None)) as (i & Hi & Hirange).
  destruct (vessel_froude a b 12) as (Fr & HFr).
  unfold Example.physicsWith in HFr. rewrite Hphys in HFr.
  destruct (speedReductionAt_range Fr) as (rho & Hrho & Hrhorange).
  rewrite Hclean, Hi, HFr, Hrho in Hbase. cbn [mul add] in Hbase.
  exists m. eexists.
  split; [exact Hnew|].
  split; [exact Hbase|].
  split; [nra|].
  split; [exact Hcf|].
  split; [reflexivity|].
  split; [rewrite Hcf; unfold Spec.weatherMultiplier;
          cbn [String.eqb Ascii.eqb Bool.eqb mul]; f_equal; lra|].
  exact Hpredict.
Qed.

End TestVesselPrediction.

(* ================================================================== *)
(** ** FoulingPhysics: the clamp of the base cost *)
(* ================================================================== *)

Section BaseCostClamp.

Import FoulingPhysics.

Lemma solveAlphaBeta_Ok_inv (p p' : t) c1 c2 s1 s2 ab :
  solveAlphaBeta p c1 c2 s1 s2 = Ok (p', ab) ->
  exists a b, p' = set_alpha_beta p a b /\ ab = (a, b).
Proof.
  unfold solveAlphaBeta.
  destruct (s1 === s2)%js; [discriminate|].
  destruct (negb (truthy c1) || negb (truthy c2) ||
            negb (truthy s1) || negb (truthy s2))%bool; [discriminate|].
  intros H. injection H as <- <-. eauto.
Qed.

(** The speed calculateBaseCost evaluates the power law at. *)
Lemma calculateBaseCost_unfold (p : t) (speed : number) :
  calculateBaseCost p speed =
  (this <-
     match alpha p, beta p with
     | Some _, Some _ => Ok p
     | _, _ =>
         '(this', _) <-
           solveAlphaBeta p (costEco p) (costFull p) (ecoSpeed p) (fullSpeed p) ;;
         Ok this'
     end ;;
   Ok (this,
       (coefficient (alpha this) *
          Math_pow (Math_max (Fin 0.1) (Math_min speed (fullSpeed p * Fin 1.2)%js))
                   (Fin 3) +
        coefficient (beta this) *
          Math_pow (Math_max (Fin 0.1) (Math_min speed (fullSpeed p * Fin 1.2)%js))
                   (waveExp this))%js)).
Proof.
  unfold calculateBaseCost.
  destruct (alpha p) as [a|]; [destruct (beta p) as [b|]|]; cbn [bind];
    try reflexivity;
    destruct (solveAlphaBeta p (costEco p) (costFull p) (ecoSpeed p) (fullSpeed p))
      as [[p' ab]|] eqn:Hsolve; cbn [bind]; try reflexivity;
    destruct (solveAlphaBeta_Ok_inv _ _ _ _ _ _ _ Hsolve) as (a' & b' & -> & _);
    reflexivity.
Qed.

Lemma clamp_below (speed : number) (g : R) :
  (speed <=? Fin 0.1)%js = true ->
  Math_max (Fin 0.1) (Math_min speed (Fin g)) = Fin 0.1.
Proof.
  destruct speed as [| |s|]; cbn [le]; try discriminate.
  - intros _. js_eval; reflexivity.
  - js_eval; intros; try discriminate; try reflexivity; f_equal; lra.
Qed.

Lemma clamp_above (speed : number) (g : R) :
  (Fin g <=? speed)%js = true ->
  Math_max (Fin 0.1) (Math_min speed (Fin g)) = Math_max (Fin 0.1) (Fin g).
Proof.
  destruct speed as [| |s|]; cbn [le]; try discriminate.
  - js_eval; intros; try discriminate; try reflexivity; f_equal; lra.
  - intros _. js_eval; reflexivity.
Qed.

(** X1.  calculateBaseCost does not extrapolate: every speed at or below 0.1
    knots costs what 0.1 knots costs, and every speed at or above 1.2 times
    the full speed, +Infinity included, costs what 1.2 times the full speed
    costs, whether the call returns or throws. *)
Theorem calculateBaseCost_is_flat_outside_the_clamp (p : t) (f : R) (speed : number) :
  fullSpeed p = Fin f ->
  ((speed <=? Fin 0.1)%js = true ->
   calculateBaseCost p speed = calculateBaseCost p (Fin 0.1)) /\
  ((Fin (f * 1.2) <=? speed)%js = true ->
   calculateBaseCost p speed = calculateBaseCost p (Fin (f * 1.2))).
Proof.
  intros Hf. rewrite !calculateBaseCost_unfold, Hf. cbn [mul].
  split; intros H.
  - rewrite (clamp_below speed (f * 1.2) H).
    rewrite (clamp_below (Fin 0.1) (f * 1.2)) by (js_eval; reflexivity).
    reflexivity.
  - rewrite (clamp_above speed (f * 1.2) H).
    rewrite (clamp_above (Fin (f * 1.2)) (f * 1.2)) by (js_eval; reflexivity).
    reflexivity.
Qed.

Lemma calculateBaseCost_is_flat_outside_the_clamp_witness :
  calculateBaseCost (FoulingPhysics.new Example.vessel) (Fin (-3)) =
  calculateBaseCost (FoulingPhysics.new Example.vessel) (Fin 0.1) /\
  calculateBaseCost (FoulingPhysics.new Example.vessel) PosInf =
  calculateBaseCost (FoulingPhysics.new Example.vessel) (Fin (18 * 1.2)).
Proof.
  destruct (calculateBaseCost_is_flat_outside_the_clamp
              (FoulingPhysics.new Example.vessel) 18 (Fin (-3)) vessel_fullSpeed)
    as [Hlow _].
  destruct (calculateBaseCost_is_flat_outside_the_clamp
              (FoulingPhysics.new Example.vessel) 18 PosInf vessel_fullSpeed)
    as [_ Hhigh].
  split.
  - apply Hlow. js_eval; reflexivity.
  - apply Hhigh. reflexivity.
Defined.

End BaseCostClamp.

(* ================================================================== *)
(** ** FoulingPhysics: the fouling fraction *)
(* ================================================================== *)

Section FoulingFraction.

Import FoulingPhysics.

(** The reduction factor is a number between 0.3 and 1 whatever the Froude
    number is, NaN and the infinities included. *)
Lemma speedReductionAt_total (Fr : number) :
  exists rho, speedReductionAt Fr = Fin rho /\ 0.3 <= rho <= 1.
Proof.
  destruct Fr as [| |x|].
  - exists 1.0. split; [reflexivity | lra].
  - exists 1.0. split; [reflexivity | lra].
  - apply speedReductionAt_range.
  - exists 0.3. split; [|lra].
    unfold speedReductionAt. js_eval; reflexivity.
Qed.

Lemma speedReductionAt_antitone (Fr1 Fr2 : R) :
  Fr1 <= Fr2 ->
  exists rho1 rho2,
    speedReductionAt (Fin Fr1) = Fin rho1 /\
    speedReductionAt (Fin Fr2) = Fin rho2 /\
    rho2 <= rho1.
Proof.
  intros H. rewrite !speedReductionAt_Fin.
  eexists; eexists. split; [reflexivity|]. split; [reflexivity|].
  decide_reals; lra.
Qed.

(** The table of increases rises with the level. *)
Lemma foulingIncreases_monotone (l1 l2 : nat) :
  (l1 <= l2 <= 5)%nat ->
  exists i1 i2,
    index_or foulingIncreases l1 (Fin 0) = Fin i1 /\
    index_or foulingIncreases l2 (Fin 0) = Fin i2 /\
    0 <= i1 <= i2 /\ i2 <= 1.93.
Proof.
  intros H.
  assert (Hl1 : (l1 = 0 \/ l1 = 1 \/ l1 = 2 \/ l1 = 3 \/ l1 = 4 \/ l1 = 5)%nat) by lia.
  assert (Hl2 : (l2 = 0 \/ l2 = 1 \/ l2 = 2 \/ l2 = 3 \/ l2 = 4 \/ l2 = 5)%nat) by lia.
  unfold index_or, foulingIncreases.
  repeat (destruct Hl1 as [Hl1|Hl1]); repeat (destruct Hl2 as [Hl2|Hl2]);
    subst l1 l2; try lia; cbn [nth_error]; js_eval;
    eexists; eexists; (split; [reflexivity|split; [reflexivity|lra]]).
Qed.

(** A level outside the tables indexes nothing. *)
Lemma index_or_clean (arr : list number) (frLevel : nat) :
  nth_error arr 0 = Some (Fin 0) ->
  (frLevel = 0 \/ List.length arr <= frLevel)%nat ->
  index_or arr frLevel (Fin 0) = Fin 0.
Proof.
  intros H0 [-> | Hout]; unfold index_or.
  - rewrite H0. js_eval; reflexivity.
  - apply nth_error_None in Hout. rewrite Hout. reflexivity.
Qed.

Lemma mul_one_r (a : number) : (a * Fin 1)%js = a.
Proof.
  destruct a as [| |x|]; cbn [mul]; try reflexivity.
  - rewrite sgn_pos by lra. reflexivity.
  - f_equal; ring.
  - rewrite sgn_pos by lra. reflexivity.
Qed.

(** X2.  A clean hull is never charged: at fouling level 0, and at any
    level past the end of the tables (6 and above), calculateCostAt on a
    calibrated physics object returns a fouling increase of 0, a roughness
    of 0 and a fouled cost equal to the clean cost, for every speed. *)
Theorem clean_hull_costs_the_base (p : t) (speed : number) (frLevel : nat) :
  Spec.calibrated p ->
  (frLevel = 0 \/ 6 <= frLevel)%nat ->
  exists c,
    calculateCostAt p speed frLevel = Ok (p, c) /\
    foulingIncrease c = Fin 0 /\
    roughness c = Fin 0 /\
    fouled c = clean c.
Proof.
  intros (a & b & Ha & Hb) Hlevel.
  destruct (calculateCostAt_calibrated p a b speed frLevel Ha Hb)
    as (baseCost & _ & Hcost).
  destruct (speedReductionAt_total (froude p speed)) as (rho & Hrho & _).
  eexists. split; [exact Hcost|].
  cbn [foulingIncrease roughness fouled clean].
  rewrite Hrho.
  rewrite (index_or_clean foulingIncreases frLevel) by (auto; exact Hlevel).
  rewrite (index_or_clean frKsMapping frLevel) by (auto; exact Hlevel).
  cbn [mul add].
  replace (1 + 0 * rho) with 1 by ring.
  split; [f_equal; ring|]. split; [reflexivity|].
  apply mul_one_r.
Qed.

Lemma clean_hull_costs_the_base_witness :
  exists c,
    calculateCostAt (Example.physicsWith (Fin 0) (Fin 0)) (Fin 12) 7
      = Ok (Example.physicsWith (Fin 0) (Fin 0), c) /\
    foulingIncrease c = Fin 0 /\
    roughness c = Fin 0 /\
    fouled c = clean c.
Proof.
  apply (clean_hull_costs_the_base (Example.physicsWith (Fin 0) (Fin 0)) (Fin 12) 7).
  - exists (Fin 0), (Fin 0). split; reflexivity.
  - right. lia.
Defined.

(** X3.  At a fixed speed the fouling increase calculateCostAt returns does
    not go down when the fouling level goes up: for levels l1 <= l2 <= 5 it
    is a finite fraction with 0 <= increase(l1) <= increase(l2) <= 1.93,
    whatever the speed. *)
Theorem foulingIncrease_rises_with_level (p : t) (speed : number) (l1 l2 : nat) :
  Spec.calibrated p ->
  (l1 <= l2 <= 5)%nat ->
  exists c1 c2 x1 x2,
    calculateCostAt p speed l1 = Ok (p, c1) /\
    calculateCostAt p speed l2 = Ok (p, c2) /\
    foulingIncrease c1 = Fin x1 /\
    foulingIncrease c2 = Fin x2 /\
    0 <= x1 <= x2 /\ x2 <= 1.93.
Proof.
  intros (a & b & Ha & Hb) Hlevels.
  destruct (calculateCostAt_calibrated p a b speed l1 Ha Hb) as (b1 & _ & H1).
  destruct (calculateCostAt_calibrated p a b speed l2 Ha Hb) as (b2 & _ & H2).
  destruct (speedReductionAt_total (froude p speed)) as (rho & Hrho & Hrange).
  destruct (foulingIncreases_monotone l1 l2 Hlevels) as (i1 & i2 & Hi1 & Hi2 & Hi).
  eexists; eexists; exists (i1 * rho), (i2 * rho).
  split; [exact H1|]. split; [exact H2|].
  cbn [foulingIncrease]. rewrite Hrho, Hi1, Hi2. cbn [mul].
  split; [reflexivity|]. split; [reflexivity|]. nra.
Qed.

Lemma foulingIncrease_rises_with_level_witness :
  exists c1 c2 x1 x2,
    calculateCostAt (Example.physicsWith (Fin 0) (Fin 0)) (Fin 12) 2
      = Ok (Example.physicsWith (Fin 0) (Fin 0), c1) /\
    calculateCostAt (Example.physicsWith (Fin 0) (Fin 0)) (Fin 12) 4
      = Ok (Example.physicsWith (Fin 0) (Fin 0), c2) /\
    foulingIncrease c1 = Fin x1 /\
    foulingIncrease c2 = Fin x2 /\
    0 <= x1 <= x2 /\ x2 <= 1.93.
Proof.
  apply (foulingIncrease_rises_with_level
           (Example.physicsWith (Fin 0) (Fin 0)) (Fin 12) 2 4).
  - exists (Fin 0), (Fin 0). split; reflexivity.
  - lia.
Defined.

(** The Froude number of a vessel of positive finite length at a finite
    speed. *)
Lemma froude_finite (p : t) (L s : R) :
  length p = Fin L -> 0 < L ->
  froude p (Fin s) = Fin (s * 0.514444 / sqrt (9.81 * L)) /\
  0 < sqrt (9.81 * L).
Proof.
  intros HL Hpos.
  assert (Hq : 0 < sqrt (9.81 * L)) by (apply sqrt_lt_R0; lra).
  split; [|exact Hq].
  unfold froude, GRAVITY, KNOTS_TO_MPS. rewrite HL. cbn [mul].
  unfold Math_sqrt. rewrite sgn_pos by lra.
  rewrite div_Fin by lra. reflexivity.
Qed.

(** X4.  Speed dilutes the fouling penalty: for a vessel of positive finite
    length and a fixed fouling level, the fouling increase and the speed
    reduction factor calculateCostAt returns do not go up when the speed
    goes up, and the factor stays between 0.3 and 1. *)
Theorem foulingIncrease_falls_with_speed (p : t) (L s1 s2 : R) (frLevel : nat) :
  Spec.calibrated p ->
  length p = Fin L -> 0 < L ->
  s1 <= s2 ->
  exists c1 c2 x1 x2 rho1 rho2,
    calculateCostAt p (Fin s1) frLevel = Ok (p, c1) /\
    calculateCostAt p (Fin s2) frLevel = Ok (p, c2) /\
    foulingIncrease c1 = Fin x1 /\
    foulingIncrease c2 = Fin x2 /\
    speedReduction c1 = Fin rho1 /\
    speedReduction c2 = Fin rho2 /\
    x2 <= x1 /\ 0.3 <= rho2 <= rho1 /\ rho1 <= 1.
Proof.
  intros (a & b & Ha & Hb) HL Hpos Hs.
  destruct (calculateCostAt_calibrated p a b (Fin s1) frLevel Ha Hb) as (b1 & _ & H1).
  destruct (calculateCostAt_calibrated p a b (Fin s2) frLevel Ha Hb) as (b2 & _ & H2).
  destruct (froude_finite p L s1 HL Hpos) as (HF1 & Hq).
  destruct (froude_finite p L s2 HL Hpos) as (HF2 & _).
  assert (HFr : s1 * 0.514444 / sqrt (9.81 * L) <= s2 * 0.514444 / sqrt (9.81 * L)).
  { apply Rmult_le_compat_r; [left; apply Rinv_0_lt_compat; exact Hq | lra]. }
  destruct (speedReductionAt_antitone _ _ HFr) as (rho1 & rho2 & Hr1 & Hr2 & Hrho).
  destruct (speedReductionAt_range (s1 * 0.514444 / sqrt (9.81 * L)))
    as (rho1' & Hr1' & Hrange1).
  destruct (speedReductionAt_range (s2 * 0.514444 / sqrt (9.81 * L)))
    as (rho2' & Hr2' & Hrange2).
  rewrite Hr1 in Hr1'. injection Hr1' as <-.
  rewrite Hr2 in Hr2'. injection Hr2' as <-.
  destruct (foulingIncrease_range frLevel) as (i & Hi & Hirange).
  eexists; eexists; exists (i * rho1), (i * rho2), rho1, rho2.
  split; [exact H1|]. split; [exact H2|].
  cbn [foulingIncrease speedReduction].
  rewrite HF1, HF2, Hr1, Hr2, Hi. cbn [mul].
  repeat (split; [reflexivity|]). nra.
Qed.

Lemma foulingIncrease_falls_with_speed_witness :
  exists c1 c2 x1 x2 rho1 rho2,
    calculateCostAt (Example.physicsWith (Fin 0) (Fin 0)) (Fin 12) 5
      = Ok (Example.physicsWith (Fin 0) (Fin 0), c1) /\
    calculateCostAt (Example.physicsWith (Fin 0) (Fin 0)) (Fin 24) 5
      = Ok (Example.physicsWith (Fin 0) (Fin 0), c2) /\
    foulingIncrease c1 = Fin x1 /\
    foulingIncrease c2 = Fin x2 /\
    speedReduction c1 = Fin rho1 /\
    speedReduction c2 = Fin rho2 /\
    x2 <= x1 /\ 0.3 <= rho2 <= rho1 /\ rho1 <= 1.
Proof.
  apply (foulingIncrease_falls_with_speed
           (Example.physicsWith (Fin 0) (Fin 0)) 100 12 24 5).
  - exists (Fin 0), (Fin 0). split; reflexivity.
  - unfold Example.physicsWith.
    cbn [length set_alpha_beta]. apply new_length.
  - lra.
  - lra.
Defined.

End FoulingFraction.

(* ================================================================== *)
(** ** The calibrated test vessel *)
(* ================================================================== *)

Lemma calibratedPhysics_solved :
  FoulingPhysics.solveAlphaBeta (FoulingPhysics.new Example.vessel)
    (Fin 150) (Fin 300) (Fin 12) (Fin 18) =
  Ok (Example.calibratedPhysics,
      (FoulingPhysics.coefficient (FoulingPhysics.alpha Example.calibratedPhysics),
       FoulingPhysics.coefficient (FoulingPhysics.beta Example.calibratedPhysics))).
Proof.
  rewrite (solveAlphaBeta_value _ 150 300 12 18 4.5)
    by (try exact vessel_waveExp; lra).
  reflexivity.
Qed.

Lemma calibratedPhysics_calibrated : Spec.calibrated Example.calibratedPhysics.
Proof. eexists; eexists; split; reflexivity. Qed.

Lemma calibratedPhysics_length :
  FoulingPhysics.length Example.calibratedPhysics = Fin 100.
Proof.
  unfold Example.calibratedPhysics, Example.physicsWith.
  cbn [FoulingPhysics.length FoulingPhysics.set_alpha_beta]. apply new_length.
Qed.

Lemma calibratedPhysics_ecoCost :
  FoulingPhysics.calculateBaseCost Example.calibratedPhysics (Fin 12)
  = Ok (Example.calibratedPhysics, Fin 150).
Proof.
  destruct (calibration_points (FoulingPhysics.new Example.vessel)
              150 300 12 18 4.5) as (Heco & _);
    try exact vessel_waveExp; try exact vessel_fullSpeed; try lra.
  exact Heco.
Qed.

(* ================================================================== *)
(** ** FoulingPhysics: confidence band *)
(* ================================================================== *)

Section ConfidenceBand.

Import FoulingPhysics.

(** X5.  The confidence band brackets the fouled cost: when the clean cost
    at the speed is a finite number c >= 0, calculateConfidenceIntervals
    returns finite bounds with c <= lower <= fouled <= upper, and at fouling
    level 0 the band collapses onto the clean cost. *)
Theorem confidence_band_brackets_fouled (p : t) (speed : number) (frLevel : nat)
    (c : R) :
  Spec.calibrated p ->
  calculateBaseCost p speed = Ok (p, Fin c) ->
  0 <= c ->
  exists r lo fo hi,
    calculateConfidenceIntervals p speed frLevel = Ok (p, r) /\
    clean (ci_result r) = Fin c /\
    confidenceLower r = Fin lo /\
    fouled (ci_result r) = Fin fo /\
    confidenceUpper r = Fin hi /\
    c <= lo <= fo /\ fo <= hi /\
    (frLevel = 0%nat -> lo = c /\ fo = c /\ hi = c).
Proof.
  intros (a & b & Ha & Hb) Hbase Hc.
  destruct (calculateCostAt_calibrated p a b speed frLevel Ha Hb)
    as (baseCost & HbaseCost & Hcost).
  rewrite Hbase in HbaseCost. injection HbaseCost as <-.
  destruct (speedReductionAt_total (froude p speed)) as (rho & Hrho & Hrange).
  destruct (foulingIncrease_range frLevel) as (i & Hi & Hirange).
  unfold calculateConfidenceIntervals. rewrite Hcost. cbn [bind].
  cbn [clean fouled foulingIncrease]. rewrite Hrho, Hi. cbn [mul add sub neg].
  eexists; eexists; eexists; eexists.
  split; [reflexivity|].
  cbn [ci_result clean fouled confidenceLower confidenceUpper].
  split; [reflexivity|]. split; [reflexivity|].
  split; [reflexivity|]. split; [reflexivity|].
  assert (Hprod : 0 <= c * (i * rho)).
  { apply Rmult_le_pos; [exact Hc | apply Rmult_le_pos; lra]. }
  split; [lra|]. split; [lra|].
  intros ->. unfold index_or, foulingIncreases in Hi. cbn [nth_error] in Hi.
  assert (Hi0 : i = 0).
  { revert Hi. js_eval; intros H; injection H as <-; reflexivity. }
  subst i. repeat split; ring.
Qed.

Lemma confidence_band_brackets_fouled_witness :
  exists r lo fo hi,
    calculateConfidenceIntervals Example.calibratedPhysics (Fin 12) 5
      = Ok (Example.calibratedPhysics, r) /\
    clean (ci_result r) = Fin 150 /\
    confidenceLower r = Fin lo /\
    fouled (ci_result r) = Fin fo /\
    confidenceUpper r = Fin hi /\
    150 <= lo <= fo /\ fo <= hi /\
    (5%nat = 0%nat -> lo = 150 /\ fo = 150 /\ hi = 150).
Proof.
  apply (confidence_band_brackets_fouled Example.calibratedPhysics (Fin 12) 5 150).
  - exact calibratedPhysics_calibrated.
  - exact calibratedPhysics_ecoCost.
  - lra.
Defined.

End ConfidenceBand.

(* ================================================================== *)
(** ** FoulingPhysics: friction *)
(* ================================================================== *)

Section Friction.

Import FoulingPhysics.

Lemma Int_part_2 : Int_part 2 = 2%Z.
Proof. symmetry. apply Int_part_spec. lra. Qed.

(** Squares computed by Math.pow. *)
Lemma Math_pow_square (d : R) :
  d <> 0 -> exists w, Math_pow (Fin d) (Fin 2) = Fin w /\ 0 < w.
Proof.
  intros Hd. unfold Math_pow. rewrite (sgn_pos 2) by lra.
  unfold sgn at 1. destruct (total_order_T d 0) as [[Hneg|Hzero]|Hpos].
  - unfold is_integer. rewrite Int_part_2.
    destruct (Req_dec_T 2 2) as [_|Hne]; [|lra].
    cbn [Z.odd]. eexists. split; [reflexivity|]. apply exp_pos.
  - contradiction.
  - eexists. split; [reflexivity|]. apply exp_pos.
Qed.

Lemma Math_pow_square_zero : Math_pow (Fin 0) (Fin 2) = Fin 0.
Proof.
  unfold Math_pow. rewrite (sgn_pos 2) by lra. rewrite sgn_zero. reflexivity.
Qed.

Lemma ln_10_pos : 0 < ln 10.
Proof. rewrite <- ln_1. apply ln_increasing; lra. Qed.

Lemma ln_100 : ln 100 = 2 * ln 10.
Proof.
  replace 100 with (10 * 10) by lra. rewrite ln_mult by lra. ring.
Qed.

Lemma log10_minus_2 (x : R) :
  0 < x -> (Math_log10 (Fin x) - Fin 2)%js = Fin (ln x / ln 10 - 2).
Proof.
  intros Hx. unfold Math_log10. rewrite sgn_pos by assumption. reflexivity.
Qed.

(** X7.  The smooth friction coefficient calculateCfs returns is 0 for a
    Reynolds number that is zero or negative, +Infinity at Reynolds number
    100, where the logarithm in the denominator is exactly 2, and a
    positive finite number at every positive finite Reynolds number that
    is at most 99 or at least 101; it is NaN for NaN.  (Next to 100 the
    logarithm of a double rounds to 2, so nothing is said of the Reynolds
    numbers strictly between 99 and 101 other than 100.) *)
Theorem calculateCfs_cases (x : R) :
  (x <= 0 -> calculateCfs (Fin x) = Fin 0) /\
  calculateCfs (Fin 100) = PosInf /\
  (0 < x -> x <= 99 \/ 101 <= x ->
   exists y, calculateCfs (Fin x) = Fin y /\ 0 < y) /\
  calculateCfs NaN = NaN.
Proof.
  pose proof ln_10_pos as Hln10.
  split; [|split; [|split]].
  - intros Hx. unfold calculateCfs. js_eval; reflexivity.
  - unfold calculateCfs.
    replace (Fin 100 <=? Fin 0)%js with false by (js_eval; reflexivity).
    rewrite log10_minus_2 by lra.
    replace (ln 100 / ln 10 - 2) with 0 by (rewrite ln_100; field; lra).
    rewrite Math_pow_square_zero. js_eval; reflexivity.
  - intros Hx Haway. assert (Hne : x <> 100) by lra. unfold calculateCfs.
    replace (Fin x <=? Fin 0)%js with false by (js_eval; reflexivity).
    rewrite log10_minus_2 by lra.
    assert (Hd : ln x / ln 10 - 2 <> 0).
    { intros Hd. apply Hne. apply ln_inv; try lra.
      rewrite ln_100.
      assert (Hq : ln x / ln 10 = 2) by lra.
      apply (f_equal (fun t => t * ln 10)) in Hq.
      unfold Rdiv in Hq. rewrite Rmult_assoc, Rinv_l in Hq by lra. lra. }
    destruct (Math_pow_square _ Hd) as (w & Hw & Hwpos).
    rewrite Hw. rewrite div_Fin by lra.
    eexists. split; [reflexivity|].
    apply Rdiv_lt_0_compat; lra.
  - unfold calculateCfs. cbn [le Math_log10 sub add neg].
    unfold Math_pow. rewrite (sgn_pos 2) by lra. reflexivity.
Qed.

(** Away from Reynolds number 100 the smooth coefficient is finite and not
    negative. *)
Lemma calculateCfs_finite (x : R) :
  x <> 100 -> exists c, calculateCfs (Fin x) = Fin c /\ 0 <= c.
Proof.
  intros Hne. pose proof ln_10_pos as Hln10.
  destruct (Rle_dec x 0) as [Hx|Hx].
  - exists 0. split; [|lra]. unfold calculateCfs. js_eval; reflexivity.
  - unfold calculateCfs.
    replace (Fin x <=? Fin 0)%js with false by (js_eval; reflexivity).
    rewrite log10_minus_2 by lra.
    assert (Hd : ln x / ln 10 - 2 <> 0).
    { intros Hd. apply Hne. apply ln_inv; try lra.
      rewrite ln_100.
      assert (Hq : ln x / ln 10 = 2) by lra.
      apply (f_equal (fun t => t * ln 10)) in Hq.
      unfold Rdiv in Hq. rewrite Rmult_assoc, Rinv_l in Hq by lra. lra. }
    destruct (Math_pow_square _ Hd) as (w & Hw & Hwpos).
    rewrite Hw. rewrite div_Fin by lra.
    eexists. split; [reflexivity|].
    left. apply Rdiv_lt_0_compat; lra.
Qed.

(** X8.  Roughness raises friction, up to a cap: for a Reynolds number that
    is at most 99 or at least 101, a positive length and roughness heights
    0 < k1 <= k2, calculateCf returns finite coefficients with
    Cfs <= Cf(k1) <= Cf(k2) <= 3 Cfs, and a roughness of zero gives the
    smooth coefficient Cfs itself. *)
Theorem calculateCf_capped_at_three_times_smooth (this : t) (x l k1 k2 : R) :
  x <= 99 \/ 101 <= x -> 0 < l -> 0 < k1 <= k2 ->
  exists c y1 y2,
    calculateCfs (Fin x) = Fin c /\
    calculateCf this (Fin x) (Fin 0) (Fin l) = Fin c /\
    calculateCf this (Fin x) (Fin k1) (Fin l) = Fin y1 /\
    calculateCf this (Fin x) (Fin k2) (Fin l) = Fin y2 /\
    0 <= c <= y1 /\ y1 <= y2 /\ y2 <= 3 * c.
Proof.
  intros Haway Hl Hk.
  assert (Hx : x <> 100) by lra.
  destruct (calculateCfs_finite x Hx) as (c & Hc & Hcpos).
  assert (Hq1 : 0 < k1 / l) by (apply Rdiv_lt_0_compat; lra).
  assert (Hq12 : k1 / l <= k2 / l).
  { apply Rmult_le_compat_r; [left; apply Rinv_0_lt_compat; lra | lra]. }
  set (q1 := k1 / l) in *. set (q2 := k2 / l) in *.
  assert (Hcf : forall k, 0 < k ->
            calculateCf this (Fin x) (Fin k) (Fin l) =
            Math_min (Fin (c * (1 + 100 * (k / l)))) (Fin (c * 3))).
  { intros k Hkpos. unfold calculateCf. rewrite Hc.
    replace (Fin k <=? Fin 0)%js with false by (js_eval; reflexivity).
    replace (truthy (Fin k)) with true by (symmetry; apply truthy_Fin; lra).
    replace (truthy (Fin l)) with true by (symmetry; apply truthy_Fin; lra).
    cbn [negb orb]. rewrite div_Fin by lra. reflexivity. }
  exists c.
  exists (if Rlt_dec (c * 3) (c * (1 + 100 * q1)) then c * 3 else c * (1 + 100 * q1)).
  exists (if Rlt_dec (c * 3) (c * (1 + 100 * q2)) then c * 3 else c * (1 + 100 * q2)).
  split; [exact Hc|].
  split.
  { unfold calculateCf. rewrite Hc.
    replace (Fin 0 <=? Fin 0)%js with true by (js_eval; reflexivity).
    reflexivity. }
  split.
  { rewrite Hcf by lra. fold q1. unfold Math_min, lt.
    destruct (Rlt_dec (c * 3) (c * (1 + 100 * q1))); reflexivity. }
  split.
  { rewrite Hcf by lra. fold q2. unfold Math_min, lt.
    destruct (Rlt_dec (c * 3) (c * (1 + 100 * q2))); reflexivity. }
  assert (H1 : 0 <= c * q1) by (apply Rmult_le_pos; lra).
  assert (H2 : c * q1 <= c * q2) by (apply Rmult_le_compat_l; lra).
  destruct (Rlt_dec (c * 3) (c * (1 + 100 * q1)));
    destruct (Rlt_dec (c * 3) (c * (1 + 100 * q2))); lra.
Qed.

Lemma calculateCf_capped_at_three_times_smooth_witness :
  exists c y1 y2,
    calculateCfs (Fin 1000000) = Fin c /\
    calculateCf Example.calibratedPhysics (Fin 1000000) (Fin 0) (Fin 100) = Fin c /\
    calculateCf Example.calibratedPhysics (Fin 1000000) (Fin 0.0003) (Fin 100)
      = Fin y1 /\
    calculateCf Example.calibratedPhysics (Fin 1000000) (Fin 0.002) (Fin 100)
      = Fin y2 /\
    0 <= c <= y1 /\ y1 <= y2 /\ y2 <= 3 * c.
Proof.
  apply (calculateCf_capped_at_three_times_smooth
           Example.calibratedPhysics 1000000 100 0.0003 0.002); lra.
Defined.

(** X10.  calculateDeltaRT never divides by a denominator that is zero or
    negative: on finite arguments it returns a finite number, and that
    number is 0 when the smooth coefficient is not positive or when the
    denominator Cfs (1 + K) (1 + CrCfRatio) + CA is not positive. *)
Theorem calculateDeltaRT_is_finite (deltaCf Cfs CrCfRatio CA K : R) :
  exists y,
    calculateDeltaRT (Fin deltaCf) (Fin Cfs) (Fin CrCfRatio) (Fin CA) (Fin K)
      = Fin y /\
    (Cfs <= 0 -> y = 0) /\
    (Cfs * (1 + K) * (1 + CrCfRatio) + CA <= 0 -> y = 0) /\
    (0 < Cfs -> 0 < Cfs * (1 + K) * (1 + CrCfRatio) + CA ->
     y = deltaCf * (1 + K) / (Cfs * (1 + K) * (1 + CrCfRatio) + CA) * 100).
Proof.
  unfold calculateDeltaRT. cbn [mul add].
  destruct (Rle_dec Cfs 0) as [Hc|Hc].
  - replace (Fin Cfs <=? Fin 0)%js with true by (js_eval; reflexivity).
    exists 0. repeat split; try reflexivity; intros; lra.
  - replace (Fin Cfs <=? Fin 0)%js with false by (js_eval; reflexivity).
    destruct (Rle_dec (Cfs * (1 + K) * (1 + CrCfRatio) + CA) 0) as [Hd|Hd].
    + replace (Fin (Cfs * (1 + K) * (1 + CrCfRatio) + CA) <=? Fin 0)%js
        with true by (js_eval; reflexivity).
      exists 0. repeat split; try reflexivity; intros; lra.
    + replace (Fin (Cfs * (1 + K) * (1 + CrCfRatio) + CA) <=? Fin 0)%js
        with false by (js_eval; reflexivity).
      rewrite div_Fin by lra. cbn [mul].
      eexists. split; [reflexivity|].
      repeat split; intros; try lra; reflexivity.
Qed.

End Friction.

(* ================================================================== *)
(** ** FoulingPhysics: resistance, power and fuel *)
(* ================================================================== *)

Section Fuel.

Import FoulingPhysics.

(** Every entry of the roughness table is a finite height, zero or more. *)
Lemma roughness_range (frLevel : nat) :
  exists k, index_or frKsMapping frLevel (Fin 0) = Fin k /\ 0 <= k.
Proof.
  unfold index_or, frKsMapping.
  do 6 (destruct frLevel as [|frLevel];
        [cbn [nth_error]; js_eval; eexists; (split; [reflexivity | lra])|]).
  cbn [nth_error]. destruct frLevel; exists 0; (split; [reflexivity | lra]).
Qed.

Lemma or_else_truthy (a b : number) : truthy a = true -> (a || b)%js = a.
Proof. intros H. unfold or_else. rewrite H. reflexivity. Qed.

(** The form factor of a vessel with a finite length, a finite block
    coefficient and a positive finite displacement is finite and not
    negative. *)
Lemma calculateFormFactor_finite (p : t) (L D cbv : R) :
  length p = Fin L -> displacement p = Fin D -> 0 < D -> cb p = Fin cbv ->
  exists K, calculateFormFactor p = Fin K /\ 0 <= K.
Proof.
  intros HL HD HDpos Hcb. unfold calculateFormFactor.
  rewrite HL, HD, Hcb.
  assert (Htr : truthy (Fin D) = true) by (apply truthy_Fin; lra).
  rewrite (or_else_truthy (Fin D)) by exact Htr.
  rewrite div_Fin by lra.
  rewrite Math_pow_pos by lra.
  assert (Hpw : 0 < Rpower D (1 / 3)) by apply exp_pos.
  rewrite div_Fin by lra.
  assert (HCb : exists c', (Fin cbv || Fin 0.65)%js = Fin c').
  { unfold or_else. destruct (truthy (Fin cbv)); eexists; reflexivity. }
  destruct HCb as (c' & ->).
  cbn [mul add sub neg].
  set (Kv := 1 + 0.011 * c' + - (0.001 * (L / Rpower D (1 / 3)))).
  exists (if Rlt_dec 0 Kv then Kv else 0). split.
  - unfold Math_max, lt. destruct (Rlt_dec 0 Kv); reflexivity.
  - destruct (Rlt_dec 0 Kv); lra.
Qed.

(** With a smooth coefficient of zero the rough coefficient is zero. *)
Lemma calculateCf_zero (p : t) (Re : number) (k L : R) :
  calculateCfs Re = Fin 0 -> 0 <= k -> 0 < L ->
  calculateCf p Re (Fin k) (Fin L) = Fin 0.
Proof.
  intros Hc Hk HL. unfold calculateCf. rewrite Hc.
  destruct (Rle_dec k 0) as [Hk0|Hk0].
  - replace (Fin k <=? Fin 0)%js with true by (js_eval; reflexivity).
    reflexivity.
  - replace (Fin k <=? Fin 0)%js with false by (js_eval; reflexivity).
    replace (truthy (Fin k)) with true by (symmetry; apply truthy_Fin; lra).
    replace (truthy (Fin L)) with true by (symmetry; apply truthy_Fin; lra).
    cbn [negb orb]. rewrite div_Fin by lra. cbn [mul add].
    js_eval; f_equal; lra.
Qed.

(** X9.  A vessel that does not move ahead burns nothing: for a physics
    object with a positive finite length, a finite wetted surface, a finite
    block coefficient and a positive finite displacement, estimateFuelRate
    at any finite speed that is zero or negative returns fuel rate 0,
    cost 0, CO2 emissions 0 and power 0, at every fouling level. *)
Theorem no_fuel_at_non_positive_speed (p : t) (L S D cbv s : R) (frLevel : nat) :
  length p = Fin L -> 0 < L ->
  wettedSurface p = Fin S ->
  displacement p = Fin D -> 0 < D ->
  cb p = Fin cbv ->
  s <= 0 ->
  total (calculateResistanceComponents p (Fin s) frLevel) = Fin 0 /\
  estimateFuelRate p (Fin s) frLevel defaultEngineEfficiency =
  {| fuelRate := Fin 0; cost := Fin 0; co2Emissions := Fin 0; fuel_power := Fin 0 |}.
Proof.
  intros HL HLpos HS HD HDpos Hcb Hs.
  destruct (calculateFormFactor_finite p L D cbv HL HD HDpos Hcb) as (K & HK & _).
  destruct (roughness_range frLevel) as (k & Hk & Hkpos).
  assert (Hq : 0 < sqrt (9.81 * L)) by (apply sqrt_lt_R0; lra).
  assert (HRe : calculateCfs (calculateReynolds (Fin s * KNOTS_TO_MPS)%js (Fin L))
                = Fin 0).
  { unfold calculateReynolds, KNOTS_TO_MPS, NU_WATER. cbn [mul].
    rewrite div_Fin by lra. unfold calculateCfs.
    replace (Fin (s * 0.514444 * L / 1.19e-6) <=? Fin 0)%js with true; [reflexivity|].
    symmetry. apply le_Fin.
    apply Rmult_le_reg_r with 1.19e-6; [lra|].
    unfold Rdiv. rewrite Rmult_assoc, Rinv_l by lra. nra. }
  assert (Hwave : calculateWaveResistance p (Fin s * KNOTS_TO_MPS)%js = Fin 0).
  { unfold calculateWaveResistance, GRAVITY, KNOTS_TO_MPS, RHO_WATER.
    rewrite HL, HS. cbn [mul]. unfold Math_sqrt. rewrite sgn_pos by lra.
    rewrite div_Fin by lra.
    replace (Fin (s * 0.514444 / sqrt (9.81 * L)) >? Fin 0.05)%js with false.
    - cbn [mul]. f_equal; ring.
    - symmetry. unfold gt. apply lt_Fin_false.
      assert (s * 0.514444 / sqrt (9.81 * L) <= 0); [|lra].
      apply Rmult_le_reg_r with (sqrt (9.81 * L)); [exact Hq|].
      unfold Rdiv. rewrite Rmult_assoc, Rinv_l by lra. lra. }
  assert (Htotal : total (calculateResistanceComponents p (Fin s) frLevel) = Fin 0).
  { unfold calculateResistanceComponents. cbn [total].
    rewrite Hwave, HK, HL, Hk, HS.
    rewrite (calculateCf_zero p _ k L HRe Hkpos HLpos).
    unfold KNOTS_TO_MPS, RHO_WATER. cbn [mul add]. f_equal; ring. }
  split; [exact Htotal|].
  unfold estimateFuelRate, calculatePowerRequired. cbn [power].
  rewrite Htotal.
  unfold KNOTS_TO_MPS, propEfficiency, defaultEngineEfficiency,
    FUEL_ENERGY_DENSITY, fuelCostPerKg, co2PerKgFuel, FUEL_CO2_FACTOR,
    FUEL_PRICE_PER_LITER, FUEL_DENSITY.
  cbn [mul]. rewrite !div_Fin by lra. cbn [mul].
  f_equal; f_equal; lra.
Qed.

(** The constructor keeps a displacement that is given, and computes the
    wetted surface from the dimensions of the row. *)
Lemma new_displacement (vessel : Vessel.t) :
  truthy (Vessel.displacement vessel) = true ->
  displacement (FoulingPhysics.new vessel) = Vessel.displacement vessel.
Proof.
  intros H. unfold FoulingPhysics.new, initializeParameters.
  cbn [displacement set_wettedSurface]. rewrite H. cbn [negb].
  unfold estimateMissingParameters, estimateVesselSpeeds, estimateVesselCosts.
  repeat match goal with
    | |- context [if ?c then _ else _] => destruct c
    end; reflexivity.
Qed.

Lemma new_cb (vessel : Vessel.t) : cb (FoulingPhysics.new vessel) = Vessel.cb vessel.
Proof. split_new. Qed.

Lemma new_wettedSurface (vessel : Vessel.t) (L B T C : R) :
  Vessel.length vessel = Fin L -> Vessel.beam vessel = Fin B ->
  Vessel.draft vessel = Fin T -> T <> 0 ->
  Vessel.cb vessel = Fin C -> 0 <= C ->
  exists S, wettedSurface (FoulingPhysics.new vessel) = Fin S.
Proof.
  intros HL HB HT HT0 HC HC0.
  assert (H : wettedSurface (FoulingPhysics.new vessel) =
              (Fin L * (Fin 2 * Fin T + Fin B) * Math_sqrt (Fin C) *
               (Fin 0.453 + Fin 0.4425 * Fin C - Fin 0.2862 * Fin C * Fin C +
                Fin 0.003467 * Fin B / Fin T + Fin 0.3696 * Fin 0.65))%js).
  { rewrite <- HL, <- HB, <- HT, <- HC.
    unfold FoulingPhysics.new, initializeParameters, estimateMissingParameters,
      estimateVesselSpeeds, estimateVesselCosts.
    repeat match goal with
      | |- context [if ?c then _ else _] => destruct c
      end; reflexivity. }
  rewrite H. cbn [mul add sub neg]. rewrite div_Fin by assumption.
  unfold Math_sqrt.
  assert (Hs : exists q, match sgn C with Neg => NaN | _ => Fin (sqrt C) end = Fin q).
  { unfold sgn. destruct (total_order_T C 0) as [[?|?]|?];
      [lra | eexists; reflexivity | eexists; reflexivity]. }
  destruct Hs as (q & ->). cbn [mul add]. eexists; reflexivity.
Qed.

Lemma no_fuel_at_non_positive_speed_witness :
  total (calculateResistanceComponents (FoulingPhysics.new Example.vessel)
           (Fin 0) 3) = Fin 0 /\
  estimateFuelRate (FoulingPhysics.new Example.vessel) (Fin 0) 3
    defaultEngineEfficiency =
  {| fuelRate := Fin 0; cost := Fin 0; co2Emissions := Fin 0; fuel_power := Fin 0 |}.
Proof.
  destruct (new_wettedSurface Example.vessel 100 20 8 0.7) as (S & HS);
    try reflexivity; try lra.
  apply (no_fuel_at_non_positive_speed (FoulingPhysics.new Example.vessel)
           100 S 8000 0.7 0 3).
  - apply new_length.
  - lra.
  - exact HS.
  - apply new_displacement. apply truthy_Fin. lra.
  - lra.
  - apply new_cb.
  - lra.
Defined.

(** The test validateVesselData applies to a dimension fails exactly the
    numbers that are not above zero, NaN included. *)
Lemma notPositive_spec (x : number) : notPositive x = negb (Fin 0 <? x)%js.
Proof.
  destruct x as [| |r|]; unfold notPositive; try reflexivity.
  js_eval; reflexivity.
Qed.

(** X11.  validateVesselData accepts exactly the physics objects whose
    length, beam and draft compare above zero, whose block coefficient is
    above zero and at most 1, and whose economic speed does not compare at
    or above the full speed; with no error listed in that case and at least
    one otherwise.  Costs are not looked at, and a NaN speed passes. *)
Theorem validateVesselData_accepts (p : t) :
  isValid (validateVesselData p) =
    ((Fin 0 <? length p)%js && (Fin 0 <? beam p)%js && (Fin 0 <? draft p)%js &&
     ((Fin 0 <? cb p)%js && negb (cb p >? Fin 1)%js) &&
     negb (ecoSpeed p >=? fullSpeed p)%js) /\
  (isValid (validateVesselData p) = true <-> errors (validateVesselData p) = []).
Proof.
  unfold validateVesselData. rewrite !notPositive_spec.
  cbn [isValid errors].
  destruct (Fin 0 <? length p)%js, (Fin 0 <? beam p)%js, (Fin 0 <? draft p)%js,
    (Fin 0 <? cb p)%js, (cb p >? Fin 1)%js, (ecoSpeed p >=? fullSpeed p)%js;
    cbn; (split; [reflexivity | split; intros H; try discriminate; reflexivity]).
Qed.

(** A speed that is NaN passes validation. *)
Lemma validateVesselData_NaN_speed (p : t) :
  ecoSpeed p = NaN ->
  (ecoSpeed p >=? fullSpeed p)%js = false.
Proof. intros ->. unfold ge. destruct (fullSpeed p); reflexivity. Qed.

End Fuel.

(* ================================================================== *)
(** ** AdaptiveFoulingModel: confidence and window *)
(* ================================================================== *)

Section ConfidenceAndWindow.

Import AdaptiveFoulingModel.

(** X13.  updateConfidence keeps the confidence between 0 and 100: from a
    confidence in that range and any relative error that is not NaN, the
    infinities included, the new confidence is a finite number in the
    range; it does not go down when the error is below 0.15 and does not go
    up otherwise. *)
Theorem updateConfidence_stays_in_range (m : t) (relativeError : number) (c : R) :
  confidence m = Fin c ->
  0 <= c <= 100 ->
  relativeError <> NaN ->
  exists c',
    confidence (updateConfidence m relativeError) = Fin c' /\
    0 <= c' <= 100 /\
    ((relativeError <? Fin 0.15)%js = true -> c <= c') /\
    ((relativeError <? Fin 0.15)%js = false -> c' <= c).
Proof.
  intros Hc Hrange Hnan. unfold updateConfidence.
  destruct relativeError as [| |e|]; [contradiction| | |].
  - cbn [lt set_confidence confidence]. rewrite Hc.
    exists 100. split; [js_eval; reflexivity|].
    split; [lra|]. split; intros; [lra | discriminate].
  - destruct (Rlt_dec e 0.15) as [He|He].
    + replace (Fin e <? Fin 0.15)%js with true by (js_eval; reflexivity).
      cbn [set_confidence confidence]. rewrite Hc. cbn [sub add neg mul].
      exists (if Rlt_dec (c + (0.15 + - e) * 100 * 0.5) 100
              then c + (0.15 + - e) * 100 * 0.5 else 100).
      split; [unfold Math_min, lt; destruct (Rlt_dec _ 100); reflexivity|].
      destruct (Rlt_dec _ 100); repeat split; intros; try discriminate; lra.
    + replace (Fin e <? Fin 0.15)%js with false by (js_eval; reflexivity).
      cbn [set_confidence confidence]. rewrite Hc. cbn [sub add neg mul].
      match goal with
      | |- context [Math_max (Fin 0) (Fin ?x)] =>
          exists (if Rlt_dec 0 x then x else 0)
      end.
      split; [unfold Math_max, lt; destruct (Rlt_dec 0 _); reflexivity|].
      destruct (Rlt_dec 0 _); repeat split; intros; try discriminate; lra.
  - cbn [lt set_confidence confidence]. rewrite Hc.
    exists 0. split; [js_eval; reflexivity|].
    split; [lra|]. split; intros; [discriminate | lra].
Qed.

Lemma updateConfidence_stays_in_range_witness :
  exists c',
    confidence (updateConfidence Example.freshEngine PosInf) = Fin c' /\
    0 <= c' <= 100 /\
    ((PosInf <? Fin 0.15)%js = true -> 0.0 <= c') /\
    ((PosInf <? Fin 0.15)%js = false -> c' <= 0.0).
Proof.
  apply (updateConfidence_stays_in_range Example.freshEngine PosInf 0.0).
  - reflexivity.
  - lra.
  - discriminate.
Defined.

(** X14.  The window is a queue of bounded length: storeTrainingData on a
    window within its capacity appends the new observation at the end,
    drops the oldest one exactly when the window was full, and leaves a
    window within the capacity. *)
Theorem storeTrainingData_is_a_bounded_queue (m : t) (d : DataPoint) :
  (List.length (trainingDataBuffer m) <= maxBufferSize m)%nat ->
  (List.length (trainingDataBuffer (storeTrainingData m d)) <= maxBufferSize m)%nat /\
  maxBufferSize (storeTrainingData m d) = maxBufferSize m /\
  ((List.length (trainingDataBuffer m) < maxBufferSize m)%nat ->
   trainingDataBuffer (storeTrainingData m d) = trainingDataBuffer m ++ [d]) /\
  ((List.length (trainingDataBuffer m) = maxBufferSize m)%nat ->
   trainingDataBuffer (storeTrainingData m d) = tl (trainingDataBuffer m ++ [d]) /\
   List.length (trainingDataBuffer (storeTrainingData m d)) = maxBufferSize m).
Proof.
  intros Hlen. unfold storeTrainingData.
  rewrite length_app. cbn [List.length].
  destruct (maxBufferSize m <? List.length (trainingDataBuffer m) + 1)%nat eqn:Hfull.
  - apply Nat.ltb_lt in Hfull.
    cbn [trainingDataBuffer maxBufferSize set_trainingDataBuffer].
    assert (Htl : List.length (tl (trainingDataBuffer m ++ [d]))
                  = List.length (trainingDataBuffer m)).
    { destruct (trainingDataBuffer m); cbn [app tl List.length];
        [reflexivity | rewrite length_app; cbn; lia]. }
    repeat split; try lia; try reflexivity.
  - apply Nat.ltb_ge in Hfull.
    cbn [trainingDataBuffer maxBufferSize set_trainingDataBuffer].
    rewrite length_app. cbn [List.length].
    repeat split; try lia; try reflexivity.
Qed.

Lemma storeTrainingData_is_a_bounded_queue_witness :
  (List.length (trainingDataBuffer
      (storeTrainingData Example.overPredictingEngine Example.overPredicted))
   <= maxBufferSize Example.overPredictingEngine)%nat.
Proof.
  apply (storeTrainingData_is_a_bounded_queue
           Example.overPredictingEngine Example.overPredicted).
  cbn. lia.
Defined.

(** X16.  estimateFRLevel returns a level from 0 to 5 for every engine and
    every argument, and an unusable day count gives the top level: a
    last-clean date that does not parse makes calculateDaysSinceClean
    return NaN, and with NaN days since the clean the level is 5. *)
Theorem estimateFRLevel_at_most_5 (clock : Clock) (m : t) (days : option number) :
  (estimateFRLevel m days <= 5)%nat /\
  calculateDaysSinceClean clock (Some NaN) = NaN /\
  estimateFRLevel m (Some NaN) = 5%nat /\
  (daysSinceClean m = NaN -> estimateFRLevel m None = 5%nat).
Proof.
  split; [|split; [|split]].
  - unfold estimateFRLevel.
    repeat match goal with
      | |- context [if ?c then _ else _] => destruct c
      end; lia.
  - unfold calculateDaysSinceClean. rewrite sub_NaN_r. cbn [div].
    reflexivity.
  - reflexivity.
  - intros H. unfold estimateFRLevel. rewrite H. reflexivity.
Qed.

End ConfidenceAndWindow.

(* ================================================================== *)
(** ** AdaptiveFoulingModel: a run of readings *)
(* ================================================================== *)

Section Readings.

Import AdaptiveFoulingModel.

Variable clock : Clock.

Lemma retrainModel_capacity (m : t) :
  maxBufferSize (retrainModel m) = maxBufferSize m.
Proof.
  unfold retrainModel, updateFoulingAccumulationRate.
  repeat match goal with
    | |- context [if ?c then _ else _] => destruct c
    | |- context [let '(_, _) := ?c in _] => destruct c
    end; reflexivity.
Qed.

Lemma storeTrainingData_length (m : t) (d : DataPoint) :
  (List.length (trainingDataBuffer m) <= maxBufferSize m)%nat ->
  List.length (trainingDataBuffer (storeTrainingData m d)) =
  Nat.min (maxBufferSize m) (List.length (trainingDataBuffer m) + 1).
Proof.
  intros Hlen. unfold storeTrainingData.
  rewrite length_app. cbn [List.length].
  destruct (maxBufferSize m <? List.length (trainingDataBuffer m) + 1)%nat eqn:Hfull.
  - apply Nat.ltb_lt in Hfull.
    cbn [trainingDataBuffer set_trainingDataBuffer].
    destruct (trainingDataBuffer m); cbn [app tl List.length] in *;
      [lia | rewrite length_app; cbn [List.length]; lia].
  - apply Nat.ltb_ge in Hfull.
    cbn [trainingDataBuffer set_trainingDataBuffer].
    rewrite length_app. cbn [List.length]. lia.
Qed.

(** One reading on a calibrated engine. *)
Lemma updateFromReading_step (m : t) (r : Reading) :
  Spec.calibrated (physics m) ->
  (List.length (trainingDataBuffer m) <= maxBufferSize m)%nat ->
  exists m' u,
    updateFromReading clock m (rd_actualFuelRate r) (rd_speed r)
      (rd_weather r) (rd_timestamp r) = Ok (m', u) /\
    physics m' = physics m /\
    maxBufferSize m' = maxBufferSize m /\
    daysSinceClean m' = daysSinceClean m /\
    trainingDataCount m' =
      (trainingDataCount m + Z.of_nat (List.length (accepted [r])))%Z /\
    List.length (trainingDataBuffer m') =
      Nat.min (maxBufferSize m)
        (List.length (trainingDataBuffer m) + List.length (accepted [r])).
Proof.
  intros Hcal Hlen. unfold accepted. cbn [filter].
  destruct (rd_actualFuelRate r <=? Fin 0)%js eqn:Hrej.
  - exists m, None. unfold updateFromReading. rewrite Hrej.
    cbn [negb List.length]. repeat split; try reflexivity; lia.
  - cbn [negb List.length].
    destruct (predictComponents_calibrated m (rd_speed r)
                (Some (weather_or_calm (rd_weather r))) Hcal) as (c & _ & Hp).
    unfold updateFromReading. rewrite Hrej, Hp. cbn [bind].
    match goal with
    | |- context [storeTrainingData ?m0 ?d0] => set (m1 := m0); set (d := d0)
    end.
    assert (H1 : physics m1 = physics m /\ maxBufferSize m1 = maxBufferSize m /\
                 daysSinceClean m1 = daysSinceClean m /\
                 trainingDataCount m1 = trainingDataCount m /\
                 trainingDataBuffer m1 = trainingDataBuffer m).
    { subst m1. unfold updateConfidence.
      destruct (_ <? Fin 0.15)%js; repeat split; reflexivity. }
    destruct H1 as (Hp1 & Hmax1 & Hd1 & Hn1 & Hb1).
    set (m2 := storeTrainingData m1 d).
    assert (H2 : physics m2 = physics m /\ maxBufferSize m2 = maxBufferSize m /\
                 daysSinceClean m2 = daysSinceClean m /\
                 trainingDataCount m2 = trainingDataCount m).
    { subst m2. unfold storeTrainingData.
      destruct (maxBufferSize m1 <? _)%nat; repeat split; assumption. }
    destruct H2 as (Hp2 & Hmax2 & Hd2 & Hn2).
    assert (Hlen2 : List.length (trainingDataBuffer m2) =
                    Nat.min (maxBufferSize m) (List.length (trainingDataBuffer m) + 1)).
    { subst m2. rewrite storeTrainingData_length by (rewrite Hb1, Hmax1; exact Hlen).
      rewrite Hb1, Hmax1. reflexivity. }
    set (m3 := set_trainingDataCount m2 (trainingDataCount m2 + 1)%Z).
    destruct (retrainModel_frame m3) as (Hr1 & _ & _ & Hr4 & Hr5 & Hr6).
    pose proof (retrainModel_capacity m3) as Hr7.
    exists (if shouldRetrain m3 then retrainModel m3 else m3). eexists.
    split; [reflexivity|].
    destruct (shouldRetrain m3);
      rewrite ?Hr1, ?Hr4, ?Hr5, ?Hr6, ?Hr7; subst m3;
      cbn [physics maxBufferSize daysSinceClean trainingDataCount
           trainingDataBuffer set_trainingDataCount];
      rewrite Hp2, Hmax2, Hd2, Hn2, Hlen2;
      repeat split; try reflexivity; lia.
Qed.

(** X15.  A run of readings on a calibrated engine whose window is within
    its capacity never throws; it leaves the physics object, the capacity
    and the days since the clean as they were, raises the observation count
    by the number of readings with a fuel rate above zero, and the window
    holds that many more observations, up to the capacity. *)
Theorem updateFromReadings_counts_and_caps (m : t) (readings : list Reading) :
  Spec.calibrated (physics m) ->
  (List.length (trainingDataBuffer m) <= maxBufferSize m)%nat ->
  exists m',
    updateFromReadings clock m readings = Ok m' /\
    physics m' = physics m /\
    maxBufferSize m' = maxBufferSize m /\
    daysSinceClean m' = daysSinceClean m /\
    trainingDataCount m' =
      (trainingDataCount m + Z.of_nat (List.length (accepted readings)))%Z /\
    List.length (trainingDataBuffer m') =
      Nat.min (maxBufferSize m)
        (List.length (trainingDataBuffer m) + List.length (accepted readings)).
Proof.
  revert m. induction readings as [|r rest IH]; intros m Hcal Hlen.
  - exists m. cbn [updateFromReadings accepted filter List.length].
    repeat split; try reflexivity; lia.
  - destruct (updateFromReading_step m r Hcal Hlen)
      as (m1 & u & Hstep & Hp1 & Hmax1 & Hd1 & Hn1 & Hb1).
    assert (Hcal1 : Spec.calibrated (physics m1)) by (rewrite Hp1; exact Hcal).
    assert (Hlen1 : (List.length (trainingDataBuffer m1) <= maxBufferSize m1)%nat)
      by (rewrite Hb1, Hmax1; lia).
    destruct (IH m1 Hcal1 Hlen1) as (m' & Hrun & Hp & Hmax & Hd & Hn & Hb).
    exists m'. cbn [updateFromReadings]. rewrite Hstep. cbn [bind].
    split; [exact Hrun|].
    assert (Hacc : List.length (accepted (r :: rest)) =
                   (List.length (accepted [r]) + List.length (accepted rest))%nat).
    { unfold accepted. cbn [filter].
      destruct (negb (rd_actualFuelRate r <=? Fin 0)%js); cbn [List.length]; lia. }
    rewrite Hp, Hmax, Hd, Hn, Hb, Hp1, Hmax1, Hd1, Hn1, Hb1, Hacc.
    repeat split; try reflexivity; lia.
Qed.

End Readings.

Lemma updateFromReadings_counts_and_caps_witness :
  exists m',
    AdaptiveFoulingModel.updateFromReadings Example.clock Example.calibratedEngine Example.someReadings
      = Ok m' /\
    AdaptiveFoulingModel.physics m' = AdaptiveFoulingModel.physics Example.calibratedEngine /\
    AdaptiveFoulingModel.maxBufferSize m' = 100%nat /\
    AdaptiveFoulingModel.daysSinceClean m' = Fin 100 /\
    AdaptiveFoulingModel.trainingDataCount m' = 2%Z /\
    List.length (AdaptiveFoulingModel.trainingDataBuffer m') = 2%nat.
Proof.
  destruct (updateFromReadings_counts_and_caps
              Example.clock Example.calibratedEngine Example.someReadings)
    as (m' & Hrun & Hp & Hmax & Hd & Hn & Hb).
  - exact calibratedPhysics_calibrated.
  - cbn. lia.
  - assert (Hacc : List.length (AdaptiveFoulingModel.accepted Example.someReadings) = 2%nat).
    { unfold AdaptiveFoulingModel.accepted, Example.someReadings.
      cbn [filter AdaptiveFoulingModel.rd_actualFuelRate]. js_eval. reflexivity. }
    rewrite Hacc in Hn, Hb.
    exists m'. repeat split; assumption.
Defined.

(* ================================================================== *)
(** ** AdaptiveFoulingModel: days, construction, recommendation *)
(* ================================================================== *)

Section EngineLifecycle.

Import AdaptiveFoulingModel.

(** X17.  For a last-clean date that is not after the current time,
    calculateDaysSinceClean returns the whole number of 24-hour periods
    elapsed since it: a non-negative integer k with
    k x 86400000 <= now - clean < (k + 1) x 86400000 milliseconds. *)
Theorem calculateDaysSinceClean_counts_whole_days (clock : Clock) (n c : R) :
  now clock = Fin n ->
  c <= n ->
  exists k : Z,
    calculateDaysSinceClean clock (Some (Fin c)) = Fin (IZR k) /\
    (0 <= k)%Z /\
    IZR k * 86400000 <= n - c < (IZR k + 1) * 86400000.
Proof.
  intros Hnow Hle. unfold calculateDaysSinceClean. rewrite Hnow.
  cbn [mul sub add neg]. rewrite div_Fin by lra. cbn [Math_floor].
  set (x := (n + - c) / (1000 * 60 * 60 * 24)).
  assert (Hx : 0 <= x).
  { subst x. apply Rmult_le_pos; [lra|]. left. apply Rinv_0_lt_compat. lra. }
  assert (Hxd : x * 86400000 = n - c).
  { subst x. field. }
  pose proof (base_Int_part x) as [Hlo Hhi].
  exists (Int_part x).
  assert (Hk : (0 <= Int_part x)%Z).
  { assert (H : IZR (-1) < IZR (Int_part x)) by (simpl; lra).
    apply lt_IZR in H. lia. }
  assert (HkR : 0 <= IZR (Int_part x)) by (apply IZR_le in Hk; simpl in Hk; lra).
  split; [|split; [exact Hk|]].
  - js_eval; try reflexivity. f_equal. lra.
  - rewrite <- Hxd. split; nra.
Qed.

Lemma calculateDaysSinceClean_counts_whole_days_witness :
  exists k : Z,
    calculateDaysSinceClean Example.clock (Some (Fin 1741360000000))
      = Fin (IZR k) /\
    (0 <= k)%Z /\
    IZR k * 86400000 <= 1750000000000 - 1741360000000 < (IZR k + 1) * 86400000.
Proof.
  apply (calculateDaysSinceClean_counts_whole_days
           Example.clock 1750000000000 1741360000000).
  - reflexivity.
  - lra.
Defined.

Lemma or_else_default_truthy (a b : number) :
  truthy b = true -> truthy (a || b)%js = true.
Proof. intros Hb. unfold or_else. destruct (truthy a) eqn:Ha; assumption. Qed.

Lemma new_throws (clock : Clock) (row : option ModelState) (vessel : Vessel.t) :
  throws (new clock row vessel) =
  (negb (truthy (Vessel.cost_eco vessel)) || negb (truthy (Vessel.cost_full vessel)) ||
   negb (truthy (Vessel.eco_speed vessel)) || negb (truthy (Vessel.full_speed vessel)) ||
   (Vessel.eco_speed vessel === Vessel.full_speed vessel)%js)%bool.
Proof.
  pose proof (solveAlphaBeta_throws (FoulingPhysics.new vessel)
                (Vessel.cost_eco vessel) (Vessel.cost_full vessel)
                (Vessel.eco_speed vessel) (Vessel.full_speed vessel)) as Hthrows.
  unfold new, missingFields. cbn [filter snd map fst].
  destruct (truthy (Vessel.cost_eco vessel));
  destruct (truthy (Vessel.cost_full vessel));
  destruct (truthy (Vessel.eco_speed vessel));
  destruct (truthy (Vessel.full_speed vessel));
  cbn [negb filter map fst snd List.length Nat.ltb Nat.leb throws orb];
  try reflexivity.
  cbn [negb] in Hthrows. rewrite !orb_false_r in Hthrows.
  destruct (FoulingPhysics.solveAlphaBeta _ _ _ _ _) as [[p [a b]]|];
    cbn [bind throws] in *; exact Hthrows.
Qed.

(** X18.  The constructor of the engine throws exactly when one of
    cost_eco, cost_full, eco_speed, full_speed is zero or NaN, or when
    eco_speed === full_speed.  When it returns, the engine has an empty
    window of capacity 100 and a calibrated physics object, and neither its
    correction factor nor its accumulation rate is zero or NaN, whatever
    the stored row holds. *)
Theorem new_throws_iff (clock : Clock) (row : option ModelState) (vessel : Vessel.t) :
  (throws (new clock row vessel) = true <->
   Exists (fun x => x = NaN \/ x = Fin 0)
     [Vessel.cost_eco vessel; Vessel.cost_full vessel;
      Vessel.eco_speed vessel; Vessel.full_speed vessel] \/
   (Vessel.eco_speed vessel === Vessel.full_speed vessel)%js = true) /\
  (forall m,
     new clock row vessel = Ok m ->
     trainingDataBuffer m = [] /\
     maxBufferSize m = 100%nat /\
     Spec.calibrated (physics m) /\
     truthy (correctionFactor m) = true /\
     truthy (foulingAccumulationRate m) = true).
Proof.
  split.
  - rewrite new_throws, !Exists_cons, Exists_nil, <- !falsy_iff.
    destruct (truthy (Vessel.cost_eco vessel));
    destruct (truthy (Vessel.cost_full vessel));
    destruct (truthy (Vessel.eco_speed vessel));
    destruct (truthy (Vessel.full_speed vessel));
    destruct (Vessel.eco_speed vessel === Vessel.full_speed vessel)%js;
    cbn [negb orb]; intuition discriminate.
  - intros m Hnew. unfold new in Hnew.
    destruct (0 <? List.length (missingFields vessel))%nat; [discriminate|].
    destruct (FoulingPhysics.solveAlphaBeta _ _ _ _ _) as [[p [a b]]|] eqn:Hsolve;
      [|discriminate].
    cbn [bind] in Hnew. injection Hnew as <-.
    cbn [trainingDataBuffer maxBufferSize physics correctionFactor
         foulingAccumulationRate].
    destruct (solveAlphaBeta_Ok_inv _ _ _ _ _ _ _ Hsolve) as (a' & b' & -> & _).
    assert (H1 : truthy (Fin 1.0) = true) by (apply truthy_Fin; lra).
    repeat split; try reflexivity.
    + exists a', b'. split; reflexivity.
    + destruct row; [apply or_else_default_truthy|]; exact H1.
    + destruct row; [apply or_else_default_truthy|]; exact H1.
Qed.

(** X19.  On an engine the constructor can produce, recommendCleaning
    returns without an error with an extra cost per day of NaN (the
    prediction it is computed from is NaN), a payback period of +Infinity
    and annual savings of NaN; the recommendation is therefore decided by
    the fouling level alone: cleaning is recommended exactly when the
    estimated level is 3 or more. *)
Theorem recommendCleaning_follows_the_level (m : t) :
  Spec.calibrated (physics m) ->
  exists r,
    recommendCleaning m = Ok (m, r) /\
    r_currentFRLevel r = estimateFRLevel m None /\
    r_recommended r = (3 <=? estimateFRLevel m None)%nat /\
    r_extraCostPerDay r = NaN /\
    r_daysToBreakeven r = PosInf /\
    r_annualSavings r = NaN.
Proof.
  intros Hcal. pose proof Hcal as (a & b & Ha & Hb).
  destruct (calculateCostAt_calibrated (physics m) a b
              (FoulingPhysics.ecoSpeed (physics m)) 0 Ha Hb) as (c0 & _ & Hclean).
  destruct (predictComponents_calibrated m (FoulingPhysics.ecoSpeed (physics m))
              None Hcal) as (c & _ & Hp).
  assert (Hextra : calculateExtraCostPerDay m = Ok (m, NaN)).
  { unfold calculateExtraCostPerDay. rewrite Hclean. cbn [bind].
    rewrite set_physics_id, Hp. cbn [bind p_predicted]. reflexivity. }
  unfold recommendCleaning. rewrite Hextra. cbn [bind].
  eexists. split; [reflexivity|].
  cbn [r_currentFRLevel r_recommended r_extraCostPerDay r_daysToBreakeven
       r_annualSavings gt lt mul Math_round].
  rewrite !orb_false_r. repeat split; reflexivity.
Qed.

Lemma recommendCleaning_follows_the_level_witness :
  exists r,
    recommendCleaning Example.calibratedEngine = Ok (Example.calibratedEngine, r) /\
    r_currentFRLevel r = estimateFRLevel Example.calibratedEngine None /\
    r_recommended r = (3 <=? estimateFRLevel Example.calibratedEngine None)%nat /\
    r_extraCostPerDay r = NaN /\
    r_daysToBreakeven r = PosInf /\
    r_annualSavings r = NaN.
Proof.
  apply (recommendCleaning_follows_the_level Example.calibratedEngine).
  exact calibratedPhysics_calibrated.
Defined.

End EngineLifecycle.

(* ================================================================== *)
(** ** AdaptiveFoulingModel: retraining *)
(* ================================================================== *)

Section Retraining.

Import AdaptiveFoulingModel.

Lemma push_error_groups (k : nat) (x : R) (o : list (nat * list number)) :
  Forall (fun g => snd g <> [] /\ Forall (fun e => exists y, e = Fin y) (snd g)) o ->
  Forall (fun g => snd g <> [] /\ Forall (fun e => exists y, e = Fin y) (snd g))
    (push_error k (Fin x) o) /\
  push_error k (Fin x) o <> [].
Proof.
  assert (Hone : [Fin x] <> [] /\ Forall (fun e => exists y, e = Fin y) [Fin x]).
  { split; [discriminate|]. constructor; [eauto|constructor]. }
  induction o as [|[j errors] rest IH]; intros Ho; cbn [push_error].
  - split; [|discriminate]. constructor; [exact Hone|constructor].
  - inversion Ho as [|g l [Hne Hfin] Hrest]; subst. cbn [snd] in *.
    destruct (k =? j)%nat; [|destruct (k <? j)%nat].
    + split; [|discriminate]. constructor; [|exact Hrest]. cbn [snd]. split.
      * destruct errors; discriminate.
      * apply Forall_app. split; [exact Hfin|]. constructor; [eauto|constructor].
    + split; [|discriminate]. constructor; [exact Hone|exact Ho].
    + split; [|discriminate]. constructor; [split; assumption|].
      apply IH. exact Hrest.
Qed.

Lemma errorsByFR_groups (dataPoints : list DataPoint) :
  Forall (fun d => exists y, error d = Fin y) dataPoints ->
  forall o,
    Forall (fun g => snd g <> [] /\ Forall (fun e => exists y, e = Fin y) (snd g)) o ->
    (dataPoints <> [] \/ o <> []) ->
    Forall (fun g => snd g <> [] /\ Forall (fun e => exists y, e = Fin y) (snd g))
      (fold_left (fun o d => push_error (frLevel d) (error d) o) dataPoints o) /\
    fold_left (fun o d => push_error (frLevel d) (error d) o) dataPoints o <> [].
Proof.
  induction 1 as [|d rest [y Hy] Hrest IH]; intros o Ho Hne; cbn [fold_left].
  - split; [exact Ho|]. destruct Hne as [Hne|Hne]; [contradiction|exact Hne].
  - rewrite Hy. destruct (push_error_groups (frLevel d) y o Ho) as [Hg Hn].
    apply IH; [exact Hg|right; exact Hn].
Qed.

Lemma sum_of_finite_errors (errors : list number) :
  Forall (fun e => exists y, e = Fin y) errors ->
  forall a, exists s, fold_left add errors (Fin a) = Fin s.
Proof.
  induction 1 as [|e rest [y ->] _ IH]; intros a; cbn [fold_left add].
  - eauto.
  - apply IH.
Qed.

Lemma add_Fin (x y : R) : (Fin x + Fin y)%js = Fin (x + y).
Proof. reflexivity. Qed.

Lemma mul_Fin (x y : R) : (Fin x * Fin y)%js = Fin (x * y).
Proof. reflexivity. Qed.

Lemma adjustments_finite (o : list (nat * list number)) :
  Forall (fun g => snd g <> [] /\ Forall (fun e => exists y, e = Fin y) (snd g)) o ->
  forall t c, 0 <= c ->
    exists t',
      fold_left
        (fun '(totalAdjustment, adjustmentCount) '(_, errors) =>
           let avgError :=
             (fold_left add errors (Fin 0) / length_number errors)%js in
           ((totalAdjustment + avgError * Fin 0.5)%js,
            (adjustmentCount + Fin 1)%js))
        o (Fin t, Fin c)
      = (Fin t', Fin (c + INR (List.length o))).
Proof.
  induction 1 as [|[k errors] rest [Hne Hfin] _ IH]; intros t c Hc;
    cbn [fold_left List.length].
  - exists t. do 2 f_equal. simpl. lra.
  - cbn [snd] in *.
    destruct (sum_of_finite_errors errors Hfin 0) as [s ->].
    change (length_number errors) with (Fin (INR (List.length errors))).
    assert (Hlen : INR (List.length errors) <> 0).
    { destruct errors; [contradiction|]. apply not_0_INR. discriminate. }
    rewrite div_Fin by exact Hlen. rewrite mul_Fin, !add_Fin.
    destruct (IH (t + s / INR (List.length errors) * 0.5) (c + 1)) as [t' Ht'];
      [lra|].
    exists t'. rewrite Ht'. do 2 f_equal. rewrite S_INR. lra.
Qed.

(** X20.  Retraining keeps the accumulation rate in its range.  When every
    error stored in the window is a finite number and the rate is finite,
    updateFoulingAccumulationRate either leaves the engine as it is (fewer
    than 3 stored observations above level 0) or replaces the rate by a
    finite number between 0.5 and 2.0, and changes nothing else. *)
Theorem updateFoulingAccumulationRate_stays_in_range (m : t) (r : R) :
  foulingAccumulationRate m = Fin r ->
  Forall (fun d => exists y, error d = Fin y) (trainingDataBuffer m) ->
  if (List.length (filter (fun d => (0 <? frLevel d)%nat) (trainingDataBuffer m)) <? 3)%nat
  then updateFoulingAccumulationRate m = m
  else exists r',
         updateFoulingAccumulationRate m = set_foulingAccumulationRate m (Fin r') /\
         0.5 <= r' <= 2.0.
Proof.
  intros Hrate Hfin. unfold updateFoulingAccumulationRate.
  set (dataPoints := filter (fun d => (0 <? frLevel d)%nat) (trainingDataBuffer m)).
  destruct (List.length dataPoints <? 3)%nat eqn:Hlen; [reflexivity|].
  assert (Hdp : Forall (fun d => exists y, error d = Fin y) dataPoints).
  { subst dataPoints. rewrite Forall_forall in *. intros d Hd.
    apply filter_In in Hd. apply Hfin, Hd. }
  assert (Hne : dataPoints <> []).
  { intros Heq. rewrite Heq in Hlen. discriminate. }
  destruct (errorsByFR_groups dataPoints Hdp [] (Forall_nil _) (or_introl Hne))
    as [Hgroups Hgne].
  set (errorsByFR := fold_left _ dataPoints []) in *.
  destruct (adjustments_finite errorsByFR Hgroups 0 0 (Rle_refl 0)) as [t' Ht'].
  cbv zeta in Ht' |- *. rewrite Ht'.
  assert (Hcount : 0 < 0 + INR (List.length errorsByFR)).
  { destruct errorsByFR; [contradiction|]. cbn [List.length].
    rewrite S_INR. pose proof (pos_INR (List.length errorsByFR)). lra. }
  set (c := 0 + INR (List.length errorsByFR)) in *.
  unfold gt. rewrite (proj2 (lt_Fin 0 c) Hcount).
  rewrite div_Fin by lra. rewrite Hrate, add_Fin, mul_Fin.
  set (x := r * (1 + t' / c)).
  exists (if Rlt_dec 2.0 x then 2.0 else if Rlt_dec x 0.5 then 0.5 else x).
  split.
  - f_equal. js_eval; try reflexivity; f_equal; lra.
  - decide_reals; lra.
Qed.

End Retraining.

Lemma overPredicted_error :
  exists y, AdaptiveFoulingModel.error Example.overPredicted = Fin y.
Proof.
  eexists. unfold Example.overPredicted.
  cbn [AdaptiveFoulingModel.error sub add neg Math_abs].
  apply div_Fin. lra.
Qed.

Lemma updateFoulingAccumulationRate_stays_in_range_witness :
  if (List.length
        (filter (fun d => (0 <? AdaptiveFoulingModel.frLevel d)%nat)
           (AdaptiveFoulingModel.trainingDataBuffer Example.overPredictingEngine)) <? 3)%nat
  then AdaptiveFoulingModel.updateFoulingAccumulationRate Example.overPredictingEngine
       = Example.overPredictingEngine
  else exists r',
         AdaptiveFoulingModel.updateFoulingAccumulationRate Example.overPredictingEngine
         = AdaptiveFoulingModel.set_foulingAccumulationRate
             Example.overPredictingEngine (Fin r') /\
         0.5 <= r' <= 2.0.
Proof.
  apply (updateFoulingAccumulationRate_stays_in_range
           Example.overPredictingEngine 1.0).
  - reflexivity.
  - repeat (constructor; [exact overPredicted_error|]). constructor.
Defined.

(* ================================================================== *)
(** ** AdaptiveFoulingModel: the speed curve *)
(* ================================================================== *)

Section SpeedCurve.

Import AdaptiveFoulingModel.





(** X22.  With a single step the step width is a division by zero, and
    the only point of the curve has the speed NaN, whatever the finite
    bounds are. *)
Theorem generateSpeedCurve_single_step_is_NaN (m : t) (lo hi : R) :
  map c_speed (generateSpeedCurve m (Fin lo) (Fin hi) 1) = [NaN].
Proof.
  unfold generateSpeedCurve. cbn [seq map c_speed INR].
  f_equal.
  assert (Hzero : forall x, (Fin 0 * (Fin x / (Fin 1 - Fin 1)))%js = NaN).
  { intros x. js_eval; try reflexivity. }
  cbn [sub add neg] in *. rewrite Hzero. reflexivity.
Qed.

End SpeedCurve.

(* ================================================================== *)
(** ** CalculatorService: currencies *)
(* ================================================================== *)

Section Currencies.

Import AdaptiveFoulingModel CalculatorService.

(** X23.  Converting a finite amount between two of the three listed
    currencies and back gives the amount again (arithmetic over the
    reals). *)
Theorem convertCurrency_round_trip (a : R) (c1 c2 : string) :
  In c1 ["AUD"; "GBP"; "USD"]%string ->
  In c2 ["AUD"; "GBP"; "USD"]%string ->
  convertCurrency (convertCurrency (Fin a) c1 c2) c2 c1 = Fin a.
Proof.
  intros H1 H2. cbn [In] in H1, H2.
  destruct H1 as [<-|[<-|[<-|[]]]]; destruct H2 as [<-|[<-|[<-|[]]]];
    unfold convertCurrency, conversionRates;
    cbn [String.eqb Ascii.eqb Bool.eqb ToNumber];
    try reflexivity;
    rewrite ?mul_Fin, ?div_Fin by lra;
    rewrite ?mul_Fin, ?div_Fin by lra;
    rewrite ?mul_Fin, ?div_Fin by lra;
    f_equal; lra.
Qed.

Lemma convertCurrency_round_trip_witness :
  convertCurrency (convertCurrency (Fin 100) "GBP" "USD") "USD" "GBP" = Fin 100.
Proof.
  apply (convertCurrency_round_trip 100 "GBP" "USD");
    cbn [In]; [right; left | right; right; left]; reflexivity.
Defined.

(** X24.  A currency code that is not a key of the rate table does not
    raise an error: every amount converted from AUD to it, or from it to
    AUD, is NaN. *)
Theorem convertCurrency_unknown_code_is_NaN (amount : number) (code : string) :
  isNumber (conversionRates code) = false ->
  convertCurrency amount "AUD" code = NaN /\
  convertCurrency amount code "AUD" = NaN.
Proof.
  intros Hcode.
  assert (Hnan : ToNumber (conversionRates code) = NaN).
  { destruct (conversionRates code); [reflexivity|discriminate|reflexivity|reflexivity]. }
  assert (Hneq : String.eqb code "AUD" = false).
  { destruct (String.eqb code "AUD") eqn:Heq; [|reflexivity].
    apply String.eqb_eq in Heq. subst code. discriminate. }
  unfold convertCurrency.
  rewrite (String.eqb_sym "AUD" code), Hneq, Hnan.
  cbn [String.eqb Ascii.eqb Bool.eqb].
  split.
  - apply mul_NaN_r.
  - rewrite div_NaN_r. reflexivity.
Qed.

Lemma convertCurrency_unknown_code_is_NaN_witness :
  convertCurrency (Fin 100) "AUD" "EUR" = NaN /\
  convertCurrency (Fin 100) "EUR" "AUD" = NaN.
Proof.
  apply (convertCurrency_unknown_code_is_NaN (Fin 100) "EUR").
  reflexivity.
Defined.

(** X25.  convertCostsToCurrency converts the numeric fields whose name
    contains cost.  The objects of calculateCostAt and of
    calculateConfidenceIntervals have no such field (clean, fouled,
    confidenceLower, ...), so they come back unchanged for every target
    currency; of the annual impact only annualExtraCost is converted. *)
Theorem convertCostsToCurrency_converts_by_field_name
    (c : FoulingPhysics.CostAt) (r : FoulingPhysics.ConfidenceIntervals)
    (a : FoulingPhysics.AnnualImpact) (targetCurrency : string) :
  convertCostsToCurrency (entriesOfCostAt c) targetCurrency = entriesOfCostAt c /\
  convertCostsToCurrency (entriesOfConfidenceIntervals r) targetCurrency
    = entriesOfConfidenceIntervals r /\
  convertCostsToCurrency (entriesOfAnnualImpact a) targetCurrency
    = ("annualExtraCost"%string,
       Num (convertCurrency (FoulingPhysics.annualExtraCost a) "AUD" targetCurrency))
      :: tl (entriesOfAnnualImpact a).
Proof.
  unfold convertCostsToCurrency.
  destruct (String.eqb targetCurrency "AUD") eqn:Heq.
  - apply String.eqb_eq in Heq. subst targetCurrency.
    repeat split; reflexivity.
  - repeat split; reflexivity.
Qed.

End Currencies.

(* ================================================================== *)
(** ** FoulingPhysics: estimated parameters and the annual impact *)
(* ================================================================== *)

Section Estimates.

Import FoulingPhysics.

Lemma speedFactor_range (category : string) :
  exists k, speedFactor category = Fin k /\ 0.8 <= k <= 1.4.
Proof.
  unfold speedFactor.
  repeat match goal with
    | |- context [if ?c then _ else _] => destruct c
    end; eexists; (split; [reflexivity|lra]).
Qed.

Lemma Math_sqrt_pos (x : R) : 0 < x -> Math_sqrt (Fin x) = Fin (sqrt x).
Proof. intros Hx. unfold Math_sqrt. rewrite sgn_pos by exact Hx. reflexivity. Qed.

Lemma estimateVesselSpeeds_value (p : t) (L : R) :
  length p = Fin L -> 0 < L ->
  exists e,
    estimateVesselSpeeds p = (Fin e, Fin (e * (25 / 18))) /\ 0 < e.
Proof.
  intros HL Hpos. unfold estimateVesselSpeeds.
  destruct (speedFactor_range (vesselCategory p)) as (k & -> & Hk).
  rewrite HL. unfold GRAVITY, MPS_TO_KNOTS. rewrite !mul_Fin.
  rewrite Math_sqrt_pos by lra. rewrite !mul_Fin.
  pose proof (sqrt_lt_R0 (9.81 * L)) as Hs.
  assert (Hsq : 0 < sqrt (9.81 * L)) by (apply Hs; lra).
  exists (0.18 * k * sqrt (9.81 * L) * 1.94384). split.
  - do 2 f_equal. lra.
  - apply Rmult_lt_0_compat; [|lra].
    apply Rmult_lt_0_compat; [lra|exact Hsq].
Qed.

(** X26.  The speeds estimated for a vessel without them are finite and
    positive for every vessel category and every positive finite length,
    the economical speed is below the full speed, and the two are in the
    ratio 18 : 25 of the Froude numbers 0.18 and 0.25 they are derived
    from. *)
Theorem estimateVesselSpeeds_ordered (p : t) (L : R) :
  length p = Fin L -> 0 < L ->
  exists e f,
    estimateVesselSpeeds p = (Fin e, Fin f) /\
    0 < e < f /\ 25 * e = 18 * f.
Proof.
  intros HL Hpos.
  destruct (estimateVesselSpeeds_value p L HL Hpos) as (e & -> & He).
  exists e, (e * (25 / 18)). split; [reflexivity|]. lra.
Qed.

Lemma estimateVesselSpeeds_ordered_witness :
  exists e f,
    estimateVesselSpeeds Example.calibratedPhysics = (Fin e, Fin f) /\
    0 < e < f /\ 25 * e = 18 * f.
Proof.
  apply (estimateVesselSpeeds_ordered Example.calibratedPhysics 100).
  - exact calibratedPhysics_length.
  - lra.
Defined.

Lemma or_else_falsy (a b : number) : truthy a = false -> (a || b)%js = b.
Proof. intros Ha. unfold or_else. rewrite Ha. reflexivity. Qed.

Lemma Rpower_25_18 : 8 / 7 < Rpower (25 / 18) 2.5.
Proof.
  apply Rlt_trans with (Rpower (25 / 18) 2).
  - replace 2 with (INR 2) by (simpl; lra).
    rewrite Rpower_pow by lra. simpl. lra.
  - apply Rpower_lt; lra.
Qed.

(** X12.  For a vessel that gives none of its two speeds and two costs,
    but a positive finite length and displacement, estimateMissingParameters
    fills in finite positive values with ecoSpeed < fullSpeed and
    costEco < costFull, on which solveAlphaBeta does not throw. *)
Theorem estimateMissingParameters_gives_calibration_points (p : t) (L D : R) :
  length p = Fin L -> 0 < L ->
  displacement p = Fin D -> 0 < D ->
  truthy (ecoSpeed p) = false -> truthy (fullSpeed p) = false ->
  truthy (costEco p) = false -> truthy (costFull p) = false ->
  exists e f ce cf,
    ecoSpeed (estimateMissingParameters p) = Fin e /\
    fullSpeed (estimateMissingParameters p) = Fin f /\
    costEco (estimateMissingParameters p) = Fin ce /\
    costFull (estimateMissingParameters p) = Fin cf /\
    0 < e < f /\ 0 < ce < cf /\
    throws (solveAlphaBeta (estimateMissingParameters p)
              (Fin ce) (Fin cf) (Fin e) (Fin f)) = false.
Proof.
  intros HL HLpos HD HDpos He Hf Hce Hcf.
  destruct (estimateVesselSpeeds_value p L HL HLpos) as (e & Hspeeds & Hepos).
  unfold estimateMissingParameters. rewrite He, Hf. cbn [negb orb].
  rewrite Hspeeds.
  rewrite (or_else_falsy (ecoSpeed p)), (or_else_falsy (fullSpeed p)) by assumption.
  cbn [costEco costFull set_speeds]. rewrite Hce, Hcf. cbn [negb orb].
  unfold estimateVesselCosts.
  cbn [displacement ecoSpeed fullSpeed set_speeds]. rewrite HD.
  rewrite (or_else_falsy (costEco p)), (or_else_falsy (costFull p)) by assumption.
  assert (Hfpos : 0 < e * (25 / 18)) by lra.
  rewrite !Math_pow_pos by lra.
  unfold FUEL_PRICE_PER_LITER, FUEL_ENERGY_DENSITY.
  rewrite !mul_Fin, !add_Fin, !mul_Fin.
  rewrite !div_Fin by lra.
  cbn [ecoSpeed fullSpeed costEco costFull set_costs set_speeds].
  set (pe := Rpower e 2.5).
  set (pf := Rpower (e * (25 / 18)) 2.5).
  assert (Hpe : 0 < pe) by (apply exp_pos).
  assert (Hpf : 8 / 7 * pe < pf).
  { subst pe pf. rewrite <- Rpower_mult_distr by lra.
    pose proof Rpower_25_18 as H. rewrite (Rmult_comm (Rpower e 2.5)).
    apply Rmult_lt_compat_r; [apply exp_pos|exact H]. }
  assert (HDe : 0 < D * pe) by (apply Rmult_lt_0_compat; assumption).
  assert (HDf : 8 / 7 * (D * pe) < D * pf) by nra.
  set (ce := D * pe * 0.015 * 1.92 / (0.35 * 42.7 * 3.6)).
  set (cf := D * pf * 0.015 * 1.92 / ((0.35 + 0.05) * 42.7 * 3.6)).
  assert (Hcepos : 0 < ce).
  { subst ce. apply Rdiv_lt_0_compat; lra. }
  assert (Hlt : ce < cf).
  { subst ce cf.
    apply Rmult_lt_reg_r with (0.35 * 42.7 * 3.6 * ((0.35 + 0.05) * 42.7 * 3.6));
      [lra|].
    field_simplify; lra. }
  exists e, (e * (25 / 18)), ce, cf.
  repeat (split; [reflexivity || lra|]).
  rewrite solveAlphaBeta_throws.
  assert (H1 : truthy (Fin ce) = true) by (apply truthy_Fin; lra).
  assert (H2 : truthy (Fin cf) = true) by (apply truthy_Fin; lra).
  assert (H3 : truthy (Fin e) = true) by (apply truthy_Fin; lra).
  assert (H4 : truthy (Fin (e * (25 / 18))) = true) by (apply truthy_Fin; lra).
  rewrite H1, H2, H3, H4. cbn [negb orb].
  rewrite !orb_false_r. js_eval; try reflexivity.
Qed.

Lemma estimateMissingParameters_gives_calibration_points_witness :
  exists e f ce cf,
    ecoSpeed (estimateMissingParameters Example.unpricedPhysics) = Fin e /\
    fullSpeed (estimateMissingParameters Example.unpricedPhysics) = Fin f /\
    costEco (estimateMissingParameters Example.unpricedPhysics) = Fin ce /\
    costFull (estimateMissingParameters Example.unpricedPhysics) = Fin cf /\
    0 < e < f /\ 0 < ce < cf /\
    throws (solveAlphaBeta (estimateMissingParameters Example.unpricedPhysics)
              (Fin ce) (Fin cf) (Fin e) (Fin f)) = false.
Proof.
  apply (estimateMissingParameters_gives_calibration_points
           Example.unpricedPhysics 100 8000);
    try reflexivity; lra.
Defined.

(** X6.  The annual impact is never negative on a clean cost that is not:
    when the clean cost at the speed is a finite number c >= 0 and the
    operating hours are a finite number h >= 0, calculateAnnualImpact
    returns the object of calculateCostAt as hourlyImpact and a finite
    annualExtraCost >= 0, which is 0 for a clean hull (level 0). *)
Theorem calculateAnnualImpact_extra_cost_not_negative
    (p : t) (speed : number) (frLevel : nat) (c h : R) :
  Spec.calibrated p ->
  calculateBaseCost p speed = Ok (p, Fin c) ->
  0 <= c -> 0 <= h ->
  exists a x,
    calculateAnnualImpact p speed frLevel (Fin h) = Ok (p, a) /\
    calculateCostAt p speed frLevel = Ok (p, hourlyImpact a) /\
    operatingHours a = Fin h /\
    annualExtraCost a = Fin x /\
    0 <= x /\
    (frLevel = 0%nat -> x = 0).
Proof.
  intros (a0 & b0 & Ha & Hb) Hbase Hc Hh.
  destruct (calculateCostAt_calibrated p a0 b0 speed frLevel Ha Hb)
    as (baseCost & HbaseCost & Hcost).
  rewrite Hbase in HbaseCost. injection HbaseCost as <-.
  destruct (speedReductionAt_total (froude p speed)) as (rho & Hrho & Hrange).
  destruct (foulingIncrease_range frLevel) as (i & Hi & Hirange).
  unfold calculateAnnualImpact. rewrite Hcost. cbn [bind].
  cbn [clean fouled]. rewrite Hrho, Hi. cbn [mul add sub neg].
  eexists; eexists.
  split; [reflexivity|].
  cbn [hourlyImpact operatingHours annualExtraCost].
  split; [reflexivity|]. split; [reflexivity|]. split; [reflexivity|].
  assert (Hprod : 0 <= c * (i * rho)).
  { apply Rmult_le_pos; [exact Hc | apply Rmult_le_pos; lra]. }
  split.
  - apply Rmult_le_pos; [lra|exact Hh].
  - intros ->. unfold index_or, foulingIncreases in Hi. cbn [nth_error] in Hi.
    assert (Hi0 : i = 0).
    { revert Hi. js_eval; intros H; injection H as <-; reflexivity. }
    subst i. ring.
Qed.

Lemma calculateAnnualImpact_extra_cost_not_negative_witness :
  exists a x,
    calculateAnnualImpact Example.calibratedPhysics (Fin 12) 3 (Fin 2400)
      = Ok (Example.calibratedPhysics, a) /\
    calculateCostAt Example.calibratedPhysics (Fin 12) 3
      = Ok (Example.calibratedPhysics, hourlyImpact a) /\
    operatingHours a = Fin 2400 /\
    annualExtraCost a = Fin x /\
    0 <= x /\
    (3%nat = 0%nat -> x = 0).
Proof.
  apply (calculateAnnualImpact_extra_cost_not_negative
           Example.calibratedPhysics (Fin 12) 3 150 2400).
  - exact calibratedPhysics_calibrated.
  - exact calibratedPhysics_ecoCost.
  - lra.
  - lra.
Defined.

End Estimates.

(* ================================================================== *)
(** ** WeatherService: sea conditions *)
(* ================================================================== *)

Section SeaConditions.

Import AdaptiveFoulingModel WeatherService.

Lemma determineSeaCondition_cases (w : CurrentWeather) :
  (condition (determineSeaCondition w) = "calm"%string /\
   code (determineSeaCondition w) = 0%nat) \/
  (condition (determineSeaCondition w) = "moderate"%string /\
   code (determineSeaCondition w) = 1%nat) \/
  (condition (determineSeaCondition w) = "rough"%string /\
   code (determineSeaCondition w) = 2%nat) \/
  (condition (determineSeaCondition w) = "storm"%string /\
   code (determineSeaCondition w) = 3%nat).
Proof.
  unfold determineSeaCondition.
  repeat match goal with
    | |- context [if ?c then _ else _] => destruct c
    end; cbn [condition code]; tauto.
Qed.

(** X27.  The sea condition the weather service determines is always one
    of calm, moderate, rough and storm, with the codes 0 to 3, and the fuel
    impact estimateMarineConditions reports for it is the multiplier the
    engine's predict applies for a reading taken in that weather: a number
    between 1.0 and 1.30. *)
Theorem sea_condition_has_the_engine_multiplier (w : CurrentWeather) :
  In (condition (determineSeaCondition w), code (determineSeaCondition w))
     [("calm", 0); ("moderate", 1); ("rough", 2); ("storm", 3)]%string%nat /\
  seaState (estimateMarineConditions w) = code (determineSeaCondition w) /\
  fuelImpactMultiplier (estimateMarineConditions w) =
    Spec.appliedMultiplier (Some (condition (determineSeaCondition w))) /\
  exists k,
    fuelImpactMultiplier (estimateMarineConditions w) = Num (Fin k) /\
    1.0 <= k <= 1.30.
Proof.
  unfold estimateMarineConditions. cbn [seaState fuelImpactMultiplier].
  destruct (determineSeaCondition_cases w)
    as [[-> ->]|[[-> ->]|[[-> ->]|[-> ->]]]];
    (split; [cbn [In]; tauto|]); (split; [reflexivity|]);
    unfold calculateFuelImpact, Spec.appliedMultiplier, weather_or_calm,
      impacts, weatherMultipliers;
    cbn [String.eqb Ascii.eqb Bool.eqb];
    unfold value_or, value_truthy;
    (assert (H1 : truthy (Fin 1.0) = true) by (apply truthy_Fin; lra));
    (assert (H2 : truthy (Fin 1.05) = true) by (apply truthy_Fin; lra));
    (assert (H3 : truthy (Fin 1.15) = true) by (apply truthy_Fin; lra));
    (assert (H4 : truthy (Fin 1.30) = true) by (apply truthy_Fin; lra));
    rewrite ?H1, ?H2, ?H3, ?H4;
    (split; [reflexivity|]); eexists; (split; [reflexivity|lra]).
Qed.

(** X28.  More wind never gives a milder sea or a lower risk: for the same
    description and finite wind speeds w1 <= w2, the code of the sea
    condition and the rank of the safety level estimateMarineConditions
    reports at w1 are at most those at w2. *)
Theorem sea_state_is_monotone_in_wind (d : option string) (w1 w2 : R) :
  w1 <= w2 ->
  (seaState (estimateMarineConditions {| windSpeed := Fin w1; description := d |})
   <= seaState (estimateMarineConditions {| windSpeed := Fin w2; description := d |}))%nat /\
  (riskRank (safetyLevel
     (estimateMarineConditions {| windSpeed := Fin w1; description := d |}))
   <= riskRank (safetyLevel
     (estimateMarineConditions {| windSpeed := Fin w2; description := d |})))%nat.
Proof.
  intros Hle.
  unfold estimateMarineConditions, determineSeaCondition, getSafetyLevel, riskRank.
  cbn [windSpeed description seaState safetyLevel].
  destruct (CalculatorService.includes _ "calm");
  destruct (CalculatorService.includes _ "storm");
  destruct (CalculatorService.includes _ "thunderstorm");
  js_eval; cbn; try lia.
Qed.

Lemma sea_state_is_monotone_in_wind_witness :
  (seaState (estimateMarineConditions
     {| windSpeed := Fin 10; description := Some "light rain"%string |})
   <= seaState (estimateMarineConditions
     {| windSpeed := Fin 45; description := Some "light rain"%string |}))%nat /\
  (riskRank (safetyLevel (estimateMarineConditions
     {| windSpeed := Fin 10; description := Some "light rain"%string |}))
   <= riskRank (safetyLevel (estimateMarineConditions
     {| windSpeed := Fin 45; description := Some "light rain"%string |})))%nat.
Proof.
  apply (sea_state_is_monotone_in_wind (Some "light rain"%string) 10 45).
  lra.
Defined.

End SeaConditions.
